(** * ai_caller_225: booking, dialogue and reminder core

  A shallow embedding of the scheduling core of the repository:
  - [utils/session_utils.py] ([SessionManager]) and
    [utils/appointment_utils.py] ([AppointmentManager]): the entity store
    and the availability computation;
  - [session_agent.py] ([SessionSchedulingAgent]): the intent extractor and
    the slot-filling dialogue handler;
  - [outbound_session_calls.py] ([SessionOutboundCaller]): the reminder
    sweep.

  Conventions of the embedding.
  - A [datetime] is read as an integer number of microseconds ([Z]) counted
    from 1970-01-01 00:00:00; a [timedelta] is a difference of two readings.
    Where the code adds a [timedelta] that comes from an argument or from a
    stored document, the sum is taken with Python's bounds ([datetime_add],
    [None] for [OverflowError]).  A [datetime] argument that the code
    compares with stored timestamps carries its [tzinfo]: Firestore returns
    timestamps as aware datetimes in UTC, and Python raises [TypeError] when
    a naive [datetime] is compared with an aware one.
  - A Firestore collection is a finite map from document ids to records
    ([gmap]); [add] picks a fresh id, [update] changes an existing document
    and raises on a missing one.  A query is a filter over the documents.
    The store is taken to be reachable: a store call fails only where
    Firestore rejects it (an [update] of a missing document), and the
    results keep their [option] or [bool] type so that the callers' tests
    read as in the source.  An [except] branch is otherwise reached through
    the exceptions Python raises in the code itself ([OverflowError],
    [TypeError]).
  - Record fields that the modelled code never reads (timestamps, notes,
    email and the like) are left out.
  - A Python dict used as a record of optional keys (the conversation
    context) is a [gmap string string].
  - [dateutil]'s parser and the telephony client are outside the repository;
    they are inputs of the functions that call them.
  - Strings are ASCII. *)

From Stdlib Require Import ZArith Lia List String Ascii Sorted.
From stdpp Require Import gmap strings list fin_maps sorting.

Open Scope Z_scope.

(** ** Time *)

Definition minute_us : Z := 60000000.
Definition hour_us : Z := 60 * minute_us.
Definition day_us : Z := 24 * hour_us.

(** [timedelta(minutes=m)], [timedelta(hours=h)], [timedelta(days=d)]. *)
Definition timedelta_minutes (m : Z) : Z := m * minute_us.
Definition timedelta_hours (h : Z) : Z := h * hour_us.
Definition timedelta_days (d : Z) : Z := d * day_us.

(** [d.replace(hour=0, minute=0, second=0, microsecond=0)]. *)
Definition replace_midnight (d : Z) : Z := d - d mod day_us.

(** [d.replace(hour=h)]: the hour field is overwritten, the date and the
  minute, second and microsecond fields are kept. *)
Definition replace_hour (d h : Z) : Z :=
d - ((d mod day_us) / hour_us) * hour_us + h * hour_us.

(** [d.date()] (as the instant of its midnight) and [d.time()] (as the offset
  from midnight); [datetime.combine(date, time)]. *)
Definition date_of (d : Z) : Z := d - d mod day_us.
Definition time_of (d : Z) : Z := d mod day_us.
Definition combine (date time : Z) : Z := date + time.

(** Python keeps a [datetime] between [datetime.min] (0001-01-01 00:00:00)
  and [datetime.max] (9999-12-31 23:59:59.999999), and a [timedelta] within
  999999999 days.  [d + timedelta(...)] raises [OverflowError] when the
  [timedelta] cannot be built or when the sum is no [datetime]. *)
Definition datetime_min : Z := -62135596800000000.
Definition datetime_max : Z := 253402300799999999.
Definition timedelta_max_days : Z := 999999999.

Definition is_timedelta (delta : Z) : bool :=
(- timedelta_max_days * day_us <=? delta)
&& (delta <? (timedelta_max_days + 1) * day_us).

Definition is_datetime (d : Z) : bool :=
(datetime_min <=? d) && (d <=? datetime_max).

(** [d + delta], [None] for [OverflowError]. *)
Definition datetime_add (d delta : Z) : option Z :=
if is_timedelta delta && is_datetime (d + delta) then Some (d + delta) else None.

(** A [datetime] is naive ([tzinfo] is [None]) or aware.  The aware ones of
  the embedding are in UTC, as are the timestamps Firestore returns; [wall]
  is the reading of the clock fields. *)
Inductive timezone := utc.

Record datetime := {
wall : Z;
tzinfo : option timezone
}.

Definition naive (d : Z) : datetime := {| wall := d; tzinfo := None |}.
Definition aware (d : Z) : datetime := {| wall := d; tzinfo := Some utc |}.

(** [a < stored] and [a > stored] for a [datetime] with [tzinfo] [tz] and a
  timestamp read from Firestore: [None] for the [TypeError] Python raises
  when [a] is naive. *)
Definition lt_stored (tz : option timezone) (a stored : Z) : option bool :=
match tz with
| Some utc => Some (a <? stored)
| None => None
end.

Definition gt_stored (tz : option timezone) (a stored : Z) : option bool :=
match tz with
| Some utc => Some (a >? stored)
| None => None
end.

(** ** Entities *)

Definition doc_id := nat.

(** The status values of the data model. *)
Inductive status := scheduled | cancelled | rescheduled | confirmed | completed.

#[global] Instance status_eq_dec : EqDecision status.
Proof. solve_decision. Defined.

(** The half-open interval test used by both availability computations:
  [current_time < busy_end and slot_end > busy_start].  [current_time] and
  [slot_end] have the [tzinfo] [tz] of the date asked for; [busy] comes from
  stored timestamps. *)
Definition conflicts (tz : option timezone) (current_time slot_end : Z)
  (busy : Z * Z) : option bool :=
let '(busy_start, busy_end) := busy in
before_end ← lt_stored tz current_time busy_end;
if before_end : bool then gt_stored tz slot_end busy_start else Some false.

(** The inner [for] loop: [is_available] stays [True] unless some busy slot
  conflicts, and the loop stops at the first that does. *)
Fixpoint is_available (tz : option timezone) (busy_slots : list (Z * Z))
  (current_time slot_end : Z) : option bool :=
match busy_slots with
| [] => Some true
| busy :: rest =>
    conflict ← conflicts tz current_time slot_end busy;
    if conflict : bool then Some false
    else is_available tz rest current_time slot_end
end.

(** The [while] loop that generates the slots; [None] when an iteration
  raises.  Each iteration moves [current_time] forward by 30 minutes, so the
  number of iterations that pass the loop test is bounded by [loop_bound];
  [generate_slots] gives the loop one more than that as fuel, for the
  iteration whose test fails. *)
Fixpoint slot_loop (fuel : nat) (tz : option timezone) (busy_slots : list (Z * Z))
  (duration_minutes end_time current_time : Z) : option (list Z) :=
match fuel with
| O => Some []
| S fuel' =>
    slot_end ← datetime_add current_time (timedelta_minutes duration_minutes);
    if slot_end <=? end_time then
      available ← is_available tz busy_slots current_time slot_end;
      next_time ← datetime_add current_time (timedelta_minutes 30);
      later ← slot_loop fuel' tz busy_slots duration_minutes end_time next_time;
      Some (if available : bool then current_time :: later else later)
    else Some []
end.

Definition loop_bound (duration_minutes end_time current_time : Z) : nat :=
Z.to_nat ((end_time - timedelta_minutes duration_minutes - current_time)
            / timedelta_minutes 30 + 1).

Definition generate_slots (tz : option timezone) (busy_slots : list (Z * Z))
  (duration_minutes end_time current_time : Z) : option (list Z) :=
slot_loop (S (loop_bound duration_minutes end_time current_time))
  tz busy_slots duration_minutes end_time current_time.

Definition business_start : Z := 9.
Definition business_end : Z := 18.

(** ** The session store ([utils/session_utils.py]) *)

Module SessionManager.

(** A document of the [clients] collection.  [sessionsRemaining] is read
    with [client.get('sessionsRemaining', 0)], so the key may be absent. *)
Record client := {
  name : string;
  phone : string;
  trainerId : string;
  sessionsRemaining : option Z;
  packageSize : Z
}.

(** A document of the [sessions] collection.  [duration] is read with
    [session.get('duration', 60)]. *)
Record session := {
  clientId : doc_id;
  clientName : string;
  dateTime : Z;
  location : string;
  session_status : status;
  duration : option Z;
  autoReminderSent : bool;
  session_trainerId : string
}.

Record store := {
  clients : gmap doc_id client;
  sessions : gmap doc_id session
}.

#[global] Instance client_eq_dec : EqDecision client.
Proof. solve_decision. Defined.
#[global] Instance session_eq_dec : EqDecision session.
Proof. solve_decision. Defined.

(** The query of [get_available_slots]:
    [where('trainerId', '==', trainer_id)], [where('dateTime', '>=',
    start_of_day)], [where('dateTime', '<', end_of_day)],
    [where('status', 'in', ['scheduled'])]. *)
Definition existing_sessions (st : store) (trainer_id : string)
    (start_of_day end_of_day : Z) : list (doc_id * session) :=
  filter (fun d : doc_id * session =>
            session_trainerId d.2 = trainer_id
            /\ start_of_day <= dateTime d.2
            /\ dateTime d.2 < end_of_day
            /\ session_status d.2 ∈ [scheduled])
         (map_to_list (sessions st)).

(** One iteration of the loop over the documents: [start_time +
    timedelta(minutes=duration)] with the stored duration may raise. *)
Definition busy_slot (s : session) : option (Z * Z) :=
  let start_time := dateTime s in
  let duration := default 60 (duration s) in
  end_time ← datetime_add start_time (timedelta_minutes duration);
  Some (start_time, end_time).

(** The [try] block of [get_available_slots]; [None] when it raises.  The
    slots are datetimes with the [tzinfo] of [date]; the list holds their
    readings. *)
Definition available_slots (st : store) (trainer_id : string) (date : datetime)
    (duration_minutes : Z) : option (list Z) :=
  let start_of_day := replace_midnight (wall date) in
  end_of_day ← datetime_add start_of_day (timedelta_days 1);
  let existing_sessions :=
    existing_sessions st trainer_id start_of_day end_of_day in
  busy_slots ← mapM (fun d : doc_id * session => busy_slot d.2) existing_sessions;
  let current_time := replace_hour start_of_day business_start in
  let end_time := replace_hour start_of_day business_end in
  generate_slots (tzinfo date) busy_slots duration_minutes end_time current_time.

(** [get_available_slots]: the [except] returns the empty list. *)
Definition get_available_slots (st : store) (trainer_id : string)
    (date : datetime) (duration_minutes : Z) : list Z :=
  match available_slots st trainer_id date duration_minutes with
  | Some available_slots => available_slots
  | None => []
  end.

(** [get_client_by_phone]: [where('phone', '==', phone).limit(1).get()], then
    the first document, with its id. *)
Definition get_client_by_phone (st : store) (ph : string)
  : option (doc_id * client) :=
  head (filter (fun d : doc_id * client => phone d.2 = ph)
               (map_to_list (clients st))).

Definition get_client_by_id (st : store) (client_id : doc_id) : option client :=
  clients st !! client_id.

(** [create_client]: the new document always starts with
    ['sessionsRemaining': 0]; [package_size] only fills [packageSize].  The id
    is the one Firestore's [add] assigns, fresh for the collection. *)
Definition client_data (nm ph trainer_id : string) (package_size : Z) : client :=
  {| name := nm; phone := ph; trainerId := trainer_id;
     sessionsRemaining := Some 0; packageSize := package_size |}.

Definition create_client (st : store) (nm ph trainer_id : string)
    (package_size : Z) : option doc_id * store :=
  let client_id := fresh (dom (clients st)) in
  (Some client_id,
   {| clients :=
        <[client_id := client_data nm ph trainer_id package_size]> (clients st);
      sessions := sessions st |}).

(** [create_session]: no query of the existing sessions is made; the document
    is added with ['status': 'scheduled'] and ['autoReminderSent': False]. *)
Definition session_data (client_id : doc_id) (client_name trainer_id : string)
    (session_time : Z) (loc : string) (dur : Z) : session :=
  {| clientId := client_id; clientName := client_name;
     dateTime := session_time; location := loc;
     session_status := scheduled; duration := Some dur;
     autoReminderSent := false; session_trainerId := trainer_id |}.

Definition create_session (st : store) (client_id : doc_id)
    (client_name trainer_id : string) (session_time : Z) (loc : string)
    (dur : Z) : option doc_id * store :=
  let session_id := fresh (dom (sessions st)) in
  (Some session_id,
   {| clients := clients st;
      sessions :=
        <[session_id := session_data client_id client_name trainer_id
                          session_time loc dur]> (sessions st) |}).

(** [document(session_id).update(fields)]: changes an existing document;
    on a missing one Firestore raises, the caller's [except] returns [False]
    and nothing is written. *)
Definition update_session (st : store) (session_id : doc_id)
    (f : session -> session) : bool * store :=
  match sessions st !! session_id with
  | Some s =>
      (true, {| clients := clients st;
                sessions := <[session_id := f s]> (sessions st) |})
  | None => (false, st)
  end.

Definition update_session_status (st : store) (session_id : doc_id)
    (new_status : status) : bool * store :=
  update_session st session_id
    (fun s => {| clientId := clientId s; clientName := clientName s;
                 dateTime := dateTime s; location := location s;
                 session_status := new_status; duration := duration s;
                 autoReminderSent := autoReminderSent s;
                 session_trainerId := session_trainerId s |}).

Definition cancel_session (st : store) (session_id : doc_id) : bool * store :=
  update_session_status st session_id cancelled.

(** The fields [reschedule_session] writes: ['dateTime': new_time] and
    ['status': 'scheduled']. *)
Definition moved_to (new_time : Z) (s : session) : session :=
  {| clientId := clientId s; clientName := clientName s;
     dateTime := new_time; location := location s;
     session_status := scheduled; duration := duration s;
     autoReminderSent := autoReminderSent s;
     session_trainerId := session_trainerId s |}.

(** [reschedule_session]: one [update], with no query before it. *)
Definition reschedule_session (st : store) (session_id : doc_id)
    (new_time : Z) : bool * store :=
  update_session st session_id (moved_to new_time).

(** The fields [mark_reminder_sent] writes: ['autoReminderSent': True]. *)
Definition with_reminder_sent (s : session) : session :=
  {| clientId := clientId s; clientName := clientName s;
     dateTime := dateTime s; location := location s;
     session_status := session_status s; duration := duration s;
     autoReminderSent := true;
     session_trainerId := session_trainerId s |}.

Definition mark_reminder_sent (st : store) (session_id : doc_id) : bool * store :=
  update_session st session_id with_reminder_sent.

(** [get_sessions_needing_reminders]: [utcnow] is [datetime.utcnow()] at the
    time of the call.  When [utcnow + timedelta(hours=hours_ahead)] raises,
    the [except] returns the empty list. *)
Definition get_sessions_needing_reminders (st : store) (utcnow : Z)
    (hours_ahead : Z) : list (doc_id * session) :=
  match datetime_add utcnow (timedelta_hours hours_ahead) with
  | Some reminder_time =>
      filter (fun d : doc_id * session =>
                autoReminderSent d.2 = false
                /\ session_status d.2 = scheduled
                /\ dateTime d.2 <= reminder_time)
             (map_to_list (sessions st))
  | None => []
  end.

Definition get_session_by_id (st : store) (session_id : doc_id) : option session :=
  sessions st !! session_id.

Definition get_client_sessions_remaining (st : store) (client_id : doc_id) : Z :=
  match get_client_by_id st client_id with
  | Some c => default 0 (sessionsRemaining c)
  | None => 0
  end.

(** The field [update_client_sessions_remaining] writes. *)
Definition with_sessions_remaining (sessions_remaining : Z) (c : client) : client :=
  {| name := name c; phone := phone c; trainerId := trainerId c;
     sessionsRemaining := Some sessions_remaining;
     packageSize := packageSize c |}.

Definition update_client_sessions_remaining (st : store) (client_id : doc_id)
    (sessions_remaining : Z) : bool * store :=
  match clients st !! client_id with
  | Some c =>
      (true,
       {| clients :=
            <[client_id := with_sessions_remaining sessions_remaining c]>
              (clients st);
          sessions := sessions st |})
  | None => (false, st)
  end.

(** [order_by('dateTime', direction='DESCENDING')] and
    [order_by('dateTime')]; documents with the same [dateTime] come in the
    order the sort leaves them. *)
Definition later_first (x y : doc_id * session) : Prop :=
  dateTime y.2 <= dateTime x.2.
Definition earlier_first (x y : doc_id * session) : Prop :=
  dateTime x.2 <= dateTime y.2.

#[global] Instance later_first_dec : RelDecision later_first.
Proof. intros x y. unfold later_first. apply _. Defined.
#[global] Instance earlier_first_dec : RelDecision earlier_first.
Proof. intros x y. unfold earlier_first. apply _. Defined.

(** [get_sessions_for_client]: [where('clientId', '==', client_id)], ordered
    by [dateTime] descending, [limit(limit)]. *)
Definition get_sessions_for_client (st : store) (client_id : doc_id)
    (limit : nat) : list (doc_id * session) :=
  take limit
    (merge_sort later_first
       (filter (fun d : doc_id * session => clientId d.2 = client_id)
               (map_to_list (sessions st)))).

(** [get_upcoming_sessions]: the window is closed at both ends; the trainer
    filter is added only [if trainer_id:], that is for a non-empty id; there
    is no filter on the status.  When [start_time +
    timedelta(days=days_ahead)] raises, the [except] returns the empty
    list. *)
Definition get_upcoming_sessions (st : store) (utcnow : Z)
    (trainer_id : option string) (days_ahead : Z) : list (doc_id * session) :=
  let start_time := utcnow in
  match datetime_add start_time (timedelta_days days_ahead) with
  | Some end_time =>
      let query :=
        filter (fun d : doc_id * session =>
                  start_time <= dateTime d.2 /\ dateTime d.2 <= end_time)
               (map_to_list (sessions st)) in
      let query :=
        match trainer_id with
        | Some t =>
            if String.eqb t "" then query
            else filter (fun d : doc_id * session => session_trainerId d.2 = t)
                        query
        | None => query
        end in
      merge_sort earlier_first query
  | None => []
  end.

End SessionManager.

(** ** The appointment store ([utils/appointment_utils.py]) *)

Module AppointmentManager.

Record appointment := {
  client_id : doc_id;
  trainer_id : string;
  appointment_time : Z;
  duration_minutes : Z;
  appointment_status : status;
  reminder_sent : bool
}.

Record client := {
  name : string;
  phone : string
}.

Record store := {
  clients : gmap doc_id client;
  appointments : gmap doc_id appointment
}.

(** [where('status', 'in', ['scheduled', 'confirmed'])]. *)
Definition existing_appointments (st : store) (trainer : string)
    (start_of_day end_of_day : Z) : list (doc_id * appointment) :=
  filter (fun d : doc_id * appointment =>
            trainer_id d.2 = trainer
            /\ start_of_day <= appointment_time d.2
            /\ appointment_time d.2 < end_of_day
            /\ appointment_status d.2 ∈ [scheduled; confirmed])
         (map_to_list (appointments st)).

Definition busy_slot (a : appointment) : option (Z * Z) :=
  let start_time := appointment_time a in
  end_time ← datetime_add start_time (timedelta_minutes (duration_minutes a));
  Some (start_time, end_time).

(** [get_available_slots] has no [try]: [None] when it raises, to its
    caller.  The slots are datetimes with the [tzinfo] of [date]; the list
    holds their readings. *)
Definition get_available_slots (st : store) (trainer : string) (date : datetime)
    (duration : Z) : option (list Z) :=
  let start_of_day := replace_midnight (wall date) in
  end_of_day ← datetime_add start_of_day (timedelta_days 1);
  let existing_appointments :=
    existing_appointments st trainer start_of_day end_of_day in
  busy_slots ←
    mapM (fun d : doc_id * appointment => busy_slot d.2) existing_appointments;
  let current_time := replace_hour start_of_day business_start in
  let end_time := replace_hour start_of_day business_end in
  generate_slots (tzinfo date) busy_slots duration end_time current_time.

Definition update_appointment (st : store) (appointment_id : doc_id)
    (f : appointment -> appointment) : bool * store :=
  match appointments st !! appointment_id with
  | Some a =>
      (true, {| clients := clients st;
                appointments := <[appointment_id := f a]> (appointments st) |})
  | None => (false, st)
  end.

(** The fields [reschedule_appointment] writes: ['appointment_time':
    new_time] and ['status': 'rescheduled']. *)
Definition moved_to (new_time : Z) (a : appointment) : appointment :=
  {| client_id := client_id a; trainer_id := trainer_id a;
     appointment_time := new_time;
     duration_minutes := duration_minutes a;
     appointment_status := rescheduled;
     reminder_sent := reminder_sent a |}.

(** [reschedule_appointment]: one [update], with no query before it. *)
Definition reschedule_appointment (st : store) (appointment_id : doc_id)
    (new_time : Z) : bool * store :=
  update_appointment st appointment_id (moved_to new_time).

Definition get_client_by_phone (st : store) (ph : string)
  : option (doc_id * client) :=
  head (filter (fun d : doc_id * client => phone d.2 = ph)
               (map_to_list (clients st))).

Definition create_client (st : store) (nm ph : string) : doc_id * store :=
  let client_data := {| name := nm; phone := ph |} in
  let client_id := fresh (dom (clients st)) in
  (client_id,
   {| clients := <[client_id := client_data]> (clients st);
      appointments := appointments st |}).

Definition create_appointment (st : store) (cl : doc_id) (trainer : string)
    (time : Z) (dur : Z) : doc_id * store :=
  let appointment_data :=
    {| client_id := cl; trainer_id := trainer; appointment_time := time;
       duration_minutes := dur; appointment_status := scheduled;
       reminder_sent := false |} in
  let appointment_id := fresh (dom (appointments st)) in
  (appointment_id,
   {| clients := clients st;
      appointments := <[appointment_id := appointment_data]> (appointments st) |}).

Definition get_client_by_id (st : store) (cl : doc_id) : option client :=
  clients st !! cl.

Definition with_status (new_status : status) (a : appointment) : appointment :=
  {| client_id := client_id a; trainer_id := trainer_id a;
     appointment_time := appointment_time a;
     duration_minutes := duration_minutes a;
     appointment_status := new_status;
     reminder_sent := reminder_sent a |}.

Definition update_appointment_status (st : store) (appointment_id : doc_id)
    (new_status : status) : bool * store :=
  update_appointment st appointment_id (with_status new_status).

(** [cancel_appointment]: ['status': 'cancelled']. *)
Definition cancel_appointment (st : store) (appointment_id : doc_id)
  : bool * store :=
  update_appointment st appointment_id (with_status cancelled).

(** The field [mark_reminder_sent] writes: ['reminder_sent': True]. *)
Definition with_reminder_sent (a : appointment) : appointment :=
  {| client_id := client_id a; trainer_id := trainer_id a;
     appointment_time := appointment_time a;
     duration_minutes := duration_minutes a;
     appointment_status := appointment_status a;
     reminder_sent := true |}.

Definition mark_reminder_sent (st : store) (appointment_id : doc_id)
  : bool * store :=
  update_appointment st appointment_id with_reminder_sent.

(** [get_appointments_needing_reminders]:
    [where('reminder_sent', '==', False)],
    [where('status', 'in', ['scheduled', 'confirmed'])],
    [where('appointment_time', '<=', reminder_time)].  The lead is taken to
    be one for which [utcnow + timedelta(hours=hours_ahead)] is a
    [datetime]; for any other the sum raises before a document is read. *)
Definition get_appointments_needing_reminders (st : store) (utcnow : Z)
    (hours_ahead : Z) : list (doc_id * appointment) :=
  let reminder_time := utcnow + timedelta_hours hours_ahead in
  filter (fun d : doc_id * appointment =>
            reminder_sent d.2 = false
            /\ appointment_status d.2 ∈ [scheduled; confirmed]
            /\ appointment_time d.2 <= reminder_time)
         (map_to_list (appointments st)).

End AppointmentManager.


(** ** Text: the fragment of Python's [str] and [re] the agents use *)

Definition chars (s : string) : list ascii := list_ascii_of_string s.
Definition text (l : list ascii) : string := string_of_list_ascii l.

Definition code (c : ascii) : nat := nat_of_ascii c.

Definition is_upper (c : ascii) : bool := ((65 <=? code c) && (code c <=? 90))%nat.
Definition is_lower (c : ascii) : bool := ((97 <=? code c) && (code c <=? 122))%nat.
(** [\d] *)
Definition is_digit (c : ascii) : bool := ((48 <=? code c) && (code c <=? 57))%nat.
(** [\s], and the characters [str.strip()] removes. *)
Definition is_space (c : ascii) : bool :=
  (((9 <=? code c) && (code c <=? 13)) || ((28 <=? code c) && (code c <=? 32)))%nat.
(** [\w], which decides [\b]. *)
Definition is_word (c : ascii) : bool :=
  is_upper c || is_lower c || is_digit c || (code c =? 95)%nat.
(** [[a-zA-Z\s]] *)
Definition is_letter_or_space (c : ascii) : bool :=
  is_lower c || is_upper c || is_space c.

(** [str.lower()] *)
Definition lower_char (c : ascii) : ascii :=
  if is_upper c then ascii_of_nat (code c + 32) else c.
Definition lower (s : list ascii) : list ascii := map lower_char s.

(** [str.strip()] *)
Fixpoint lstrip (s : list ascii) : list ascii :=
  match s with
  | c :: tl => if is_space c then lstrip tl else s
  | [] => []
  end.
Definition strip (s : list ascii) : list ascii := rev (lstrip (rev (lstrip s))).

(** [word in message]: substring test. *)
Fixpoint starts_with (word s : list ascii) : bool :=
  match word, s with
  | [], _ => true
  | w :: word', c :: s' => if Ascii.eqb w c then starts_with word' s' else false
  | _ :: _, [] => false
  end.
Fixpoint contains (word s : list ascii) : bool :=
  starts_with word s ||
  match s with
  | [] => false
  | _ :: s' => contains word s'
  end.

(** Regular expressions: the constructs that occur in the agents' patterns.
    [Rep lo hi r] is the greedy [r{lo,hi}] ([hi = None] for no upper bound),
    [WordBoundary] is [\b], [Group] is the (single) capturing group. *)
Inductive regex :=
| Eps
| Chr (p : ascii -> bool)
| Seq (r1 r2 : regex)
| Alt (r1 r2 : regex)
| Rep (lo : nat) (hi : option nat) (r : regex)
| WordBoundary
| Group (r : regex).

(** A position of the matcher: the character before it, the input from it on,
    and the text of group 1 if it has been closed. *)
Record mstate := {
  before : option ascii;
  input : list ascii;
  group1 : option (list ascii)
}.

Definition word_before (s : mstate) : bool :=
  match before s with Some c => is_word c | None => false end.
Definition word_after (s : mstate) : bool :=
  match input s with c :: _ => is_word c | [] => false end.

Definition capture (s0 s1 : mstate) : mstate :=
  {| before := before s1; input := input s1;
     group1 := Some (firstn (length (input s0) - length (input s1)) (input s0)) |}.

(** A backtracking matcher in continuation-passing style: [rmatch r s k]
    tries the ways [r] can match at [s], in the order of Python's [re]
    (left alternative first, longest repetition first), and returns the first
    one the continuation [k] accepts. *)
Fixpoint rmatch (r : regex) (s : mstate) (k : mstate -> option mstate)
  : option mstate :=
  match r with
  | Eps => k s
  | Chr p =>
      match input s with
      | c :: tl =>
          if p c
          then k {| before := Some c; input := tl; group1 := group1 s |}
          else None
      | [] => None
      end
  | Seq r1 r2 => rmatch r1 s (fun s1 => rmatch r2 s1 k)
  | Alt r1 r2 =>
      match rmatch r1 s k with
      | Some m => Some m
      | None => rmatch r2 s k
      end
  | Rep lo hi r1 =>
      (fix iter (fuel count : nat) (s : mstate) {struct fuel} : option mstate :=
         let stop := if (lo <=? count)%nat then k s else None in
         match fuel with
         | O => stop
         | S fuel' =>
             if match hi with Some h => (count <? h)%nat | None => true end
             then
               match rmatch r1 s
                       (fun s1 =>
                          if (length (input s1) <? length (input s))%nat
                          then iter fuel' (S count) s1
                          else None) with
               | Some m => Some m
               | None => stop
               end
             else stop
         end) (length (input s)) O s
  | WordBoundary => if xorb (word_before s) (word_after s) then k s else None
  | Group r1 => rmatch r1 s (fun s1 => k (capture s s1))
  end.

(** [re.findall(pattern, s)] for a pattern with one group: the scan tries
    every position from the left; after a match it resumes at the end of the
    match ([skip] counts the characters still covered by it) and the result
    collects the text of group 1. *)
Fixpoint findall_from (r : regex) (prev : option ascii) (s : list ascii)
    (skip : nat) {struct s} : list (list ascii) :=
  match skip, s with
  | S skip', c :: tl => findall_from r (Some c) tl skip'
  | S _, [] => []
  | O, _ =>
      match rmatch r {| before := prev; input := s; group1 := None |} Some with
      | Some m =>
          let consumed := (length s - length (input m))%nat in
          default [] (group1 m) ::
            match s with
            | c :: tl => findall_from r (Some c) tl (consumed - 1)
            | [] => []
            end
      | None =>
          match s with
          | c :: tl => findall_from r (Some c) tl O
          | [] => []
          end
      end
  end.

Definition findall (r : regex) (s : list ascii) : list (list ascii) :=
  findall_from r None s O.

(** Pattern combinators. *)
Fixpoint Lit (w : list ascii) : regex :=
  match w with
  | [] => Eps
  | c :: w' => Seq (Chr (Ascii.eqb c)) (Lit w')
  end.
Definition Word (w : string) : regex := Lit (chars w).
Fixpoint Alts (rs : list regex) : regex :=
  match rs with
  | [] => Chr (fun _ => false)
  | [r] => r
  | r :: rs' => Alt r (Alts rs')
  end.
Fixpoint Seqs (rs : list regex) : regex :=
  match rs with
  | [] => Eps
  | r :: rs' => Seq r (Seqs rs')
  end.
Definition OneOf (cs : string) : regex :=
  Chr (fun c => existsb (Ascii.eqb c) (chars cs)).
Definition Digits (lo hi : nat) : regex := Rep lo (Some hi) (Chr is_digit).
Definition Opt (r : regex) : regex := Rep 0 (Some 1%nat) r.
Definition Star (r : regex) : regex := Rep 0 None r.
Definition Plus (r : regex) : regex := Rep 1 None r.

(** [date_patterns] *)
Definition date_patterns : list regex :=
  [ (* \b(monday|tuesday|wednesday|thursday|friday|saturday|sunday)\b *)
    Seqs [WordBoundary;
          Group (Alts (map Word ["monday"; "tuesday"; "wednesday"; "thursday";
                                 "friday"; "saturday"; "sunday"]%string));
          WordBoundary];
    (* \b(\d{1,2}[/-]\d{1,2}[/-]\d{2,4})\b *)
    Seqs [WordBoundary;
          Group (Seqs [Digits 1 2; OneOf "/-"; Digits 1 2; OneOf "/-"; Digits 2 4]);
          WordBoundary];
    (* \b(today|tomorrow|next week)\b *)
    Seqs [WordBoundary;
          Group (Alts (map Word ["today"; "tomorrow"; "next week"]%string));
          WordBoundary] ].

(** [time_patterns] *)
Definition am_pm : regex := Alt (Word "am") (Word "pm").
Definition time_patterns : list regex :=
  [ (* \b(\d{1,2}:\d{2}\s*(?:am|pm))\b *)
    Seqs [WordBoundary;
          Group (Seqs [Digits 1 2; OneOf ":"; Digits 2 2; Star (Chr is_space); am_pm]);
          WordBoundary];
    (* \b(\d{1,2}\s*(?:am|pm))\b *)
    Seqs [WordBoundary;
          Group (Seqs [Digits 1 2; Star (Chr is_space); am_pm]);
          WordBoundary];
    (* \b(morning|afternoon|evening)\b *)
    Seqs [WordBoundary;
          Group (Alts (map Word ["morning"; "afternoon"; "evening"]%string));
          WordBoundary] ].

(** [phone_pattern]: \b(\d{3}[-.]?\d{3}[-.]?\d{4})\b *)
Definition phone_pattern : regex :=
  Seqs [WordBoundary;
        Group (Seqs [Digits 3 3; Opt (OneOf "-."); Digits 3 3; Opt (OneOf "-.");
                     Digits 4 4]);
        WordBoundary].

(** [name_patterns]: my name is ([a-zA-Z\s]+), i\'m ([a-zA-Z\s]+),
    this is ([a-zA-Z\s]+) *)
Definition name_patterns : list regex :=
  [ Seq (Word "my name is ") (Group (Plus (Chr is_letter_or_space)));
    Seq (Word "i'm ") (Group (Plus (Chr is_letter_or_space)));
    Seq (Word "this is ") (Group (Plus (Chr is_letter_or_space))) ].

(** [for pattern in patterns: extracted.extend(re.findall(pattern, s))] *)
Definition findall_each (patterns : list regex) (s : list ascii) : list string :=
  map text (concat (map (fun pattern => findall pattern s) patterns)).

(** ** Intent extraction *)

Inductive intent_tag :=
| schedule | reschedule | cancel | check_availability | check_remaining | general.

#[global] Instance intent_tag_eq_dec : EqDecision intent_tag.
Proof. solve_decision. Defined.

(** The dict returned by the extractors, keys ['intent'], ['dates'],
    ['times'], ['phone'] and ['name']. *)
Record extracted_info := {
  info_intent : intent_tag;
  info_dates : list string;
  info_times : list string;
  info_phone : option string;
  info_name : option string
}.

(** [any(word in message_lower for word in words)] *)
Definition any_word_in (words : list string) (message_lower : list ascii) : bool :=
  existsb (fun word => contains (chars word) message_lower) words.

Definition extract_fields (it : intent_tag) (message : string) : extracted_info :=
  let message_lower := lower (chars message) in
  let extracted_dates := findall_each date_patterns message_lower in
  let extracted_times := findall_each time_patterns message_lower in
  let phone_matches := findall phone_pattern (chars message) in
  let extracted_names :=
    concat (map (fun pattern => findall pattern message_lower) name_patterns) in
  {| info_intent := it;
     info_dates := extracted_dates;
     info_times := extracted_times;
     info_phone := text <$> head phone_matches;
     info_name := (fun n => text (strip n)) <$> head extracted_names |}.

(** ** The dialogue handlers *)

(** What a turn reads from outside the program: [datetime.now()] and
    [dateutil]'s [parser.parse], an external library ([None] when it
    raises).  Both give naive datetimes; [parser.parse] is called with what
    the date and time patterns extract, which names no time zone. *)
Record environment := {
  now : Z;
  parser_parse : string -> option Z
}.

(** The replies, named after what each message says. *)
Inductive reply :=
| ask_name                    (* "... Could you please tell me your name?" *)
| ask_phone                   (* "Great! Could you please provide your phone number ..." *)
| ask_date                    (* "What date would you prefer ..." *)
| ask_time                    (* "What time would work best for you?" *)
| client_profile_issue        (* "... there was an issue creating your client profile ..." *)
| no_remaining_sessions       (* "I see you don't have any remaining sessions in your package ..." *)
| session_scheduled (session_datetime remaining : Z)
                              (* "Perfect! I've scheduled your training session for ..." *)
| appointment_scheduled (appointment_datetime : Z) (appointment_id : doc_id)
                              (* "Perfect! I've scheduled your appointment for ..." *)
| scheduling_issue            (* "... there was an issue scheduling your session. Please try again." *)
| different_format            (* "... provide the date and time in a different format? ..." *)
| reschedule_prompt           (* "I can help you reschedule your training session ..." *)
| cancel_prompt               (* "I can help you cancel your training session ..." *)
| available_times (slots : list Z)   (* "Available times: ..." *)
| no_available_slots          (* "No available slots found for the requested date." *)
| date_not_understood         (* "... I couldn't understand that date ..." *)
| ask_availability_date       (* "What date would you like to check availability for?" *)
| remaining_sessions (remaining : Z) (* "You have {remaining} training sessions remaining ..." *)
| profile_not_found           (* "I couldn't find your client profile ..." *)
| ask_phone_for_remaining     (* "Could you please provide your phone number so I can check ..." *)
| general_help.               (* "I can help you schedule, reschedule, or cancel ..." *)

#[global] Instance reply_eq_dec : EqDecision reply.
Proof. solve_decision. Defined.

(** Truth value of a Python [str]. *)
Definition truthy (s : string) : bool := negb (String.eqb s "").

(** "Update context with extracted information": the four [if] statements,
    the same in both agents. *)
Definition update_context (context : gmap string string) (info : extracted_info)
  : gmap string string :=
  let context :=
    match info_name info with
    | Some n => if truthy n then <["name" := n]> context else context
    | None => context
    end in
  let context :=
    match info_phone info with
    | Some p => if truthy p then <["phone" := p]> context else context
    | None => context
    end in
  let context :=
    match info_dates info with
    | d :: _ => <["date" := d]> context
    | [] => context
    end in
  let context :=
    match info_times info with
    | t :: _ => <["time" := t]> context
    | [] => context
    end in
  context.

Definition required_fields : list string := ["name"; "phone"; "date"; "time"].

(** [[field for field in required_fields if field not in context]] *)
Definition missing_fields (context : gmap string string) : list string :=
  filter (fun field => context !! field = None) required_fields.

Definition in_list (field : string) (fields : list string) : bool :=
  existsb (String.eqb field) fields.

(** The prompt for the first missing field; [None] when the [if]/[elif] chain
    falls through. *)
Definition prompt_for (missing : list string) : option reply :=
  match missing with
  | [] => None
  | _ :: _ =>
      if in_list "name" missing then Some ask_name
      else if in_list "phone" missing then Some ask_phone
      else if in_list "date" missing then Some ask_date
      else if in_list "time" missing then Some ask_time
      else None
  end.

Definition lower_string (s : string) : string := text (lower (chars s)).

(** "Parse date and time" and "Combine date and time"; [None] when a step
    raises. *)
Definition resolve_datetime (env : environment) (date_str time_str : string)
  : option Z :=
  session_date ←
    (if String.eqb (lower_string date_str) "today" then
       Some (date_of (now env))
     else if String.eqb (lower_string date_str) "tomorrow" then
       Some (date_of (now env + timedelta_days 1))
     else date_of <$> parser_parse env date_str);
  session_time ← time_of <$> parser_parse env time_str;
  Some (combine session_date session_time).

(** What the [try] block reads from the context, in the order the code reads
    it; a missing key raises [KeyError], caught by the [except]. *)
Definition read_draft (env : environment) (context : gmap string string)
  : option (Z * string * string) :=
  date_str ← context !! "date";
  time_str ← context !! "time";
  session_datetime ← resolve_datetime env date_str time_str;
  ph ← context !! "phone";
  nm ← context !! "name";
  Some (session_datetime, ph, nm).

Module SessionSchedulingAgent.

Record agent := {
  session_manager : SessionManager.store;
  conversation_context : gmap string (gmap string string)
}.

Definition default_trainer_id : string := "8QYQXt91Kzf4j4w0i2kogb4zEyN2".

Definition extract_session_intent (message : string) : extracted_info :=
  let message_lower := lower (chars message) in
  let intent :=
    if any_word_in ["schedule"; "book"; "session"; "training"] message_lower
    then schedule
    else if any_word_in ["reschedule"; "change"; "move"] message_lower
    then reschedule
    else if any_word_in ["cancel"; "remove"] message_lower
    then cancel
    else if any_word_in ["available"; "availability"; "free"] message_lower
    then check_availability
    else if any_word_in ["remaining"; "sessions left"; "how many"] message_lower
    then check_remaining
    else general in
  extract_fields intent message.

(** [format_available_slots]: the first five slots are shown. *)
Definition format_available_slots (slots : list Z) : reply :=
  match slots with
  | [] => no_available_slots
  | _ :: _ => available_times (firstn 5 slots)
  end.

(** The part of [handle_schedule_request] from "Check if client exists" to
    the end of the [try] block: client lookup or creation, the balance check,
    [create_session], and the balance write. *)
Definition book_session (st : SessionManager.store) (nm ph : string)
    (session_datetime : Z) : reply * SessionManager.store :=
  let '(created, st1) :=
    match SessionManager.get_client_by_phone st ph with
    | None => SessionManager.create_client st nm ph default_trainer_id 0
    | Some client => (Some client.1, st)
    end in
  match created with
  | None => (client_profile_issue, st1)
  | Some client_id =>
      let remaining_sessions :=
        SessionManager.get_client_sessions_remaining st1 client_id in
      if remaining_sessions <=? 0 then (no_remaining_sessions, st1)
      else
        match SessionManager.create_session st1 client_id nm default_trainer_id
                session_datetime "Gym" 60 with
        | (Some session_id, st2) =>
            let st3 :=
              (SessionManager.update_client_sessions_remaining st2 client_id
                 (remaining_sessions - 1)).2 in
            (session_scheduled session_datetime (remaining_sessions - 1), st3)
        | (None, st2) => (scheduling_issue, st2)
        end
  end.

Definition is_scheduled (r : reply) : bool :=
  match r with session_scheduled _ _ => true | _ => false end.

Definition handle_schedule_request (env : environment) (a : agent)
    (info : extracted_info) (conversation_id : string) : reply * agent :=
  let context0 := default ∅ (conversation_context a !! conversation_id) in
  let context := update_context context0 info in
  let a1 :=
    {| session_manager := session_manager a;
       conversation_context :=
         <[conversation_id := context]> (conversation_context a) |} in
  match prompt_for (missing_fields context) with
  | Some prompt => (prompt, a1)
  | None =>
      match read_draft env context with
      | None => (different_format, a1)
      | Some (session_datetime, ph, nm) =>
          let '(r, st) := book_session (session_manager a) nm ph session_datetime in
          (r, {| session_manager := st;
                 conversation_context :=
                   if is_scheduled r
                   then <[conversation_id := ∅]> (conversation_context a1)
                   else conversation_context a1 |})
      end
  end.

(** [handle_availability_request]: [check_date] is [datetime.now()], or that
    plus a day, or what the parser reads from the extracted date, a naive
    [datetime] in each case. *)
Definition handle_availability_request (env : environment) (a : agent)
    (info : extracted_info) : reply :=
  match info_dates info with
  | date_str :: _ =>
      let check_date :=
        if String.eqb (lower_string date_str) "today" then Some (now env)
        else if String.eqb (lower_string date_str) "tomorrow"
        then Some (now env + timedelta_days 1)
        else parser_parse env date_str in
      match check_date with
      | Some d =>
          format_available_slots
            (SessionManager.get_available_slots (session_manager a)
               default_trainer_id (naive d) 60)
      | None => date_not_understood
      end
  | [] => ask_availability_date
  end.

Definition handle_remaining_sessions_request (a : agent) (info : extracted_info)
  : reply :=
  match info_phone info with
  | Some ph =>
      if truthy ph then
        match SessionManager.get_client_by_phone (session_manager a) ph with
        | Some client =>
            remaining_sessions
              (SessionManager.get_client_sessions_remaining (session_manager a)
                 client.1)
        | None => profile_not_found
        end
      else ask_phone_for_remaining
  | None => ask_phone_for_remaining
  end.

Definition process_scheduling_request (env : environment) (a : agent)
    (info : extracted_info) (conversation_id : string) : reply * agent :=
  match info_intent info with
  | schedule => handle_schedule_request env a info conversation_id
  | reschedule => (reschedule_prompt, a)
  | cancel => (cancel_prompt, a)
  | check_availability => (handle_availability_request env a info, a)
  | check_remaining => (handle_remaining_sessions_request a info, a)
  | general => (general_help, a)
  end.

(** One dialogue turn: the utterance goes through the extractor, the
    extraction through [process_scheduling_request]. *)
Definition turn (env : environment) (a : agent) (conversation_id : string)
    (utterance : string) : reply * agent :=
  process_scheduling_request env a (extract_session_intent utterance)
    conversation_id.

(** A run of the agent over a sequence of requests, each with the
    environment of its turn. *)
Fixpoint run_requests (a : agent)
    (requests : list (environment * extracted_info * string)) : agent :=
  match requests with
  | [] => a
  | (env, info, conversation_id) :: rest =>
      run_requests (process_scheduling_request env a info conversation_id).2 rest
  end.

End SessionSchedulingAgent.

Module AppointmentSchedulingAgent.

Record agent := {
  appointment_manager : AppointmentManager.store;
  conversation_context : gmap string (gmap string string)
}.

Definition handle_schedule_request (env : environment) (a : agent)
    (info : extracted_info) (conversation_id : string) : reply * agent :=
  let context0 := default ∅ (conversation_context a !! conversation_id) in
  let context := update_context context0 info in
  let a1 :=
    {| appointment_manager := appointment_manager a;
       conversation_context :=
         <[conversation_id := context]> (conversation_context a) |} in
  match prompt_for (missing_fields context) with
  | Some prompt => (prompt, a1)
  | None =>
      match read_draft env context with
      | None => (different_format, a1)
      | Some (appointment_datetime, ph, nm) =>
          let '(client_id, st1) :=
            match AppointmentManager.get_client_by_phone (appointment_manager a) ph with
            | None => AppointmentManager.create_client (appointment_manager a) nm ph
            | Some client => (client.1, appointment_manager a)
            end in
          let '(appointment_id, st2) :=
            AppointmentManager.create_appointment st1 client_id "default_trainer"
              appointment_datetime 60 in
          (appointment_scheduled appointment_datetime appointment_id,
           {| appointment_manager := st2;
              conversation_context :=
                <[conversation_id := ∅]> (conversation_context a1) |})
      end
  end.

(** [extract_appointment_intent]: the keyword lists of the appointment agent;
    it has no remaining-sessions intent. *)
Definition extract_appointment_intent (message : string) : extracted_info :=
  let message_lower := lower (chars message) in
  let intent :=
    if any_word_in ["schedule"; "book"; "appointment"; "session"] message_lower
    then schedule
    else if any_word_in ["reschedule"; "change"; "move"] message_lower
    then reschedule
    else if any_word_in ["cancel"; "remove"] message_lower
    then cancel
    else if any_word_in ["available"; "availability"; "free"] message_lower
    then check_availability
    else general in
  extract_fields intent message.

Definition format_available_slots (slots : list Z) : reply :=
  match slots with
  | [] => no_available_slots
  | _ :: _ => available_times (firstn 5 slots)
  end.

(** [handle_availability_request]: the call of [get_available_slots] is
    inside the [try], whose bare [except] gives the reply for a date that
    was not understood. *)
Definition handle_availability_request (env : environment) (a : agent)
    (info : extracted_info) : reply :=
  match info_dates info with
  | date_str :: _ =>
      let check_date :=
        if String.eqb (lower_string date_str) "today" then Some (now env)
        else if String.eqb (lower_string date_str) "tomorrow"
        then Some (now env + timedelta_days 1)
        else parser_parse env date_str in
      match check_date with
      | Some d =>
          match AppointmentManager.get_available_slots (appointment_manager a)
                  "default_trainer" (naive d) 60 with
          | Some available_slots => format_available_slots available_slots
          | None => date_not_understood
          end
      | None => date_not_understood
      end
  | [] => ask_availability_date
  end.

(** [process_scheduling_request]; the prompts of the reschedule and cancel
    handlers and the general help are worded for appointments. *)
Definition process_scheduling_request (env : environment) (a : agent)
    (info : extracted_info) (conversation_id : string) : reply * agent :=
  match info_intent info with
  | schedule => handle_schedule_request env a info conversation_id
  | reschedule => (reschedule_prompt, a)
  | cancel => (cancel_prompt, a)
  | check_availability => (handle_availability_request env a info, a)
  | _ => (general_help, a)
  end.

End AppointmentSchedulingAgent.

(** ** The reminder sweep ([outbound_session_calls.py]) *)

Module SessionOutboundCaller.

(** The telephony collaborator: [twilio_client.create_call] for a phone
    number and the agent configured from the session's data either returns a
    call or raises. *)
Inductive call_result := call_initiated | call_raised.
Definition telephony := string -> SessionManager.session -> call_result.

(** [_make_call]: [True] when the call is created, [False] from the
    [except]. *)
Definition _make_call (create_call : telephony) (to_phone : string)
    (session : SessionManager.session) : bool :=
  match create_call to_phone session with
  | call_initiated => true
  | call_raised => false
  end.

Definition make_reminder_call (create_call : telephony)
    (st : SessionManager.store) (session_id : doc_id)
  : bool * SessionManager.store :=
  match SessionManager.get_session_by_id st session_id with
  | None => (false, st)
  | Some session =>
      match SessionManager.get_client_by_id st (SessionManager.clientId session) with
      | None => (false, st)
      | Some client =>
          let success :=
            _make_call create_call (SessionManager.phone client) session in
          if success
          then (success, (SessionManager.mark_reminder_sent st session_id).2)
          else (success, st)
      end
  end.

Record stats := {
  total_sessions : Z;
  successful_calls : Z;
  failed_calls : Z
}.

(** The [for] loop of [process_reminder_queue].  [make_reminder_call] catches
    every exception itself and [asyncio.sleep] only paces the loop, so each
    iteration ends in one of the two increments. *)
Fixpoint reminder_loop (create_call : telephony)
    (queue : list (doc_id * SessionManager.session))
    (acc : stats) (st : SessionManager.store) : stats * SessionManager.store :=
  match queue with
  | [] => (acc, st)
  | session :: queue' =>
      let '(success, st') := make_reminder_call create_call st session.1 in
      let acc' :=
        if success
        then {| total_sessions := total_sessions acc;
                successful_calls := successful_calls acc + 1;
                failed_calls := failed_calls acc |}
        else {| total_sessions := total_sessions acc;
                successful_calls := successful_calls acc;
                failed_calls := failed_calls acc + 1 |} in
      reminder_loop create_call queue' acc' st'
  end.

Definition process_reminder_queue (create_call : telephony)
    (st : SessionManager.store) (utcnow hours_ahead : Z)
  : stats * SessionManager.store :=
  let sessions_needing_reminders :=
    SessionManager.get_sessions_needing_reminders st utcnow hours_ahead in
  let stats0 :=
    {| total_sessions := Z.of_nat (length sessions_needing_reminders);
       successful_calls := 0;
       failed_calls := 0 |} in
  reminder_loop create_call sessions_needing_reminders stats0 st.

(** Follow-up and scheduling calls: [twilio_client.create_call] for a phone
    number and the name the call is made for. *)
Definition named_telephony := string -> string -> call_result.

Definition make_follow_up_call (create_call : named_telephony)
    (st : SessionManager.store) (client_id : doc_id) : bool :=
  match SessionManager.get_client_by_id st client_id with
  | None => false
  | Some client =>
      match create_call (SessionManager.phone client) (SessionManager.name client) with
      | call_initiated => true
      | call_raised => false
      end
  end.

(** [make_scheduling_call]: the call is named [client_name or phone_number]. *)
Definition make_scheduling_call (create_call : named_telephony)
    (phone_number : string) (client_name : option string) : bool :=
  let purpose :=
    match client_name with
    | Some n => if String.eqb n "" then phone_number else n
    | None => phone_number
    end in
  match create_call phone_number purpose with
  | call_initiated => true
  | call_raised => false
  end.

Record follow_up_stats := {
  total_clients : Z;
  follow_up_successful_calls : Z;
  follow_up_failed_calls : Z
}.

(** The [for] loop of [bulk_follow_up_calls]; nothing is written to the
    store. *)
Fixpoint follow_up_loop (create_call : named_telephony)
    (st : SessionManager.store) (client_ids : list doc_id)
    (acc : follow_up_stats) : follow_up_stats :=
  match client_ids with
  | [] => acc
  | client_id :: rest =>
      let success := make_follow_up_call create_call st client_id in
      let acc' :=
        if success
        then {| total_clients := total_clients acc;
                follow_up_successful_calls := follow_up_successful_calls acc + 1;
                follow_up_failed_calls := follow_up_failed_calls acc |}
        else {| total_clients := total_clients acc;
                follow_up_successful_calls := follow_up_successful_calls acc;
                follow_up_failed_calls := follow_up_failed_calls acc + 1 |} in
      follow_up_loop create_call st rest acc'
  end.

Definition bulk_follow_up_calls (create_call : named_telephony)
    (st : SessionManager.store) (client_ids : list doc_id) : follow_up_stats :=
  follow_up_loop create_call st client_ids
    {| total_clients := Z.of_nat (length client_ids);
       follow_up_successful_calls := 0;
       follow_up_failed_calls := 0 |}.

End SessionOutboundCaller.

(** ** The appointment calls ([outbound_appointment_calls.py],
    [appointment_scheduler.py]) *)

Module AppointmentOutboundCaller.

(** [OutboundCall(to_phone=...).start()] either returns or raises. *)
Inductive start_result := started | start_raised.
Definition outbound := string -> start_result.

(** [self.appointment_manager.get_appointment_by_id]: [AppointmentManager]
    defines no method of that name, so looking the attribute up raises
    [AttributeError]. *)
Definition get_appointment_by_id
  : option (AppointmentManager.store -> doc_id
            -> option AppointmentManager.appointment) := None.

(** [make_reminder_call]: the whole body is in a [try] whose [except]
    returns [False]. *)
Definition make_reminder_call (start : outbound)
    (st : AppointmentManager.store) (appointment_id : doc_id)
  : bool * AppointmentManager.store :=
  match get_appointment_by_id with
  | None => (false, st)
  | Some lookup =>
      match lookup st appointment_id with
      | None => (false, st)
      | Some appointment =>
          match AppointmentManager.get_client_by_id st
                  (AppointmentManager.client_id appointment) with
          | None => (false, st)
          | Some client =>
              match start (AppointmentManager.phone client) with
              | started =>
                  (true,
                   (AppointmentManager.mark_reminder_sent st appointment_id).2)
              | start_raised => (false, st)
              end
          end
      end
  end.

Definition make_followup_call (start : outbound)
    (st : AppointmentManager.store) (cl : doc_id) : bool :=
  match AppointmentManager.get_client_by_id st cl with
  | None => false
  | Some client =>
      match start (AppointmentManager.phone client) with
      | started => true
      | start_raised => false
      end
  end.

Definition make_scheduling_call (start : outbound) (phone_number : string) : bool :=
  match start phone_number with
  | started => true
  | start_raised => false
  end.

(** The [for] loop of [process_reminder_queue] and of
    [send_daily_reminders]: the ids are appended to [successful_calls] or to
    [failed_calls]. *)
Fixpoint reminder_loop (start : outbound)
    (queue : list (doc_id * AppointmentManager.appointment))
    (successful_calls failed_calls : list doc_id)
    (st : AppointmentManager.store)
  : list doc_id * list doc_id * AppointmentManager.store :=
  match queue with
  | [] => (successful_calls, failed_calls, st)
  | appointment :: queue' =>
      let '(success, st') := make_reminder_call start st appointment.1 in
      if success
      then reminder_loop start queue' (successful_calls ++ [appointment.1])
             failed_calls st'
      else reminder_loop start queue' successful_calls
             (failed_calls ++ [appointment.1]) st'
  end.

(** [process_reminder_queue] returns [successful_calls]. *)
Definition process_reminder_queue (start : outbound)
    (st : AppointmentManager.store) (utcnow hours_ahead : Z)
  : list doc_id * AppointmentManager.store :=
  let appointments_needing_reminders :=
    AppointmentManager.get_appointments_needing_reminders st utcnow hours_ahead in
  let '(successful_calls, _, st') :=
    reminder_loop start appointments_needing_reminders [] [] st in
  (successful_calls, st').

(** [bulk_scheduling_calls]: [results[phone_number] = success] for each
    number in turn; [results] is a dict. *)
Fixpoint scheduling_loop (start : outbound) (phone_numbers : list string)
    (results : gmap string bool) : gmap string bool :=
  match phone_numbers with
  | [] => results
  | phone_number :: rest =>
      let success := make_scheduling_call start phone_number in
      scheduling_loop start rest (<[phone_number := success]> results)
  end.

Definition bulk_scheduling_calls (start : outbound)
    (phone_numbers : list string) : gmap string bool :=
  scheduling_loop start phone_numbers ∅.

End AppointmentOutboundCaller.

Module AppointmentSchedulerService.

(** [send_daily_reminders]: the same loop over the reminders due within 24
    hours; both lists are returned. *)
Definition send_daily_reminders (start : AppointmentOutboundCaller.outbound)
    (st : AppointmentManager.store) (utcnow : Z)
  : list doc_id * list doc_id * AppointmentManager.store :=
  let appointments :=
    AppointmentManager.get_appointments_needing_reminders st utcnow 24 in
  AppointmentOutboundCaller.reminder_loop start appointments [] [] st.

(** The two numbers [process_scheduling_queue] logs:
    [sum(1 for success in results.values() if success)] and
    [len(results) - successful]. *)
Definition successful (results : gmap string bool) : nat :=
  length (filter (fun d : string * bool => d.2 = true) (map_to_list results)).
Definition failed (results : gmap string bool) : nat :=
  size results - successful results.

Definition process_scheduling_queue (start : AppointmentOutboundCaller.outbound)
    (phone_numbers : list string) : gmap string bool :=
  AppointmentOutboundCaller.bulk_scheduling_calls start phone_numbers.

End AppointmentSchedulerService.

(** ** Vocabulary of the statements *)

(** Two half-open intervals conflict iff [startA < endB] and
    [endA > startB]. *)
Definition overlaps (startA endA startB endB : Z) : Prop :=
  startA < endB /\ endA > startB.

Definition business_open (date : Z) : Z :=
  replace_midnight date + timedelta_hours business_start.
Definition business_close (date : Z) : Z :=
  replace_midnight date + timedelta_hours business_end.

(** [t] falls on the calendar day of [date]. *)
Definition on_day (date t : Z) : Prop :=
  replace_midnight date <= t < replace_midnight date + timedelta_days 1.

(** [t] is a whole number of 30-minute steps after [start]. *)
Definition stepped_from (start t : Z) : Prop :=
  exists k : nat, t = start + Z.of_nat k * timedelta_minutes 30.

(** A slot of [dur] minutes inside the business hours of [date]. *)
Definition within_business_hours (date dur t : Z) : Prop :=
  business_open date <= t
  /\ t + timedelta_minutes dur <= business_close date
  /\ stepped_from (business_open date) t.

(** The sum [d + delta] is a [datetime]: the addition does not raise. *)
Definition in_range (d delta : Z) : Prop :=
  datetime_add d delta = Some (d + delta).

(** The midnight that starts the day of [date] and the one that ends it are
    datetimes: this holds of every [datetime] but those of 9999-12-31. *)
Definition day_in_range (date : datetime) : Prop :=
  is_datetime (replace_midnight (wall date)) = true
  /\ is_datetime (replace_midnight (wall date) + timedelta_days 1) = true.

(** Every stored session, or appointment, ends on a [datetime]. *)
Definition session_ends_in_range (st : SessionManager.store) : Prop :=
  forall i s,
    SessionManager.sessions st !! i = Some s ->
    in_range (SessionManager.dateTime s)
      (timedelta_minutes (default 60 (SessionManager.duration s))).

Definition appointment_ends_in_range (st : AppointmentManager.store) : Prop :=
  forall i a,
    AppointmentManager.appointments st !! i = Some a ->
    in_range (AppointmentManager.appointment_time a)
      (timedelta_minutes (AppointmentManager.duration_minutes a)).

(** The slots a call gives its caller: none when it raises. *)
Definition returned (slots : option (list Z)) : list Z := default [] slots.

(** The draft a turn works on: the stored context (empty for a new
    conversation id) merged with the extraction. *)
Definition merged_context (a : SessionSchedulingAgent.agent) (cid : string)
    (info : extracted_info) : gmap string string :=
  update_context
    (default ∅ (SessionSchedulingAgent.conversation_context a !! cid)) info.

(** The package balance of a client, as the code reads it. *)
Definition balance (st : SessionManager.store) (client_id : doc_id) : Z :=
  SessionManager.get_client_sessions_remaining st client_id.

Definition balances_nonneg (st : SessionManager.store) : Prop :=
  forall client_id, 0 <= balance st client_id.

(** The interval of a stored session. *)
Definition session_end (s : SessionManager.session) : Z :=
  SessionManager.dateTime s
  + timedelta_minutes (default 60 (SessionManager.duration s)).

Definition appointment_end (a : AppointmentManager.appointment) : Z :=
  AppointmentManager.appointment_time a
  + timedelta_minutes (AppointmentManager.duration_minutes a).

(** Whether the reminder call for a session reports success, as a function
    of the store it is made from. *)
Definition reminder_succeeds (create_call : SessionOutboundCaller.telephony)
    (st : SessionManager.store) (session_id : doc_id) : bool :=
  (SessionOutboundCaller.make_reminder_call create_call st session_id).1.

(** No two client documents carry the same phone number. *)
Definition phones_unique (st : SessionManager.store) : Prop :=
  forall i j c d,
    SessionManager.clients st !! i = Some c ->
    SessionManager.clients st !! j = Some d ->
    SessionManager.phone c = SessionManager.phone d -> i = j.

(** [st'] keeps every session of [st], keeps the name, the phone number,
    the trainer and the package size of every client of [st], and has no
    balance above the one in [st]. *)
Definition grows_from (st st' : SessionManager.store) : Prop :=
  (forall i s, SessionManager.sessions st !! i = Some s ->
               SessionManager.sessions st' !! i = Some s)
  /\ (forall j c, SessionManager.clients st !! j = Some c ->
        exists c', SessionManager.clients st' !! j = Some c'
                   /\ SessionManager.name c' = SessionManager.name c
                   /\ SessionManager.phone c' = SessionManager.phone c
                   /\ SessionManager.trainerId c' = SessionManager.trainerId c
                   /\ SessionManager.packageSize c' = SessionManager.packageSize c)
  /\ (forall j, balance st' j <= balance st j).

(** ** Example data *)

Module Examples.

(** A midnight, and 10:00 on that day. *)
Definition day0 : Z := 20000 * day_us.
Definition ten_oclock : Z := day0 + timedelta_hours 10.

Definition session_at (t : Z) (st : status) : SessionManager.session :=
  {| SessionManager.clientId := 0%nat;
     SessionManager.clientName := "jane smith";
     SessionManager.dateTime := t;
     SessionManager.location := "Gym";
     SessionManager.session_status := st;
     SessionManager.duration := Some 60;
     SessionManager.autoReminderSent := false;
     SessionManager.session_trainerId := "T" |}.

(** One session of trainer T, 10:00 to 11:00, with the given status. *)
Definition one_session (st : status) : SessionManager.store :=
  {| SessionManager.clients := ∅;
     SessionManager.sessions := {[ 0%nat := session_at ten_oclock st ]} |}.

Definition appointment_at (t : Z) (st : status) : AppointmentManager.appointment :=
  {| AppointmentManager.client_id := 0%nat;
     AppointmentManager.trainer_id := "T";
     AppointmentManager.appointment_time := t;
     AppointmentManager.duration_minutes := 60;
     AppointmentManager.appointment_status := st;
     AppointmentManager.reminder_sent := false |}.

Definition one_appointment (st : status) : AppointmentManager.store :=
  {| AppointmentManager.clients := ∅;
     AppointmentManager.appointments := {[ 0%nat := appointment_at ten_oclock st ]} |}.

(** A store for the reminder sweep, read at [utcnow0]: session 0 is due in
    23 hours, session 1 in 30 hours, session 2 is due in one hour but already
    flagged, session 3 was due 1000 hours ago.  Sessions 0 and 1 belong to
    client 0, session 3 to client 1, whose number cannot be reached. *)
Definition utcnow0 : Z := day0 + timedelta_hours 8.

Definition reminder_session (cl : doc_id) (t : Z) (sent : bool)
  : SessionManager.session :=
  {| SessionManager.clientId := cl;
     SessionManager.clientName := "jane smith";
     SessionManager.dateTime := t;
     SessionManager.location := "Gym";
     SessionManager.session_status := scheduled;
     SessionManager.duration := Some 60;
     SessionManager.autoReminderSent := sent;
     SessionManager.session_trainerId := "T" |}.

Definition client_with (nm ph : string) (remaining : Z) : SessionManager.client :=
  {| SessionManager.name := nm; SessionManager.phone := ph;
     SessionManager.trainerId := "T";
     SessionManager.sessionsRemaining := Some remaining;
     SessionManager.packageSize := 10 |}.

(** A store for bookings: one client with two sessions left, no session. *)
Definition booking_store : SessionManager.store :=
  {| SessionManager.clients :=
       {[ 0%nat := client_with "jane smith" "555-123-4567" 2 ]};
     SessionManager.sessions := ∅ |}.

(** Two sessions of trainer T on day 20000, at 10:00 and at 11:00. *)
Definition two_sessions : SessionManager.store :=
  {| SessionManager.clients := ∅;
     SessionManager.sessions :=
       <[1%nat := session_at (ten_oclock + timedelta_hours 1) scheduled]>
         {[ 0%nat := session_at ten_oclock scheduled ]} |}.

Definition two_appointments : AppointmentManager.store :=
  {| AppointmentManager.clients := ∅;
     AppointmentManager.appointments :=
       <[1%nat := appointment_at (ten_oclock + timedelta_hours 1) scheduled]>
         {[ 0%nat := appointment_at ten_oclock scheduled ]} |}.

Definition reminder_store : SessionManager.store :=
  {| SessionManager.clients :=
       <[1%nat := client_with "bob" "555-000-0000" 3]>
         {[ 0%nat := client_with "jane smith" "555-123-4567" 2 ]};
     SessionManager.sessions :=
       <[3%nat := reminder_session 1%nat (utcnow0 - timedelta_hours 1000) false]>
       (<[2%nat := reminder_session 0%nat (utcnow0 + timedelta_hours 1) true]>
       (<[1%nat := reminder_session 0%nat (utcnow0 + timedelta_hours 30) false]>
         {[ 0%nat := reminder_session 0%nat (utcnow0 + timedelta_hours 23) false ]})) |}.

(** A telephony collaborator that raises for the number 555-000-0000 and
    connects every other call. *)
Definition unreachable_bob : SessionOutboundCaller.telephony :=
  fun to_phone _ =>
    if String.eqb to_phone "555-000-0000"
    then SessionOutboundCaller.call_raised
    else SessionOutboundCaller.call_initiated.

(** An environment: the clock reads 08:00 on day 20000, and the date parser
    knows the two spellings of 2 pm (as [dateutil] does, on the current
    day). *)
Definition env0 : environment :=
  {| now := utcnow0;
     parser_parse := fun s =>
       if String.eqb s "2pm" || String.eqb s "2 pm"
       then Some (day0 + timedelta_hours 14)
       else None |}.

(** A complete request for tomorrow at 2 pm. *)
Definition full_request : extracted_info :=
  {| info_intent := schedule;
     info_dates := ["tomorrow"];
     info_times := ["2pm"];
     info_phone := Some "555-123-4567";
     info_name := Some "jane smith" |}.

Definition booking_agent : SessionSchedulingAgent.agent :=
  {| SessionSchedulingAgent.session_manager := booking_store;
     SessionSchedulingAgent.conversation_context := ∅ |}.

(** An agent with an empty store and no conversation. *)
Definition fresh_agent : SessionSchedulingAgent.agent :=
  {| SessionSchedulingAgent.session_manager :=
       {| SessionManager.clients := ∅; SessionManager.sessions := ∅ |};
     SessionSchedulingAgent.conversation_context := ∅ |}.

(** The four utterances of the slot-filling example, in order. *)
Definition utterance_name : string := "my name is Jane Smith".
Definition utterance_phone : string := "555-123-4567".
Definition utterance_date : string := "tomorrow".
Definition utterance_time : string := "2pm".

(** The draft after each of the first three, and with all four fields. *)
Definition draft1 : gmap string string := {[ "name"%string := "jane smith"%string ]}.
Definition draft2 : gmap string string := <["phone" := "555-123-4567"%string]> draft1.
Definition draft3 : gmap string string := <["date" := "tomorrow"%string]> draft2.
Definition draft4 : gmap string string := <["time" := "2pm"%string]> draft3.

End Examples.

(** * Properties *)

(** ** Availability *)

(** Arithmetic on instants: the time constants are unfolded so that [lia]
    sees linear terms. *)
Ltac time_lia :=
  unfold timedelta_minutes, timedelta_hours, timedelta_days,
    business_start, business_end, day_us, hour_us, minute_us in *; lia.

Section Availability.

Lemma replace_midnight_mod d : replace_midnight d mod day_us = 0.
Proof.
  unfold replace_midnight.
  rewrite Zminus_mod_idemp_r, Z.sub_diag. reflexivity.
Qed.

(** On a midnight, [replace(hour=h)] is an offset of [h] hours. *)
Lemma replace_hour_midnight d h :
  replace_hour (replace_midnight d) h = replace_midnight d + h * hour_us.
Proof.
  unfold replace_hour. rewrite replace_midnight_mod, Zdiv_0_l. ring.
Qed.

Lemma datetime_add_Some d delta r :
  datetime_add d delta = Some r ->
  r = d + delta /\ is_timedelta delta = true
  /\ datetime_min <= d + delta <= datetime_max.
Proof.
  unfold datetime_add, is_datetime. intros H.
  destruct (is_timedelta delta); [| discriminate].
  destruct (Z.leb_spec datetime_min (d + delta)); [| discriminate].
  destruct (Z.leb_spec (d + delta) datetime_max); [| discriminate].
  injection H as <-. repeat split; assumption.
Qed.

Lemma in_range_intro d delta :
  is_timedelta delta = true ->
  datetime_min <= d + delta <= datetime_max ->
  in_range d delta.
Proof.
  unfold in_range, datetime_add, is_datetime. intros -> [Hlo Hhi].
  apply Z.leb_le in Hlo, Hhi. rewrite Hlo, Hhi. reflexivity.
Qed.

Lemma datetime_add_in_range d delta r :
  datetime_add d delta = Some r -> in_range d delta.
Proof.
  intros H. destruct (datetime_add_Some _ _ _ H) as (-> & _). exact H.
Qed.

(** With an aware date every comparison is made; with a naive one the first
    comparison raises, so the test is answered only when nothing is busy. *)
Lemma is_available_aware busy_slots t slot_end :
  is_available (Some utc) busy_slots t slot_end
  = Some (forallb (fun busy : Z * Z =>
                     negb ((t <? busy.2) && (slot_end >? busy.1)))
                  busy_slots).
Proof.
  induction busy_slots as [| [bs be] rest IH]; [reflexivity |].
  cbn [is_available conflicts lt_stored gt_stored mbind option_bind forallb fst snd].
  destruct (t <? be); cbn [andb negb];
    [destruct (slot_end >? bs); cbn [negb andb] |]; try exact IH; reflexivity.
Qed.

Lemma is_available_naive busy_slots t slot_end :
  is_available None busy_slots t slot_end
  = match busy_slots with [] => Some true | _ :: _ => None end.
Proof. destruct busy_slots as [| [bs be] rest]; reflexivity. Qed.

Lemma is_available_spec tz busy_slots t slot_end :
  is_available tz busy_slots t slot_end = Some true ->
  forall busy_start busy_end,
    (busy_start, busy_end) ∈ busy_slots ->
    ~ (t < busy_end /\ slot_end > busy_start).
Proof.
  destruct tz as [[] |].
  - rewrite is_available_aware. intros [= H] bs be Hin [H1 H2].
    rewrite forallb_forall in H.
    apply list_elem_of_In, H in Hin. cbn [fst snd] in Hin.
    apply negb_true_iff, andb_false_iff in Hin.
    destruct Hin as [Hin | Hin].
    + apply Z.ltb_ge in Hin. lia.
    + rewrite Z.gtb_ltb in Hin. apply Z.ltb_ge in Hin. lia.
  - rewrite is_available_naive. destruct busy_slots; [| discriminate].
    intros _ bs be Hin. inversion Hin.
Qed.

(** The test is answered, and by [True] for a free slot, when the date can
    be compared with the stored timestamps or nothing is busy. *)
Lemma is_available_free tz busy_slots t slot_end :
  tz <> None \/ busy_slots = [] ->
  (forall busy_start busy_end,
     (busy_start, busy_end) ∈ busy_slots ->
     ~ (t < busy_end /\ slot_end > busy_start)) ->
  is_available tz busy_slots t slot_end = Some true.
Proof.
  intros Hcmp Hfree. destruct tz as [[] |].
  - rewrite is_available_aware. f_equal. apply forallb_forall.
    intros [bs be] Hin. apply list_elem_of_In in Hin.
    specialize (Hfree bs be Hin). cbn [fst snd].
    apply negb_true_iff, andb_false_iff.
    destruct (Z.ltb_spec t be); [right | left; reflexivity].
    rewrite Z.gtb_ltb. apply Z.ltb_ge. lia.
  - destruct Hcmp as [Hcmp | ->]; [congruence | reflexivity].
Qed.

Lemma is_available_answered tz busy_slots t slot_end :
  tz <> None \/ busy_slots = [] ->
  exists available, is_available tz busy_slots t slot_end = Some available.
Proof.
  intros [Hcmp | ->]; [| exists true; reflexivity].
  destruct tz as [[] |]; [| congruence].
  rewrite is_available_aware. eexists. reflexivity.
Qed.

(** One iteration of the loop that does not raise. *)
Lemma slot_loop_step fuel tz busy_slots dur end_time cur l :
  slot_loop (S fuel) tz busy_slots dur end_time cur = Some l ->
  in_range cur (timedelta_minutes dur)
  /\ (end_time < cur + timedelta_minutes dur /\ l = []
      \/ cur + timedelta_minutes dur <= end_time
         /\ exists available later,
              is_available tz busy_slots cur (cur + timedelta_minutes dur)
              = Some available
              /\ in_range cur (timedelta_minutes 30)
              /\ slot_loop fuel tz busy_slots dur end_time
                   (cur + timedelta_minutes 30) = Some later
              /\ l = if available then cur :: later else later).
Proof.
  cbn [slot_loop]. intros H.
  destruct (datetime_add cur (timedelta_minutes dur)) as [slot_end |] eqn:Hend;
    [| discriminate].
  pose proof (datetime_add_in_range _ _ _ Hend) as Hrange.
  destruct (datetime_add_Some _ _ _ Hend) as (-> & _).
  split; [exact Hrange |]. cbn [mbind option_bind] in H.
  destruct (Z.leb_spec (cur + timedelta_minutes dur) end_time) as [Hle | Hgt].
  - right. split; [exact Hle |].
    destruct (is_available tz busy_slots cur _) as [available |];
      [| discriminate].
    cbn [mbind option_bind] in H.
    destruct (datetime_add cur (timedelta_minutes 30)) as [next |] eqn:Hnext;
      [| discriminate].
    pose proof (datetime_add_in_range _ _ _ Hnext) as Hrange'.
    destruct (datetime_add_Some _ _ _ Hnext) as (-> & _).
    cbn [mbind option_bind] in H.
    destruct (slot_loop fuel tz busy_slots dur end_time _) as [later |];
      [| discriminate].
    injection H as <-. exists available, later. repeat split; assumption.
  - left. injection H as <-. split; [exact Hgt | reflexivity].
Qed.

(** Every slot the loop emits is a 30-minute step from where the loop
    started, ends by [end_time] and passed the conflict test. *)
Lemma slot_loop_sound fuel tz busy_slots dur end_time :
  forall current_time l t,
    slot_loop fuel tz busy_slots dur end_time current_time = Some l ->
    t ∈ l ->
    (exists k : nat, t = current_time + Z.of_nat k * timedelta_minutes 30)
    /\ t + timedelta_minutes dur <= end_time
    /\ is_available tz busy_slots t (t + timedelta_minutes dur) = Some true.
Proof.
  induction fuel as [| fuel IH]; intros cur l t Hloop Hin.
  - injection Hloop as <-. inversion Hin.
  - apply slot_loop_step in Hloop
      as (_ & [[_ ->] | (Hle & available & later & Hav & _ & Hlater & ->)]);
      [inversion Hin |].
    assert (Hrest : t ∈ later ->
      (exists k : nat, t = cur + Z.of_nat k * timedelta_minutes 30)
      /\ t + timedelta_minutes dur <= end_time
      /\ is_available tz busy_slots t (t + timedelta_minutes dur) = Some true).
    { intros H. apply (IH _ _ _ Hlater) in H as ([k ->] & H2 & H3).
      split; [exists (S k); time_lia | split; assumption]. }
    destruct available; [| auto].
    apply elem_of_cons in Hin as [-> | Hin]; [| auto].
    split; [exists O; time_lia | split; assumption].
Qed.

(** The loop appends in ascending order. *)
Lemma slot_loop_sorted fuel tz busy_slots dur end_time :
  forall current_time l,
    slot_loop fuel tz busy_slots dur end_time current_time = Some l ->
    StronglySorted Z.lt l.
Proof.
  induction fuel as [| fuel IH]; intros cur l Hloop.
  - injection Hloop as <-. constructor.
  - apply slot_loop_step in Hloop
      as (_ & [[_ ->] | (Hle & available & later & Hav & _ & Hlater & ->)]);
      [constructor |].
    destruct available; [| exact (IH _ _ Hlater)].
    constructor; [exact (IH _ _ Hlater) |].
    apply Forall_forall. intros t Hin.
    apply (slot_loop_sound _ _ _ _ _ _ _ _ Hlater) in Hin as ([k ->] & _).
    time_lia.
Qed.

Lemma slot_loop_length fuel tz busy_slots dur end_time :
  forall current_time l,
    slot_loop fuel tz busy_slots dur end_time current_time = Some l ->
    (length l <= fuel)%nat.
Proof.
  induction fuel as [| fuel IH]; intros cur l Hloop.
  - injection Hloop as <-. simpl. lia.
  - apply slot_loop_step in Hloop
      as (_ & [[_ ->] | (Hle & available & later & Hav & _ & Hlater & ->)]);
      [simpl; lia |].
    specialize (IH _ _ Hlater). destruct available; simpl; lia.
Qed.

Lemma loop_bound_zero dur end_time cur :
  loop_bound dur end_time cur = O ->
  (cur + timedelta_minutes dur <=? end_time) = false.
Proof.
  unfold loop_bound. intros H. apply Z.leb_gt.
  destruct (Z.le_gt_cases (cur + timedelta_minutes dur) end_time) as [Hle | Hgt];
    [| lia].
  exfalso.
  assert (0 <= (end_time - timedelta_minutes dur - cur) / timedelta_minutes 30).
  { apply Z.div_pos; [lia | reflexivity]. }
  lia.
Qed.

Lemma loop_bound_step dur end_time cur :
  cur + timedelta_minutes dur <= end_time ->
  loop_bound dur end_time cur
  = S (loop_bound dur end_time (cur + timedelta_minutes 30)).
Proof.
  intros Hle. unfold loop_bound.
  set (T := timedelta_minutes 30).
  set (x := end_time - timedelta_minutes dur - cur).
  replace (end_time - timedelta_minutes dur - (cur + T)) with (x + (-1) * T)
    by (unfold x; lia).
  rewrite Z.div_add by (unfold T; discriminate).
  assert (0 <= x / T) by (apply Z.div_pos; [unfold x; lia | reflexivity]).
  lia.
Qed.

(** The fuel never runs out: [generate_slots] satisfies the equation of the
    [while] loop, an iteration at a time, to the iteration whose test fails
    or that raises. *)
Lemma generate_slots_unfold tz busy_slots dur end_time cur :
  generate_slots tz busy_slots dur end_time cur =
  slot_end ← datetime_add cur (timedelta_minutes dur);
  if slot_end <=? end_time then
    available ← is_available tz busy_slots cur slot_end;
    next_time ← datetime_add cur (timedelta_minutes 30);
    later ← generate_slots tz busy_slots dur end_time next_time;
    Some (if available : bool then cur :: later else later)
  else Some [].
Proof.
  unfold generate_slots.
  set (n := loop_bound dur end_time cur). cbn [slot_loop].
  destruct (datetime_add cur (timedelta_minutes dur)) as [slot_end |] eqn:Hend;
    [| reflexivity].
  destruct (datetime_add_Some _ _ _ Hend) as (-> & _).
  cbn [mbind option_bind].
  destruct (Z.leb_spec (cur + timedelta_minutes dur) end_time) as [Hle | Hgt];
    [| reflexivity].
  destruct (is_available tz busy_slots cur _) as [available |]; [| reflexivity].
  cbn [mbind option_bind].
  destruct (datetime_add cur (timedelta_minutes 30)) as [next |] eqn:Hnext;
    [| reflexivity].
  destruct (datetime_add_Some _ _ _ Hnext) as (-> & _).
  cbn [mbind option_bind].
  unfold n. rewrite (loop_bound_step dur end_time cur Hle). reflexivity.
Qed.

(** Every step from the start that fits and is free is emitted, when the
    loop does not raise. *)
Lemma generate_slots_complete tz busy_slots dur end_time (k : nat) :
  forall cur l,
    generate_slots tz busy_slots dur end_time cur = Some l ->
    let t := cur + Z.of_nat k * timedelta_minutes 30 in
    t + timedelta_minutes dur <= end_time ->
    is_available tz busy_slots t (t + timedelta_minutes dur) = Some true ->
    t ∈ l.
Proof.
  induction k as [| k IH]; intros cur l Hgen t Hfit Hav; subst t;
    rewrite generate_slots_unfold in Hgen;
    destruct (datetime_add cur (timedelta_minutes dur)) as [slot_end |] eqn:Hend;
    try discriminate;
    destruct (datetime_add_Some _ _ _ Hend) as (-> & _);
    cbn [mbind option_bind] in Hgen.
  - replace (cur + Z.of_nat 0 * timedelta_minutes 30) with cur in * by lia.
    apply Z.leb_le in Hfit. rewrite Hfit, Hav in Hgen.
    cbn [mbind option_bind] in Hgen.
    destruct (datetime_add cur (timedelta_minutes 30)); [| discriminate].
    cbn [mbind option_bind] in Hgen.
    destruct (generate_slots _ _ _ _ _); [| discriminate].
    injection Hgen as <-. apply list_elem_of_here.
  - replace (cur + Z.of_nat (S k) * timedelta_minutes 30)
      with (cur + timedelta_minutes 30 + Z.of_nat k * timedelta_minutes 30)
      in * by lia.
    assert (Hc : cur + timedelta_minutes dur <= end_time)
      by (unfold timedelta_minutes, minute_us in *; lia).
    apply Z.leb_le in Hc. rewrite Hc in Hgen.
    destruct (is_available tz busy_slots cur _) as [available |];
      [| discriminate].
    cbn [mbind option_bind] in Hgen.
    destruct (datetime_add cur (timedelta_minutes 30)) as [next |] eqn:Hnext;
      [| discriminate].
    destruct (datetime_add_Some _ _ _ Hnext) as (-> & _).
    cbn [mbind option_bind] in Hgen.
    destruct (generate_slots tz busy_slots dur end_time _) as [later |] eqn:Hlater;
      [| discriminate].
    injection Hgen as <-.
    specialize (IH _ _ Hlater Hfit Hav).
    destruct available; [apply list_elem_of_further |]; exact IH.
Qed.

End Availability.

Section AvailabilityOfStores.

Lemma business_hours_bounds date :
  replace_hour (replace_midnight date) business_start = business_open date
  /\ replace_hour (replace_midnight date) business_end = business_close date.
Proof.
  rewrite !replace_hour_midnight. unfold business_open, business_close.
  split; time_lia.
Qed.

Lemma mapM_elem {A B} (f : A -> option B) (l : list A) (k : list B) x :
  mapM f l = Some k -> x ∈ l -> exists y, f x = Some y /\ y ∈ k.
Proof.
  revert k. induction l as [| a l IH]; intros k Hk Hin; [inversion Hin |].
  cbn [mapM] in Hk.
  destruct (f a) as [b |] eqn:Hb; [| discriminate].
  cbn [mbind option_bind] in Hk.
  destruct (mapM f l) as [k' |]; [| discriminate].
  injection Hk as <-.
  apply elem_of_cons in Hin as [-> | Hin].
  - exists b. split; [exact Hb | apply list_elem_of_here].
  - destruct (IH k' eq_refl Hin) as (y & Hy & Hin').
    exists y. split; [exact Hy | apply list_elem_of_further, Hin'].
Qed.

Lemma mapM_all {A B} (f : A -> option B) (g : A -> B) (l : list A) :
  (forall x, x ∈ l -> f x = Some (g x)) -> mapM f l = Some (g <$> l).
Proof.
  induction l as [| a l IH]; intros Hall; [reflexivity |].
  cbn [mapM]. rewrite (Hall a) by apply list_elem_of_here.
  cbn [mbind option_bind].
  rewrite IH by (intros x Hx; apply Hall, list_elem_of_further, Hx).
  reflexivity.
Qed.

Lemma session_busy_slot s busy :
  SessionManager.busy_slot s = Some busy ->
  busy = (SessionManager.dateTime s, session_end s).
Proof.
  unfold SessionManager.busy_slot, session_end.
  destruct (datetime_add _ _) as [end_time |] eqn:Hend; [| discriminate].
  destruct (datetime_add_Some _ _ _ Hend) as (-> & _). intros [= <-].
  reflexivity.
Qed.

Lemma appointment_busy_slot a busy :
  AppointmentManager.busy_slot a = Some busy ->
  busy = (AppointmentManager.appointment_time a, appointment_end a).
Proof.
  unfold AppointmentManager.busy_slot, appointment_end.
  destruct (datetime_add _ _) as [end_time |] eqn:Hend; [| discriminate].
  destruct (datetime_add_Some _ _ _ Hend) as (-> & _). intros [= <-].
  reflexivity.
Qed.

Lemma session_is_existing st trainer sod eod i s :
  SessionManager.sessions st !! i = Some s ->
  SessionManager.session_trainerId s = trainer ->
  sod <= SessionManager.dateTime s < eod ->
  SessionManager.session_status s = scheduled ->
  (i, s) ∈ SessionManager.existing_sessions st trainer sod eod.
Proof.
  intros Hi Ht [Hlo Hhi] Hs.
  apply list_elem_of_filter. cbn [snd]. split.
  - rewrite Hs. repeat split; try assumption. apply list_elem_of_here.
  - apply elem_of_map_to_list. exact Hi.
Qed.

Lemma appointment_is_existing st trainer sod eod i a :
  AppointmentManager.appointments st !! i = Some a ->
  AppointmentManager.trainer_id a = trainer ->
  sod <= AppointmentManager.appointment_time a < eod ->
  AppointmentManager.appointment_status a = scheduled
  \/ AppointmentManager.appointment_status a = confirmed ->
  (i, a) ∈ AppointmentManager.existing_appointments st trainer sod eod.
Proof.
  intros Hi Ht [Hlo Hhi] Hs.
  apply list_elem_of_filter. cbn [snd]. split.
  - repeat split; try assumption.
    destruct Hs as [-> | ->];
      [apply list_elem_of_here
      | apply list_elem_of_further, list_elem_of_here].
  - apply elem_of_map_to_list. exact Hi.
Qed.

(** What a run of the loop from business open to business close gives when
    it does not raise. *)
Lemma generate_slots_business tz busy_slots date dur l t :
  generate_slots tz busy_slots dur
    (replace_hour (replace_midnight date) business_end)
    (replace_hour (replace_midnight date) business_start) = Some l ->
  t ∈ l ->
  within_business_hours date dur t
  /\ forall busy_start busy_end,
       (busy_start, busy_end) ∈ busy_slots ->
       ~ overlaps t (t + timedelta_minutes dur) busy_start busy_end.
Proof.
  destruct (business_hours_bounds date) as [-> ->].
  intros Hgen Hin.
  apply (slot_loop_sound _ _ _ _ _ _ _ _ Hgen) in Hin as ([k Hk] & Hfit & Hav).
  split.
  - split; [rewrite Hk; time_lia | split; [exact Hfit | exists k; exact Hk]].
  - intros bs be Hb. apply (is_available_spec _ _ _ _ Hav bs be Hb).
Qed.

(** The slots of a [try] block that did not raise. *)
Lemma session_slots_sound st trainer date dur l t :
  SessionManager.available_slots st trainer date dur = Some l ->
  t ∈ l ->
  within_business_hours (wall date) dur t
  /\ forall i s,
       SessionManager.sessions st !! i = Some s ->
       SessionManager.session_trainerId s = trainer ->
       on_day (wall date) (SessionManager.dateTime s) ->
       SessionManager.session_status s = scheduled ->
       ~ overlaps t (t + timedelta_minutes dur)
           (SessionManager.dateTime s) (session_end s).
Proof.
  unfold SessionManager.available_slots. intros Hbody Hin.
  destruct (datetime_add _ (timedelta_days 1)) as [end_of_day |] eqn:Hday;
    [| discriminate].
  destruct (datetime_add_Some _ _ _ Hday) as (-> & _).
  cbn [mbind option_bind] in Hbody.
  destruct (mapM _ _) as [busy_slots |] eqn:Hbusy; [| discriminate].
  cbn [mbind option_bind] in Hbody.
  destruct (generate_slots_business _ _ _ _ _ _ Hbody Hin) as [Hhours Hfree].
  split; [exact Hhours |].
  intros i s Hi Ht Hon Hs.
  destruct (mapM_elem _ _ _ (i, s) Hbusy
              (session_is_existing st trainer _ _ i s Hi Ht Hon Hs))
    as (busy & Hb & Hin').
  cbn [snd] in Hb. apply session_busy_slot in Hb as ->.
  apply (Hfree _ _ Hin').
Qed.

Lemma appointment_slots_sound st trainer date dur l t :
  AppointmentManager.get_available_slots st trainer date dur = Some l ->
  t ∈ l ->
  within_business_hours (wall date) dur t
  /\ forall i a,
       AppointmentManager.appointments st !! i = Some a ->
       AppointmentManager.trainer_id a = trainer ->
       on_day (wall date) (AppointmentManager.appointment_time a) ->
       AppointmentManager.appointment_status a = scheduled
       \/ AppointmentManager.appointment_status a = confirmed ->
       ~ overlaps t (t + timedelta_minutes dur)
           (AppointmentManager.appointment_time a) (appointment_end a).
Proof.
  unfold AppointmentManager.get_available_slots. intros Hbody Hin.
  destruct (datetime_add _ (timedelta_days 1)) as [end_of_day |] eqn:Hday;
    [| discriminate].
  destruct (datetime_add_Some _ _ _ Hday) as (-> & _).
  cbn [mbind option_bind] in Hbody.
  destruct (mapM _ _) as [busy_slots |] eqn:Hbusy; [| discriminate].
  cbn [mbind option_bind] in Hbody.
  destruct (generate_slots_business _ _ _ _ _ _ Hbody Hin) as [Hhours Hfree].
  split; [exact Hhours |].
  intros i a Hi Ht Hon Hs.
  destruct (mapM_elem _ _ _ (i, a) Hbusy
              (appointment_is_existing st trainer _ _ i a Hi Ht Hon Hs))
    as (busy & Hb & Hin').
  cbn [snd] in Hb. apply appointment_busy_slot in Hb as ->.
  apply (Hfree _ _ Hin').
Qed.

Lemma session_slots_sorted st trainer date dur :
  StronglySorted Z.lt (SessionManager.get_available_slots st trainer date dur).
Proof.
  unfold SessionManager.get_available_slots.
  destruct (SessionManager.available_slots st trainer date dur) as [l |] eqn:Hbody;
    [| constructor].
  unfold SessionManager.available_slots in Hbody.
  destruct (datetime_add _ (timedelta_days 1)); [| discriminate].
  cbn [mbind option_bind] in Hbody.
  destruct (mapM _ _); [| discriminate].
  exact (slot_loop_sorted _ _ _ _ _ _ _ Hbody).
Qed.

Lemma appointment_slots_sorted st trainer date dur :
  StronglySorted Z.lt
    (returned (AppointmentManager.get_available_slots st trainer date dur)).
Proof.
  unfold returned.
  destruct (AppointmentManager.get_available_slots st trainer date dur)
    as [l |] eqn:Hbody; [| constructor].
  unfold AppointmentManager.get_available_slots in Hbody.
  destruct (datetime_add _ (timedelta_days 1)); [| discriminate].
  cbn [mbind option_bind] in Hbody.
  destruct (mapM _ _); [| discriminate].
  exact (slot_loop_sorted _ _ _ _ _ _ _ Hbody).
Qed.

End AvailabilityOfStores.

(** A slot that does not conflict with a busy interval shares no instant
    with it. *)
Lemma no_overlap_disjoint startA endA startB endB :
  ~ overlaps startA endA startB endB ->
  forall x, startA <= x < endA -> ~ (startB <= x < endB).
Proof. unfold overlaps. intros Hfree x HA HB. apply Hfree. lia. Qed.

(** C1 (as amended).  Every start instant returned by either
    [get_available_slots] lies within business hours (at or after 09:00,
    ending by 18:00), is a whole number of 30-minute steps after business
    open, and its interval [start, start+duration) neither conflicts nor
    shares an instant with the interval of any session of that trainer
    starting on that day whose status is scheduled (for appointments:
    scheduled or confirmed); the returned sequence is strictly ascending.
    This holds for every date, naive or aware, and for every duration. *)
Theorem get_available_slots_free_of_busy_sessions
    (sst : SessionManager.store) (ast : AppointmentManager.store)
    (trainer : string) (date : datetime) (dur t : Z) :
  (t ∈ SessionManager.get_available_slots sst trainer date dur ->
     within_business_hours (wall date) dur t
     /\ forall i s,
          SessionManager.sessions sst !! i = Some s ->
          SessionManager.session_trainerId s = trainer ->
          on_day (wall date) (SessionManager.dateTime s) ->
          SessionManager.session_status s = scheduled ->
          ~ overlaps t (t + timedelta_minutes dur)
              (SessionManager.dateTime s) (session_end s)
          /\ forall x, t <= x < t + timedelta_minutes dur ->
               ~ (SessionManager.dateTime s <= x < session_end s))
  /\ (t ∈ returned (AppointmentManager.get_available_slots ast trainer date dur) ->
     within_business_hours (wall date) dur t
     /\ forall i a,
          AppointmentManager.appointments ast !! i = Some a ->
          AppointmentManager.trainer_id a = trainer ->
          on_day (wall date) (AppointmentManager.appointment_time a) ->
          AppointmentManager.appointment_status a = scheduled
          \/ AppointmentManager.appointment_status a = confirmed ->
          ~ overlaps t (t + timedelta_minutes dur)
              (AppointmentManager.appointment_time a) (appointment_end a)
          /\ forall x, t <= x < t + timedelta_minutes dur ->
               ~ (AppointmentManager.appointment_time a <= x < appointment_end a))
  /\ StronglySorted Z.lt (SessionManager.get_available_slots sst trainer date dur)
  /\ StronglySorted Z.lt
       (returned (AppointmentManager.get_available_slots ast trainer date dur)).
Proof.
  split; [| split; [| split;
    [apply session_slots_sorted | apply appointment_slots_sorted]]].
  - unfold SessionManager.get_available_slots.
    destruct (SessionManager.available_slots sst trainer date dur) as [l |] eqn:Hbody;
      [| intros Hin; inversion Hin].
    intros Hin.
    destruct (session_slots_sound _ _ _ _ _ _ Hbody Hin) as [Hhours Hfree].
    split; [exact Hhours |].
    intros i s Hi Ht Hday Hs.
    pose proof (Hfree i s Hi Ht Hday Hs) as Hno.
    split; [exact Hno | apply no_overlap_disjoint, Hno].
  - unfold returned.
    destruct (AppointmentManager.get_available_slots ast trainer date dur)
      as [l |] eqn:Hbody; [| intros Hin; inversion Hin].
    intros Hin.
    destruct (appointment_slots_sound _ _ _ _ _ _ Hbody Hin) as [Hhours Hfree].
    split; [exact Hhours |].
    intros i a Hi Ht Hday Hs.
    pose proof (Hfree i a Hi Ht Hday Hs) as Hno.
    split; [exact Hno | apply no_overlap_disjoint, Hno].
Qed.

(** Closed decidable facts are settled by evaluation. *)
Ltac by_compute := apply (bool_decide_unpack _); vm_compute; exact I.

(** The theorem at work, for an aware date: with a scheduled session from
    10:00 to 11:00, the 11:00 slot is returned, and it is inside business
    hours and clear of that session; with a confirmed appointment from 10:00
    to 11:00, the 09:00 slot is returned, inside business hours and clear of
    that appointment. *)
Lemma get_available_slots_free_of_busy_sessions_witness :
  (within_business_hours Examples.day0 60 (Examples.ten_oclock + timedelta_hours 1)
   /\ ~ overlaps (Examples.ten_oclock + timedelta_hours 1)
         (Examples.ten_oclock + timedelta_hours 1 + timedelta_minutes 60)
         Examples.ten_oclock (Examples.ten_oclock + timedelta_minutes 60))
  /\ (within_business_hours Examples.day0 60 (Examples.day0 + timedelta_hours 9)
      /\ ~ overlaps (Examples.day0 + timedelta_hours 9)
            (Examples.day0 + timedelta_hours 9 + timedelta_minutes 60)
            Examples.ten_oclock (Examples.ten_oclock + timedelta_minutes 60)).
Proof.
  pose proof (get_available_slots_free_of_busy_sessions
                (Examples.one_session scheduled)
                (Examples.one_appointment confirmed)
                "T" (aware Examples.day0) 60
                (Examples.ten_oclock + timedelta_hours 1)) as [Hs _].
  pose proof (get_available_slots_free_of_busy_sessions
                (Examples.one_session scheduled)
                (Examples.one_appointment confirmed)
                "T" (aware Examples.day0) 60
                (Examples.day0 + timedelta_hours 9)) as [_ [Ha _]].
  split.
  - destruct Hs as [Hw Hfree]; [by_compute |].
    split; [exact Hw |].
    apply (Hfree 0%nat (Examples.session_at Examples.ten_oclock scheduled)).
    + reflexivity.
    + reflexivity.
    + unfold on_day. by_compute.
    + reflexivity.
  - destruct Ha as [Hw Hfree]; [by_compute |].
    split; [exact Hw |].
    apply (Hfree 0%nat (Examples.appointment_at Examples.ten_oclock confirmed)).
    + reflexivity.
    + reflexivity.
    + unfold on_day. by_compute.
    + right. reflexivity.
Defined.

(** C1 as stated fails: the claim's "any non-cancelled session" includes
    statuses the queries leave out.  Session store: one session of trainer T,
    status confirmed, 10:00 to 11:00 on day 20000;
    [SessionManager.get_available_slots] for that trainer and day with
    duration 60 returns 10:00, whose interval is that of the session.
    Appointment store: the same with one appointment of status rescheduled
    (the status [reschedule_appointment] writes). *)
Lemma get_available_slots_non_cancelled_counterexample :
  ~ (forall (sst : SessionManager.store) (trainer : string) (date : datetime)
            (dur t : Z),
       0 < dur ->
       t ∈ SessionManager.get_available_slots sst trainer date dur ->
       forall i s,
         SessionManager.sessions sst !! i = Some s ->
         SessionManager.session_trainerId s = trainer ->
         on_day (wall date) (SessionManager.dateTime s) ->
         SessionManager.session_status s <> cancelled ->
         ~ overlaps t (t + timedelta_minutes dur)
             (SessionManager.dateTime s) (session_end s))
  /\ ~ (forall (ast : AppointmentManager.store) (trainer : string)
          (date : datetime) (dur t : Z),
          0 < dur ->
          t ∈ returned (AppointmentManager.get_available_slots ast trainer date dur) ->
          forall i a,
            AppointmentManager.appointments ast !! i = Some a ->
            AppointmentManager.trainer_id a = trainer ->
            on_day (wall date) (AppointmentManager.appointment_time a) ->
            AppointmentManager.appointment_status a <> cancelled ->
            ~ overlaps t (t + timedelta_minutes dur)
                (AppointmentManager.appointment_time a) (appointment_end a)).
Proof.
  split; intros claim.
  - apply (claim (Examples.one_session confirmed) "T" (naive Examples.day0) 60
                 Examples.ten_oclock
                 ltac:(reflexivity) ltac:(by_compute)
                 0%nat (Examples.session_at Examples.ten_oclock confirmed)).
    + reflexivity.
    + reflexivity.
    + unfold on_day. by_compute.
    + discriminate.
    + unfold overlaps. by_compute.
  - apply (claim (Examples.one_appointment rescheduled) "T"
                 (naive Examples.day0) 60
                 Examples.ten_oclock
                 ltac:(reflexivity) ltac:(by_compute)
                 0%nat (Examples.appointment_at Examples.ten_oclock rescheduled)).
    + reflexivity.
    + reflexivity.
    + unfold on_day. by_compute.
    + discriminate.
    + unfold overlaps. by_compute.
Qed.

(** ** The reminder query *)

Section ReminderQuery.

Lemma in_range_cases d delta :
  in_range d delta \/ datetime_add d delta = None.
Proof.
  unfold in_range, datetime_add.
  destruct (is_timedelta delta && is_datetime (d + delta)); [left | right];
    reflexivity.
Qed.

Lemma needing_reminders_iff st utcnow hours_ahead i s :
  (i, s) ∈ SessionManager.get_sessions_needing_reminders st utcnow hours_ahead
  <-> in_range utcnow (timedelta_hours hours_ahead)
      /\ SessionManager.sessions st !! i = Some s
      /\ SessionManager.session_status s = scheduled
      /\ SessionManager.autoReminderSent s = false
      /\ SessionManager.dateTime s <= utcnow + timedelta_hours hours_ahead.
Proof.
  unfold SessionManager.get_sessions_needing_reminders.
  destruct (in_range_cases utcnow (timedelta_hours hours_ahead)) as [Hin | Hout].
  - rewrite Hin, list_elem_of_filter, elem_of_map_to_list. cbn [snd]. tauto.
  - rewrite Hout. split; [intros H; inversion H |].
    unfold in_range. rewrite Hout. intros [[=] _].
Qed.

Lemma needing_reminders_overflow st utcnow hours_ahead :
  ~ in_range utcnow (timedelta_hours hours_ahead) ->
  SessionManager.get_sessions_needing_reminders st utcnow hours_ahead = [].
Proof.
  intros Hout. unfold SessionManager.get_sessions_needing_reminders.
  destruct (in_range_cases utcnow (timedelta_hours hours_ahead)) as [Hin | ->];
    [contradiction | reflexivity].
Qed.

Lemma NoDup_fst_filter_map_to_list {A} (m : gmap doc_id A)
    (P : doc_id * A -> Prop) `{!forall x, Decision (P x)} :
  NoDup (filter P (map_to_list m)).*1.
Proof.
  apply (sublist_NoDup _ (map_to_list m).*1); [apply NoDup_fst_map_to_list |].
  apply fmap_sublist, sublist_filter.
Qed.

Lemma needing_reminders_NoDup st utcnow hours_ahead :
  NoDup (SessionManager.get_sessions_needing_reminders st utcnow hours_ahead).*1.
Proof.
  unfold SessionManager.get_sessions_needing_reminders.
  destruct (datetime_add _ _); [| constructor].
  apply NoDup_fst_filter_map_to_list.
Qed.

End ReminderQuery.

(** C8 (as amended).  For a lead for which [now + lead hours] is a
    [datetime], [get_sessions_needing_reminders] returns exactly (and each
    once) the stored sessions with status scheduled, [autoReminderSent] false
    and [dateTime <= now + lead hours]; there is no lower bound on
    [dateTime].  With a lead of 24 hours a qualifying session dated now+23h
    is returned, one dated now+30h is not, and a session already flagged is
    never returned.  For a lead that takes [now + lead hours] out of the
    range of [datetime] the sum raises and the query returns no session. *)
Theorem get_sessions_needing_reminders_exact
    (st : SessionManager.store) (utcnow hours_ahead : Z)
    (i : doc_id) (s : SessionManager.session) :
  (in_range utcnow (timedelta_hours hours_ahead) ->
   ((i, s) ∈ SessionManager.get_sessions_needing_reminders st utcnow hours_ahead
    <-> SessionManager.sessions st !! i = Some s
        /\ SessionManager.session_status s = scheduled
        /\ SessionManager.autoReminderSent s = false
        /\ SessionManager.dateTime s <= utcnow + timedelta_hours hours_ahead))
  /\ NoDup (SessionManager.get_sessions_needing_reminders st utcnow hours_ahead).*1
  /\ (SessionManager.sessions st !! i = Some s ->
      SessionManager.session_status s = scheduled ->
      SessionManager.autoReminderSent s = false ->
      (in_range utcnow (timedelta_hours hours_ahead) ->
       forall age, 0 <= age ->
         SessionManager.dateTime s = utcnow + timedelta_hours hours_ahead - age ->
         (i, s) ∈ SessionManager.get_sessions_needing_reminders st utcnow hours_ahead)
      /\ (in_range utcnow (timedelta_hours 24) ->
          SessionManager.dateTime s = utcnow + timedelta_hours 23 ->
          (i, s) ∈ SessionManager.get_sessions_needing_reminders st utcnow 24)
      /\ (SessionManager.dateTime s = utcnow + timedelta_hours 30 ->
          (i, s) ∉ SessionManager.get_sessions_needing_reminders st utcnow 24))
  /\ (SessionManager.autoReminderSent s = true ->
      (i, s) ∉ SessionManager.get_sessions_needing_reminders st utcnow hours_ahead)
  /\ (~ in_range utcnow (timedelta_hours hours_ahead) ->
      SessionManager.get_sessions_needing_reminders st utcnow hours_ahead = []).
Proof.
  split; [intros Hrange; rewrite needing_reminders_iff; tauto |].
  split; [apply needing_reminders_NoDup |].
  split; [| split; [| apply needing_reminders_overflow]].
  - intros Hi Hs Hf. split; [| split].
    + intros Hrange age Hage Hd. apply needing_reminders_iff.
      repeat split; try assumption. lia.
    + intros Hrange Hd. apply needing_reminders_iff.
      repeat split; try assumption. rewrite Hd. time_lia.
    + intros Hd Hin.
      apply needing_reminders_iff in Hin as (_ & _ & _ & _ & Hle).
      rewrite Hd in Hle. time_lia.
  - intros Hf Hin. apply needing_reminders_iff in Hin as (_ & _ & _ & Hf' & _).
    congruence.
Qed.

(** The theorem on the example store, with a lead of 24 hours: the session
    due in 23 hours and the one 1000 hours overdue are returned, the one due
    in 30 hours and the flagged one are not. *)
Lemma get_sessions_needing_reminders_exact_witness :
  ((0%nat, Examples.reminder_session 0%nat (Examples.utcnow0 + timedelta_hours 23) false)
    ∈ SessionManager.get_sessions_needing_reminders
        Examples.reminder_store Examples.utcnow0 24)
  /\ ((1%nat, Examples.reminder_session 0%nat (Examples.utcnow0 + timedelta_hours 30) false)
    ∉ SessionManager.get_sessions_needing_reminders
        Examples.reminder_store Examples.utcnow0 24)
  /\ ((2%nat, Examples.reminder_session 0%nat (Examples.utcnow0 + timedelta_hours 1) true)
    ∉ SessionManager.get_sessions_needing_reminders
        Examples.reminder_store Examples.utcnow0 24)
  /\ ((3%nat, Examples.reminder_session 1%nat (Examples.utcnow0 - timedelta_hours 1000) false)
    ∈ SessionManager.get_sessions_needing_reminders
        Examples.reminder_store Examples.utcnow0 24).
Proof.
  split; [| split; [| split]].
  - destruct (get_sessions_needing_reminders_exact
                Examples.reminder_store Examples.utcnow0 24 0%nat
                (Examples.reminder_session 0%nat
                   (Examples.utcnow0 + timedelta_hours 23) false))
      as (_ & _ & H & _).
    destruct H as (_ & H23 & _); [reflexivity | reflexivity | reflexivity |].
    apply H23; reflexivity.
  - destruct (get_sessions_needing_reminders_exact
                Examples.reminder_store Examples.utcnow0 24 1%nat
                (Examples.reminder_session 0%nat
                   (Examples.utcnow0 + timedelta_hours 30) false))
      as (_ & _ & H & _).
    destruct H as (_ & _ & H30); [reflexivity | reflexivity | reflexivity |].
    apply H30. reflexivity.
  - destruct (get_sessions_needing_reminders_exact
                Examples.reminder_store Examples.utcnow0 24 2%nat
                (Examples.reminder_session 0%nat
                   (Examples.utcnow0 + timedelta_hours 1) true))
      as (_ & _ & _ & H & _).
    apply H. reflexivity.
  - destruct (get_sessions_needing_reminders_exact
                Examples.reminder_store Examples.utcnow0 24 3%nat
                (Examples.reminder_session 1%nat
                   (Examples.utcnow0 - timedelta_hours 1000) false))
      as (_ & _ & H & _).
    destruct H as (Hold & _); [reflexivity | reflexivity | reflexivity |].
    apply (Hold eq_refl (timedelta_hours 1024)); reflexivity || discriminate.
Defined.

(** C8 as stated fails for a lead that takes [now + lead hours] past
    [datetime.max].  Store: the example store, whose session 0 is scheduled,
    unflagged and dated 23 hours after [utcnow0] (08:00 on day 20000); lead:
    80000000 hours.  The session satisfies the three conditions of the
    claim, and [get_sessions_needing_reminders] returns the empty list:
    [utcnow + timedelta(hours=80000000)] raises [OverflowError], which the
    [except] turns into [[]]. *)
Lemma get_sessions_needing_reminders_lead_counterexample :
  ~ (forall (st : SessionManager.store) (utcnow hours_ahead : Z)
            (i : doc_id) (s : SessionManager.session),
       (i, s) ∈ SessionManager.get_sessions_needing_reminders st utcnow hours_ahead
       <-> SessionManager.sessions st !! i = Some s
           /\ SessionManager.session_status s = scheduled
           /\ SessionManager.autoReminderSent s = false
           /\ SessionManager.dateTime s <= utcnow + timedelta_hours hours_ahead).
Proof.
  intros claim.
  assert (Hin : (0%nat, Examples.reminder_session 0%nat
                          (Examples.utcnow0 + timedelta_hours 23) false)
                ∈ SessionManager.get_sessions_needing_reminders
                    Examples.reminder_store Examples.utcnow0 80000000).
  { apply claim. split; [reflexivity |]. split; [reflexivity |].
    split; [reflexivity |]. cbn [SessionManager.dateTime Examples.reminder_session].
    time_lia. }
  vm_compute in Hin. inversion Hin.
Qed.
(** ** The reminder sweep *)

Section ReminderSweep.

Variable create_call : SessionOutboundCaller.telephony.

Lemma filter_ext_elem {A} (P Q : A -> Prop)
    `{!forall x, Decision (P x)} `{!forall x, Decision (Q x)} (l : list A) :
  (forall x, x ∈ l -> (P x <-> Q x)) -> filter P l = filter Q l.
Proof.
  induction l as [| x l IH]; intros Hext; [reflexivity |].
  rewrite !filter_cons.
  assert (Hx : P x <-> Q x) by (apply Hext, list_elem_of_here).
  rewrite IH by (intros y Hy; apply Hext, list_elem_of_further, Hy).
  destruct (decide (P x)), (decide (Q x)); tauto || reflexivity.
Qed.

(** The outcome of a reminder call depends on the session's own document
    and on the clients only. *)
Lemma reminder_succeeds_ext st1 st2 j :
  SessionManager.sessions st1 !! j = SessionManager.sessions st2 !! j ->
  SessionManager.clients st1 = SessionManager.clients st2 ->
  reminder_succeeds create_call st1 j = reminder_succeeds create_call st2 j.
Proof.
  intros Hs Hc.
  unfold reminder_succeeds, SessionOutboundCaller.make_reminder_call,
    SessionManager.get_session_by_id, SessionManager.get_client_by_id.
  rewrite Hs, Hc.
  destruct (SessionManager.sessions st2 !! j) as [s |]; [| reflexivity].
  destruct (SessionManager.clients st2 !! SessionManager.clientId s);
    [| reflexivity].
  destruct (SessionOutboundCaller._make_call _ _ _); reflexivity.
Qed.

(** One call: the flag of that session is set exactly when the call reports
    success; nothing else changes. *)
Lemma make_reminder_call_store st i :
  let r := SessionOutboundCaller.make_reminder_call create_call st i in
  r.1 = reminder_succeeds create_call st i
  /\ SessionManager.clients r.2 = SessionManager.clients st
  /\ forall j,
       SessionManager.sessions r.2 !! j
       = (fun s => if bool_decide (j = i) && reminder_succeeds create_call st i
                   then SessionManager.with_reminder_sent s else s)
           <$> SessionManager.sessions st !! j.
Proof.
  unfold reminder_succeeds, SessionOutboundCaller.make_reminder_call,
    SessionManager.get_session_by_id, SessionManager.get_client_by_id.
  destruct (SessionManager.sessions st !! i) as [s |] eqn:Hi; simpl.
  2: { repeat split. intros j. rewrite andb_false_r.
       destruct (SessionManager.sessions st !! j); reflexivity. }
  destruct (SessionManager.clients st !! SessionManager.clientId s); simpl.
  2: { repeat split. intros j. rewrite andb_false_r.
       destruct (SessionManager.sessions st !! j); reflexivity. }
  destruct (SessionOutboundCaller._make_call _ _ _); simpl.
  - unfold SessionManager.mark_reminder_sent, SessionManager.update_session.
    rewrite Hi. simpl. repeat split. intros j. rewrite andb_true_r.
    destruct (decide (j = i)) as [-> | Hne].
    + rewrite lookup_insert_eq, Hi, bool_decide_eq_true_2 by reflexivity.
      reflexivity.
    + rewrite lookup_insert_ne by congruence.
      rewrite bool_decide_eq_false_2 by exact Hne.
      destruct (SessionManager.sessions st !! j); reflexivity.
  - repeat split. intros j. rewrite andb_false_r.
    destruct (SessionManager.sessions st !! j); reflexivity.
Qed.

Lemma reminder_loop_spec :
  forall (queue : list (doc_id * SessionManager.session)) acc st,
    NoDup queue.*1 ->
    let r := SessionOutboundCaller.reminder_loop create_call queue acc st in
    SessionOutboundCaller.total_sessions r.1
    = SessionOutboundCaller.total_sessions acc
    /\ SessionOutboundCaller.successful_calls r.1
       = SessionOutboundCaller.successful_calls acc
         + Z.of_nat (length (filter
             (fun d => reminder_succeeds create_call st d.1 = true) queue))
    /\ SessionOutboundCaller.failed_calls r.1
       = SessionOutboundCaller.failed_calls acc
         + Z.of_nat (length (filter
             (fun d => reminder_succeeds create_call st d.1 = false) queue))
    /\ SessionManager.clients r.2 = SessionManager.clients st
    /\ forall j,
         SessionManager.sessions r.2 !! j
         = (fun s => if bool_decide (j ∈ queue.*1)
                        && reminder_succeeds create_call st j
                     then SessionManager.with_reminder_sent s else s)
             <$> SessionManager.sessions st !! j.
Proof.
  induction queue as [| [i0 s0] queue IH]; intros acc st Hnd; simpl.
  - repeat split; try lia. intros j.
    destruct (SessionManager.sessions st !! j); reflexivity.
  - apply NoDup_cons in Hnd as [Hi0 Hnd].
    destruct (make_reminder_call_store st i0) as (Hok & Hcl & Hse).
    destruct (SessionOutboundCaller.make_reminder_call create_call st i0)
      as [success st1] eqn:Hcall.
    simpl in Hok, Hcl, Hse.
    assert (Hext : forall j, j <> i0 ->
              reminder_succeeds create_call st1 j
              = reminder_succeeds create_call st j).
    { intros j Hne. apply reminder_succeeds_ext; [| exact Hcl].
      rewrite Hse, bool_decide_eq_false_2 by exact Hne.
      destruct (SessionManager.sessions st !! j); reflexivity. }
    assert (Hq : forall d : doc_id * SessionManager.session,
              d ∈ queue -> d.1 <> i0).
    { intros d Hd Heq. apply Hi0, list_elem_of_fmap.
      exists d. split; [symmetry; exact Heq | exact Hd]. }
    match goal with
    | |- context [SessionOutboundCaller.reminder_loop _ _ ?a _] =>
        specialize (IH a st1 Hnd)
    end.
    destruct IH as (Ht & Hs & Hf & Hc & Hl).
    rewrite !filter_cons. simpl.
    rewrite (filter_ext_elem _
               (fun d => reminder_succeeds create_call st d.1 = true)) in Hs
      by (intros d Hd; rewrite (Hext _ (Hq d Hd)); reflexivity).
    rewrite (filter_ext_elem _
               (fun d => reminder_succeeds create_call st d.1 = false)) in Hf
      by (intros d Hd; rewrite (Hext _ (Hq d Hd)); reflexivity).
    split; [| split; [| split; [| split]]].
    + rewrite Ht. destruct success; reflexivity.
    + rewrite Hs, <- Hok. destruct success; simpl; lia.
    + rewrite Hf, <- Hok. destruct success; simpl; lia.
    + congruence.
    + intros j. rewrite Hl, Hse.
      destruct (SessionManager.sessions st !! j) as [s |]; [| reflexivity].
      simpl. f_equal.
      destruct (decide (j = i0)) as [-> | Hne].
      * rewrite (bool_decide_eq_false_2 (i0 ∈ queue.*1)) by exact Hi0.
        rewrite !bool_decide_eq_true_2
          by (reflexivity || apply list_elem_of_here).
        reflexivity.
      * rewrite (bool_decide_eq_false_2 (j = i0)) by exact Hne.
        rewrite (Hext j Hne). simpl. symmetry.
        rewrite (bool_decide_ext _ (j ∈ queue.*1)); [reflexivity |].
        rewrite elem_of_cons.
        split; [intros [Heq | Hin]; [contradiction | exact Hin]
               | intros Hin; right; exact Hin].
Qed.

End ReminderSweep.

Lemma filter_true_false_length {A} (f : A -> bool) (l : list A) :
  (length (filter (fun x => f x = true) l)
   + length (filter (fun x => f x = false) l))%nat = length l.
Proof.
  induction l as [| x l IH]; [reflexivity |].
  rewrite !filter_cons. destruct (f x); simpl; lia.
Qed.

(** C9.  The sweep processes every session of the queue: the outcome of each
    call is the one that session gives on its own (from the store as it was
    when the sweep started), whatever happened to the sessions before it.
    [successful_calls] counts the sessions whose call reported success,
    [failed_calls] the others (no session, no client, or a call that raised),
    and the two add up to [total_sessions].  Afterwards the reminder flag of a
    queued session is set exactly when its call reported success; a session
    whose call failed is unchanged and is returned again by the next query. *)
Theorem process_reminder_queue_isolates_failures
    (create_call : SessionOutboundCaller.telephony)
    (st : SessionManager.store) (utcnow hours_ahead : Z) :
  let queue := SessionManager.get_sessions_needing_reminders st utcnow hours_ahead in
  let r := SessionOutboundCaller.process_reminder_queue
             create_call st utcnow hours_ahead in
  SessionOutboundCaller.total_sessions r.1 = Z.of_nat (length queue)
  /\ SessionOutboundCaller.successful_calls r.1
     = Z.of_nat (length (filter
         (fun d => reminder_succeeds create_call st d.1 = true) queue))
  /\ SessionOutboundCaller.failed_calls r.1
     = Z.of_nat (length (filter
         (fun d => reminder_succeeds create_call st d.1 = false) queue))
  /\ SessionOutboundCaller.successful_calls r.1
     + SessionOutboundCaller.failed_calls r.1
     = SessionOutboundCaller.total_sessions r.1
  /\ (forall j s, (j, s) ∈ queue ->
        SessionManager.sessions r.2 !! j
        = Some (if reminder_succeeds create_call st j
                then SessionManager.with_reminder_sent s else s))
  /\ (forall j s', SessionManager.sessions r.2 !! j = Some s' ->
        SessionManager.autoReminderSent s' = true ->
        exists s, SessionManager.sessions st !! j = Some s
          /\ (SessionManager.autoReminderSent s = true
              \/ ((j, s) ∈ queue /\ reminder_succeeds create_call st j = true)))
  /\ (forall j s, (j, s) ∈ queue ->
        reminder_succeeds create_call st j = false ->
        (j, s) ∈ SessionManager.get_sessions_needing_reminders r.2 utcnow hours_ahead).
Proof.
  intros queue r.
  pose proof (reminder_loop_spec create_call queue
                {| SessionOutboundCaller.total_sessions := Z.of_nat (length queue);
                   SessionOutboundCaller.successful_calls := 0;
                   SessionOutboundCaller.failed_calls := 0 |}
                st (needing_reminders_NoDup st utcnow hours_ahead)) as Hspec.
  change (SessionOutboundCaller.reminder_loop create_call queue _ st)
    with r in Hspec.
  destruct Hspec as (Ht & Hs & Hf & _ & Hl).
  simpl in Ht, Hs, Hf.
  assert (Hqueued : forall j s, (j, s) ∈ queue ->
            SessionManager.sessions r.2 !! j
            = Some (if reminder_succeeds create_call st j
                    then SessionManager.with_reminder_sent s else s)).
  { intros j s Hin. rewrite Hl.
    pose proof (proj1 (needing_reminders_iff _ _ _ _ _) Hin) as (_ & Hj & _).
    rewrite Hj. simpl.
    rewrite bool_decide_eq_true_2; [reflexivity |].
    apply list_elem_of_fmap. exists (j, s). split; [reflexivity | exact Hin]. }
  split; [exact Ht |]. split; [exact Hs |]. split; [exact Hf |].
  split; [| split; [exact Hqueued | split]].
  - pose proof (filter_true_false_length
                  (fun d => reminder_succeeds create_call st d.1) queue).
    lia.
  - intros j s' Hj Hflag. rewrite Hl in Hj.
    destruct (SessionManager.sessions st !! j) as [s |] eqn:Hst;
      [| discriminate].
    exists s. split; [reflexivity |].
    simpl in Hj. injection Hj as <-.
    destruct (bool_decide (j ∈ queue.*1)) eqn:Hq; simpl in Hflag;
      [| left; exact Hflag].
    destruct (reminder_succeeds create_call st j) eqn:Hok;
      [| left; exact Hflag].
    right. split; [| reflexivity].
    apply bool_decide_eq_true_1, list_elem_of_fmap in Hq as ([j' s2] & Hj' & Hin).
    simpl in Hj'. subst j'.
    pose proof (proj1 (needing_reminders_iff _ _ _ _ _) Hin) as (_ & Hj2 & _).
    rewrite Hst in Hj2. injection Hj2 as ->. exact Hin.
  - intros j s Hin Hfail.
    pose proof (Hqueued j s Hin) as Hj. rewrite Hfail in Hj.
    apply needing_reminders_iff in Hin as (Hrange & _ & Hrest).
    apply needing_reminders_iff.
    split; [exact Hrange | split; [exact Hj | exact Hrest]].
Qed.

(** The theorem on the example store, where the number of the client of
    session 3 cannot be reached: of the two queued sessions one call succeeds
    and one fails; session 0 ends up flagged, session 3 is left as it was and
    is queued again; the flag on session 2 was there before the sweep. *)
Lemma process_reminder_queue_isolates_failures_witness :
  let r := SessionOutboundCaller.process_reminder_queue
             Examples.unreachable_bob Examples.reminder_store Examples.utcnow0 24 in
  r.1 = {| SessionOutboundCaller.total_sessions := 2;
           SessionOutboundCaller.successful_calls := 1;
           SessionOutboundCaller.failed_calls := 1 |}
  /\ SessionManager.sessions r.2 !! 0%nat
     = Some (Examples.reminder_session 0%nat
               (Examples.utcnow0 + timedelta_hours 23) true)
  /\ (3%nat, Examples.reminder_session 1%nat
               (Examples.utcnow0 - timedelta_hours 1000) false)
     ∈ SessionManager.get_sessions_needing_reminders r.2 Examples.utcnow0 24
  /\ (exists s,
        SessionManager.sessions Examples.reminder_store !! 2%nat = Some s
        /\ (SessionManager.autoReminderSent s = true
            \/ ((2%nat, s)
                  ∈ SessionManager.get_sessions_needing_reminders
                      Examples.reminder_store Examples.utcnow0 24
                /\ reminder_succeeds Examples.unreachable_bob
                     Examples.reminder_store 2%nat = true))).
Proof.
  intros r.
  pose proof (process_reminder_queue_isolates_failures
                Examples.unreachable_bob Examples.reminder_store
                Examples.utcnow0 24) as (_ & _ & _ & _ & Hq & Hflag & Hretry).
  fold r in Hq, Hflag, Hretry.
  split; [reflexivity |]. split; [| split].
  - apply (Hq 0%nat (Examples.reminder_session 0%nat
                       (Examples.utcnow0 + timedelta_hours 23) false)).
    by_compute.
  - apply Hretry; [by_compute | reflexivity].
  - apply (Hflag 2%nat (Examples.reminder_session 0%nat
                          (Examples.utcnow0 + timedelta_hours 1) true));
      reflexivity.
Defined.

(** ** The booking commit *)

Section Booking.

Lemma get_client_by_phone_Some st ph d :
  SessionManager.get_client_by_phone st ph = Some d ->
  SessionManager.clients st !! d.1 = Some d.2 /\ SessionManager.phone d.2 = ph.
Proof.
  unfold SessionManager.get_client_by_phone. intros H.
  apply head_Some_elem_of, list_elem_of_filter in H as [Hph Hin].
  split; [apply elem_of_map_to_list' |]; assumption.
Qed.

Lemma get_client_by_phone_None st ph :
  SessionManager.get_client_by_phone st ph = None ->
  forall i c, SessionManager.clients st !! i = Some c ->
              SessionManager.phone c <> ph.
Proof.
  unfold SessionManager.get_client_by_phone. intros H i c Hi Hph.
  apply head_None in H.
  assert (Hin : (i, c) ∈ filter
            (fun d : doc_id * SessionManager.client => SessionManager.phone d.2 = ph)
            (map_to_list (SessionManager.clients st))).
  { apply list_elem_of_filter. split; [exact Hph |].
    apply elem_of_map_to_list. exact Hi. }
  rewrite H in Hin. inversion Hin.
Qed.

Lemma fresh_client_id st :
  SessionManager.clients st !! fresh (dom (SessionManager.clients st)) = None.
Proof. apply not_elem_of_dom, is_fresh. Qed.

Lemma fresh_session_id st :
  SessionManager.sessions st !! fresh (dom (SessionManager.sessions st)) = None.
Proof. apply not_elem_of_dom, is_fresh. Qed.

(** A caller whose number is on file: the balance decides. *)
Lemma book_session_known st nm ph dt id c :
  SessionManager.get_client_by_phone st ph = Some (id, c) ->
  SessionSchedulingAgent.book_session st nm ph dt =
  if balance st id <=? 0 then (no_remaining_sessions, st)
  else
    (session_scheduled dt (balance st id - 1),
     {| SessionManager.clients :=
          <[id := SessionManager.with_sessions_remaining (balance st id - 1) c]>
            (SessionManager.clients st);
        SessionManager.sessions :=
          <[fresh (dom (SessionManager.sessions st)) :=
              SessionManager.session_data id nm
                SessionSchedulingAgent.default_trainer_id dt "Gym" 60]>
            (SessionManager.sessions st) |}).
Proof.
  intros Hph. pose proof (get_client_by_phone_Some _ _ _ Hph) as [Hid _].
  simpl in Hid.
  unfold SessionSchedulingAgent.book_session, balance. rewrite Hph. simpl.
  destruct (SessionManager.get_client_sessions_remaining st id <=? 0);
    [reflexivity |].
  unfold SessionManager.update_client_sessions_remaining. simpl.
  rewrite Hid. reflexivity.
Qed.

(** A first-time caller: the client is created with balance 0 and the
    balance check stops the booking. *)
Lemma book_session_unknown st nm ph dt :
  SessionManager.get_client_by_phone st ph = None ->
  SessionSchedulingAgent.book_session st nm ph dt =
  (no_remaining_sessions,
   {| SessionManager.clients :=
        <[fresh (dom (SessionManager.clients st)) :=
            SessionManager.client_data nm ph
              SessionSchedulingAgent.default_trainer_id 0]>
          (SessionManager.clients st);
      SessionManager.sessions := SessionManager.sessions st |}).
Proof.
  intros Hph.
  unfold SessionSchedulingAgent.book_session. rewrite Hph. simpl.
  unfold SessionManager.get_client_sessions_remaining,
    SessionManager.get_client_by_id. simpl.
  rewrite lookup_insert_eq. reflexivity.
Qed.

Lemma balance_insert st id c id' ss :
  balance {| SessionManager.clients := <[id := c]> (SessionManager.clients st);
             SessionManager.sessions := ss |} id'
  = if decide (id = id') then default 0 (SessionManager.sessionsRemaining c)
    else balance st id'.
Proof.
  unfold balance, SessionManager.get_client_sessions_remaining,
    SessionManager.get_client_by_id. simpl.
  rewrite lookup_insert. destruct (decide (id = id')); reflexivity.
Qed.

(** What one booking attempt does to the balances and to the sessions. *)
Lemma book_session_effect st nm ph dt :
  let r := SessionSchedulingAgent.book_session st nm ph dt in
  (exists id c,
      SessionManager.get_client_by_phone st ph = Some (id, c)
      /\ 0 < balance st id
      /\ r.1 = session_scheduled dt (balance st id - 1)
      /\ balance r.2 id = balance st id - 1
      /\ (forall id', id' <> id -> balance r.2 id' = balance st id')
      /\ SessionManager.sessions r.2
         = <[fresh (dom (SessionManager.sessions st)) :=
               SessionManager.session_data id nm
                 SessionSchedulingAgent.default_trainer_id dt "Gym" 60]>
             (SessionManager.sessions st))
  \/ (r.1 = no_remaining_sessions
      /\ (forall id, balance r.2 id = balance st id)
      /\ SessionManager.sessions r.2 = SessionManager.sessions st).
Proof.
  intros r. subst r.
  destruct (SessionManager.get_client_by_phone st ph) as [[id c] |] eqn:Hph.
  - rewrite (book_session_known _ _ _ _ _ _ Hph).
    destruct (Z.leb_spec (balance st id) 0) as [Hle | Hgt].
    + right. repeat split.
    + left. exists id, c. simpl.
      split; [reflexivity |]. split; [exact Hgt |]. split; [reflexivity |].
      split; [| split; [| reflexivity]].
      * rewrite balance_insert, decide_True by reflexivity. reflexivity.
      * intros id' Hne. rewrite balance_insert, decide_False by congruence.
        reflexivity.
  - rewrite (book_session_unknown _ _ _ _ Hph). right. simpl.
    split; [reflexivity |]. split; [| reflexivity].
    intros id. rewrite balance_insert.
    destruct (decide _) as [<- |]; [| reflexivity].
    unfold balance, SessionManager.get_client_sessions_remaining,
      SessionManager.get_client_by_id.
    rewrite fresh_client_id. reflexivity.
Qed.

Lemma book_session_nonneg st nm ph dt :
  balances_nonneg st ->
  balances_nonneg (SessionSchedulingAgent.book_session st nm ph dt).2.
Proof.
  intros Hst id'.
  destruct (book_session_effect st nm ph dt)
    as [(id & c & _ & Hpos & _ & Hid & Hother & _) | (_ & Hsame & _)].
  - destruct (decide (id' = id)) as [-> | Hne].
    + rewrite Hid. lia.
    + rewrite (Hother _ Hne). apply Hst.
  - rewrite Hsame. apply Hst.
Qed.

Lemma handle_schedule_request_store env a info cid :
  SessionSchedulingAgent.session_manager
    (SessionSchedulingAgent.handle_schedule_request env a info cid).2
  = SessionSchedulingAgent.session_manager a
  \/ exists nm ph dt,
       SessionSchedulingAgent.session_manager
         (SessionSchedulingAgent.handle_schedule_request env a info cid).2
       = (SessionSchedulingAgent.book_session
            (SessionSchedulingAgent.session_manager a) nm ph dt).2.
Proof.
  unfold SessionSchedulingAgent.handle_schedule_request.
  destruct (prompt_for _); [left; reflexivity |].
  destruct (read_draft _ _) as [[[dt ph] nm] |]; [| left; reflexivity].
  right. exists nm, ph, dt.
  destruct (SessionSchedulingAgent.book_session _ _ _ _). reflexivity.
Qed.

Lemma read_draft_fields env context dt ph nm :
  read_draft env context = Some (dt, ph, nm) ->
  context !! "phone" = Some ph /\ context !! "name" = Some nm.
Proof.
  unfold read_draft. intros H.
  destruct (context !! "date") as [date_str |]; [| discriminate].
  destruct (context !! "time") as [time_str |]; [| discriminate].
  cbn [mbind option_bind] in H.
  destruct (resolve_datetime env date_str time_str); [| discriminate].
  cbn [mbind option_bind] in H.
  destruct (context !! "phone"); [| discriminate].
  destruct (context !! "name"); [| discriminate].
  cbn [mbind option_bind] in H. injection H as _ -> ->. split; reflexivity.
Qed.

(** A turn of the schedule handler either leaves the store alone, with a
    reply other than the confirmation, or is one booking attempt for the
    phone number and the name of the draft. *)
Lemma handle_schedule_request_effect env a info cid :
  let r := SessionSchedulingAgent.handle_schedule_request env a info cid in
  (SessionSchedulingAgent.session_manager r.2
   = SessionSchedulingAgent.session_manager a
   /\ SessionSchedulingAgent.is_scheduled r.1 = false)
  \/ exists nm ph dt,
       merged_context a cid info !! "phone" = Some ph
       /\ r.1 = (SessionSchedulingAgent.book_session
                   (SessionSchedulingAgent.session_manager a) nm ph dt).1
       /\ SessionSchedulingAgent.session_manager r.2
          = (SessionSchedulingAgent.book_session
               (SessionSchedulingAgent.session_manager a) nm ph dt).2.
Proof.
  unfold SessionSchedulingAgent.handle_schedule_request.
  fold (merged_context a cid info).
  destruct (prompt_for _) as [prompt |] eqn:Hprompt.
  - left. split; [reflexivity |]. simpl.
    unfold prompt_for in Hprompt.
    destruct (missing_fields _); [discriminate |].
    repeat (destruct (in_list _ _); [injection Hprompt as <-; reflexivity |]).
    discriminate.
  - destruct (read_draft _ _) as [[[dt ph] nm] |] eqn:Hdraft;
      [| left; split; reflexivity].
    right. exists nm, ph, dt.
    split; [apply (read_draft_fields _ _ _ _ _ Hdraft) |].
    destruct (SessionSchedulingAgent.book_session _ _ _ _).
    split; reflexivity.
Qed.

Lemma process_scheduling_request_nonneg env a info cid :
  balances_nonneg (SessionSchedulingAgent.session_manager a) ->
  balances_nonneg
    (SessionSchedulingAgent.session_manager
       (SessionSchedulingAgent.process_scheduling_request env a info cid).2).
Proof.
  intros Ha. unfold SessionSchedulingAgent.process_scheduling_request.
  destruct (info_intent info); simpl; try exact Ha.
  destruct (handle_schedule_request_store env a info cid)
    as [-> | (nm & ph & dt & ->)]; [exact Ha |].
  apply book_session_nonneg, Ha.
Qed.

Lemma run_requests_nonneg requests :
  forall a,
    balances_nonneg (SessionSchedulingAgent.session_manager a) ->
    balances_nonneg
      (SessionSchedulingAgent.session_manager
         (SessionSchedulingAgent.run_requests a requests)).
Proof.
  induction requests as [| [[env info] cid] requests IH]; intros a Ha; simpl;
    [exact Ha |].
  apply IH, process_scheduling_request_nonneg, Ha.
Qed.

End Booking.

(** C3.  Over any sequence of requests to the agent no balance becomes
    negative.  One booking attempt: for a client on file whose balance is 0
    or less the reply is the package-exhausted one and the store is
    unchanged.  One turn of the schedule handler: when it confirms a booking,
    the balance of the client found by the phone number has gone down by
    exactly 1, the other balances are as before and exactly one session was
    added; when it does not, no balance has changed and no session was
    added. *)
Theorem sessions_remaining_never_negative
    (requests : list (environment * extracted_info * string))
    (env : environment) (a : SessionSchedulingAgent.agent)
    (info : extracted_info) (cid : string)
    (st : SessionManager.store) (nm ph : string) (dt : Z) :
  (balances_nonneg (SessionSchedulingAgent.session_manager a) ->
   balances_nonneg
     (SessionSchedulingAgent.session_manager
        (SessionSchedulingAgent.run_requests a requests)))
  /\ (forall id c,
        SessionManager.get_client_by_phone st ph = Some (id, c) ->
        balance st id <= 0 ->
        SessionSchedulingAgent.book_session st nm ph dt
        = (no_remaining_sessions, st))
  /\ let r := SessionSchedulingAgent.handle_schedule_request env a info cid in
     let before := SessionSchedulingAgent.session_manager a in
     let after := SessionSchedulingAgent.session_manager r.2 in
     (SessionSchedulingAgent.is_scheduled r.1 = true ->
      exists ph id c session_id session,
        merged_context a cid info !! "phone" = Some ph
        /\ SessionManager.get_client_by_phone before ph = Some (id, c)
        /\ 0 < balance before id
        /\ balance after id = balance before id - 1
        /\ (forall id', id' <> id -> balance after id' = balance before id')
        /\ SessionManager.sessions before !! session_id = None
        /\ SessionManager.sessions after
           = <[session_id := session]> (SessionManager.sessions before))
     /\ (SessionSchedulingAgent.is_scheduled r.1 = false ->
         (forall id, balance after id = balance before id)
         /\ SessionManager.sessions after = SessionManager.sessions before).
Proof.
  split; [apply run_requests_nonneg |]. split.
  - intros id c Hph Hle.
    rewrite (book_session_known _ _ _ _ _ _ Hph).
    apply Z.leb_le in Hle. rewrite Hle. reflexivity.
  - intros r before after.
    pose proof (handle_schedule_request_effect env a info cid) as Heffect.
    fold r in Heffect. fold before after in Heffect.
    destruct Heffect as [[Hsame Hno] | (nm' & ph' & dt' & Hphone & Hr & Hst)].
    + split; [intros Hok; congruence |].
      intros _. unfold after. rewrite Hsame. split; reflexivity.
    + unfold after. rewrite Hst, Hr.
      destruct (book_session_effect before nm' ph' dt')
        as [(id & c & Hph & Hpos & Hreply & Hid & Hother & Hs)
           | (Hreply & Hbal & Hs)].
      * split; [| rewrite Hreply; discriminate].
        intros _.
        exists ph', id, c, (fresh (dom (SessionManager.sessions before))),
          (SessionManager.session_data id nm'
             SessionSchedulingAgent.default_trainer_id dt' "Gym" 60).
        repeat split; try assumption. apply fresh_session_id.
      * split; [rewrite Hreply; discriminate |].
        intros _. split; assumption.
Qed.

Lemma booking_store_nonneg : balances_nonneg Examples.booking_store.
Proof.
  intros id. unfold balance, SessionManager.get_client_sessions_remaining,
    SessionManager.get_client_by_id. simpl.
  destruct (decide (id = 0%nat)) as [-> | Hne].
  - rewrite lookup_singleton_eq. simpl. lia.
  - rewrite lookup_singleton_ne by congruence. lia.
Qed.

(** The theorem on the example store, whose one client has two sessions
    left.  Three complete requests in a row leave no balance negative (the
    third is refused), and once the balance is 0 a booking attempt is refused
    with the store unchanged.  The first request alone is confirmed and takes
    the balance of the caller from 2 to 1; the same request to the agent with
    the empty store is not confirmed and leaves no session. *)
Lemma sessions_remaining_never_negative_witness :
  let requests :=
    [(Examples.env0, Examples.full_request, "call-1"%string);
     (Examples.env0, Examples.full_request, "call-1"%string);
     (Examples.env0, Examples.full_request, "call-1"%string)] in
  let after := SessionSchedulingAgent.run_requests Examples.booking_agent requests in
  let first := SessionSchedulingAgent.handle_schedule_request
                 Examples.env0 Examples.booking_agent Examples.full_request "call-1" in
  let refused := SessionSchedulingAgent.handle_schedule_request
                   Examples.env0 Examples.fresh_agent Examples.full_request "call-1" in
  balances_nonneg (SessionSchedulingAgent.session_manager after)
  /\ balance (SessionSchedulingAgent.session_manager after) 0%nat = 0
  /\ size (SessionManager.sessions (SessionSchedulingAgent.session_manager after))
     = 2%nat
  /\ SessionSchedulingAgent.book_session
       (SessionSchedulingAgent.session_manager after)
       "jane smith" "555-123-4567" Examples.ten_oclock
     = (no_remaining_sessions, SessionSchedulingAgent.session_manager after)
  /\ (exists id,
        balance (SessionSchedulingAgent.session_manager first.2) id
        = balance Examples.booking_store id - 1)
  /\ SessionManager.sessions (SessionSchedulingAgent.session_manager refused.2) = ∅.
Proof.
  intros requests after first refused.
  pose proof (sessions_remaining_never_negative requests
                Examples.env0 Examples.booking_agent Examples.full_request "call-1"
                (SessionSchedulingAgent.session_manager after)
                "jane smith" "555-123-4567" Examples.ten_oclock)
    as (Hnonneg & Hzero & Hbooked & _).
  pose proof (sessions_remaining_never_negative requests
                Examples.env0 Examples.fresh_agent Examples.full_request "call-1"
                (SessionSchedulingAgent.session_manager after)
                "jane smith" "555-123-4567" Examples.ten_oclock)
    as (_ & _ & _ & Hrefused).
  split; [apply Hnonneg, booking_store_nonneg |].
  split; [reflexivity |]. split; [reflexivity |]. split; [| split].
  - apply (Hzero 0%nat (Examples.client_with "jane smith" "555-123-4567" 0));
      [reflexivity | discriminate].
  - destruct Hbooked as (ph & id & c & sid & s & _ & _ & _ & Hdec & _);
      [reflexivity |].
    exists id. exact Hdec.
  - destruct Hrefused as [_ Hsessions]; [reflexivity |]. exact Hsessions.
Defined.

Section FirstTimeCaller.

(** After a first-time caller's attempt the lookup by phone finds the client
    just created, whose balance is 0. *)
Lemma get_client_by_phone_created st nm ph :
  SessionManager.get_client_by_phone st ph = None ->
  SessionManager.get_client_by_phone
    (SessionManager.create_client st nm ph
       SessionSchedulingAgent.default_trainer_id 0).2 ph
  = Some (fresh (dom (SessionManager.clients st)),
          SessionManager.client_data nm ph
            SessionSchedulingAgent.default_trainer_id 0).
Proof.
  intros Hnone.
  set (st1 := (SessionManager.create_client st nm ph
                 SessionSchedulingAgent.default_trainer_id 0).2).
  destruct (SessionManager.get_client_by_phone st1 ph) as [[id c] |] eqn:Hph.
  - apply get_client_by_phone_Some in Hph as [Hid Hc]. simpl in Hid, Hc.
    unfold st1 in Hid. simpl in Hid.
    destruct (decide (fresh (dom (SessionManager.clients st)) = id))
      as [<- | Hne].
    + rewrite lookup_insert_eq in Hid. congruence.
    + rewrite lookup_insert_ne in Hid by exact Hne.
      destruct (get_client_by_phone_None _ _ Hnone _ _ Hid Hc).
  - exfalso.
    apply (get_client_by_phone_None _ _ Hph
             (fresh (dom (SessionManager.clients st)))
             (SessionManager.client_data nm ph
                SessionSchedulingAgent.default_trainer_id 0)).
    + unfold st1. simpl. apply lookup_insert_eq.
    + reflexivity.
Qed.

End FirstTimeCaller.

(** C10.  [create_client] stores the new client with [sessionsRemaining] 0
    whatever [package_size] is.  When the phone number of a schedule request
    matches no client, the booking step creates the client and replies with
    the package-exhausted message; no session is created, and a further
    attempt from the same number in the same flow is refused the same way.
    In the handler the reply of such a turn is the package-exhausted message,
    the sessions are unchanged and the context is kept. *)
Theorem first_time_caller_cannot_book
    (env : environment) (a : SessionSchedulingAgent.agent)
    (info : extracted_info) (cid : string)
    (st : SessionManager.store) (nm ph trainer : string) (dt package_size : Z) :
  (let r := SessionManager.create_client st nm ph trainer package_size in
   exists id c,
     r.1 = Some id
     /\ SessionManager.clients st !! id = None
     /\ SessionManager.clients r.2 !! id = Some c
     /\ SessionManager.sessionsRemaining c = Some 0
     /\ SessionManager.packageSize c = package_size
     /\ balance r.2 id = 0)
  /\ (SessionManager.get_client_by_phone st ph = None ->
      let r := SessionSchedulingAgent.book_session st nm ph dt in
      r.1 = no_remaining_sessions
      /\ r.2 = (SessionManager.create_client st nm ph
                  SessionSchedulingAgent.default_trainer_id 0).2
      /\ SessionManager.sessions r.2 = SessionManager.sessions st
      /\ forall nm' dt',
           SessionSchedulingAgent.book_session r.2 nm' ph dt'
           = (no_remaining_sessions, r.2))
  /\ (let context :=
        update_context
          (default ∅ (SessionSchedulingAgent.conversation_context a !! cid)) info in
      prompt_for (missing_fields context) = None ->
      read_draft env context = Some (dt, ph, nm) ->
      SessionManager.get_client_by_phone
        (SessionSchedulingAgent.session_manager a) ph = None ->
      let r := SessionSchedulingAgent.handle_schedule_request env a info cid in
      r.1 = no_remaining_sessions
      /\ SessionManager.sessions (SessionSchedulingAgent.session_manager r.2)
         = SessionManager.sessions (SessionSchedulingAgent.session_manager a)
      /\ SessionSchedulingAgent.conversation_context r.2 !! cid = Some context).
Proof.
  split; [| split].
  - simpl. exists (fresh (dom (SessionManager.clients st))),
      (SessionManager.client_data nm ph trainer package_size).
    split; [reflexivity |]. split; [apply fresh_client_id |].
    split; [apply lookup_insert_eq |].
    split; [reflexivity |]. split; [reflexivity |].
    rewrite balance_insert, decide_True by reflexivity. reflexivity.
  - intros Hnone r. subst r. rewrite (book_session_unknown _ _ _ _ Hnone).
    simpl. repeat split.
    intros nm' dt'.
    pose proof (get_client_by_phone_created st nm ph Hnone) as Hfound.
    simpl in Hfound.
    rewrite (book_session_known _ _ _ _ _ _ Hfound).
    rewrite balance_insert, decide_True by reflexivity. reflexivity.
  - intros context Hprompt Hdraft Hnone r. subst r.
    unfold SessionSchedulingAgent.handle_schedule_request.
    fold context. rewrite Hprompt, Hdraft.
    rewrite (book_session_unknown _ _ _ _ Hnone). simpl.
    repeat split. apply lookup_insert_eq.
Qed.

(** The theorem on the agent with the empty store: a complete request from
    an unknown number is answered with the package-exhausted message and
    leaves no session; so does the booking step on the empty store, again on
    a second attempt. *)
Lemma first_time_caller_cannot_book_witness :
  let r := SessionSchedulingAgent.handle_schedule_request
             Examples.env0 Examples.fresh_agent Examples.full_request "call-1" in
  let empty := SessionSchedulingAgent.session_manager Examples.fresh_agent in
  let b := SessionSchedulingAgent.book_session empty
             "jane smith" "555-123-4567" Examples.ten_oclock in
  r.1 = no_remaining_sessions
  /\ SessionManager.sessions (SessionSchedulingAgent.session_manager r.2) = ∅
  /\ balance (SessionSchedulingAgent.session_manager r.2) 0%nat = 0
  /\ b.1 = no_remaining_sessions
  /\ SessionSchedulingAgent.book_session b.2
       "jane smith" "555-123-4567" (Examples.ten_oclock + timedelta_hours 1)
     = (no_remaining_sessions, b.2).
Proof.
  intros r empty b.
  pose proof (first_time_caller_cannot_book
                Examples.env0 Examples.fresh_agent Examples.full_request "call-1"
                empty "jane smith" "555-123-4567" ""
                (Examples.day0 + timedelta_days 1 + timedelta_hours 14) 0)
    as (_ & _ & H).
  pose proof (first_time_caller_cannot_book
                Examples.env0 Examples.fresh_agent Examples.full_request "call-1"
                empty "jane smith" "555-123-4567" ""
                Examples.ten_oclock 0)
    as (_ & Hbook & _).
  destruct H as (Hreply & Hsessions & _);
    [reflexivity | reflexivity | reflexivity |].
  destruct Hbook as (Hb & _ & _ & Hagain); [reflexivity |].
  fold r in Hreply, Hsessions. fold b in Hb, Hagain.
  split; [exact Hreply |]. split; [exact Hsessions |].
  split; [reflexivity |]. split; [exact Hb | apply Hagain].
Defined.

(** C2 (as amended).  The booking step makes no check against the existing
    sessions: its reply and the clients it leaves are the same whatever
    sessions the store holds, [create_session] always adds the new document,
    and a client on file with a positive balance gets the session created
    whether or not it overlaps another one. *)
Theorem book_session_ignores_existing_sessions
    (st : SessionManager.store) (other : gmap doc_id SessionManager.session)
    (nm ph trainer loc : string) (dt dur : Z) (client_id : doc_id) :
  let st' := {| SessionManager.clients := SessionManager.clients st;
                SessionManager.sessions := other |} in
  (SessionSchedulingAgent.book_session st' nm ph dt).1
  = (SessionSchedulingAgent.book_session st nm ph dt).1
  /\ SessionManager.clients (SessionSchedulingAgent.book_session st' nm ph dt).2
     = SessionManager.clients (SessionSchedulingAgent.book_session st nm ph dt).2
  /\ SessionManager.create_session st client_id nm trainer dt loc dur
     = (Some (fresh (dom (SessionManager.sessions st))),
        {| SessionManager.clients := SessionManager.clients st;
           SessionManager.sessions :=
             <[fresh (dom (SessionManager.sessions st)) :=
                 SessionManager.session_data client_id nm trainer dt loc dur]>
               (SessionManager.sessions st) |})
  /\ (forall id c,
        SessionManager.get_client_by_phone st ph = Some (id, c) ->
        0 < balance st id ->
        let r := SessionSchedulingAgent.book_session st nm ph dt in
        r.1 = session_scheduled dt (balance st id - 1)
        /\ SessionManager.sessions st
             !! fresh (dom (SessionManager.sessions st)) = None
        /\ SessionManager.sessions r.2
           = <[fresh (dom (SessionManager.sessions st)) :=
                 SessionManager.session_data id nm
                   SessionSchedulingAgent.default_trainer_id dt "Gym" 60]>
               (SessionManager.sessions st)).
Proof.
  intros st'.
  assert (Hlookup : SessionManager.get_client_by_phone st' ph
                    = SessionManager.get_client_by_phone st ph) by reflexivity.
  split; [| split; [| split; [reflexivity |]]].
  - destruct (SessionManager.get_client_by_phone st ph) as [[id c] |] eqn:Hph.
    + rewrite (book_session_known _ _ _ _ _ _ Hph).
      rewrite (book_session_known st' _ _ _ _ _ Hlookup).
      change (balance st' id) with (balance st id).
      destruct (balance st id <=? 0); reflexivity.
    + rewrite (book_session_unknown _ _ _ _ Hph).
      rewrite (book_session_unknown st' _ _ _ Hlookup). reflexivity.
  - destruct (SessionManager.get_client_by_phone st ph) as [[id c] |] eqn:Hph.
    + rewrite (book_session_known _ _ _ _ _ _ Hph).
      rewrite (book_session_known st' _ _ _ _ _ Hlookup).
      change (balance st' id) with (balance st id).
      destruct (balance st id <=? 0); reflexivity.
    + rewrite (book_session_unknown _ _ _ _ Hph).
      rewrite (book_session_unknown st' _ _ _ Hlookup). reflexivity.
  - intros id c Hph Hpos r. subst r.
    rewrite (book_session_known _ _ _ _ _ _ Hph).
    apply Z.leb_gt in Hpos. rewrite Hpos. simpl.
    split; [reflexivity |]. split; [apply fresh_session_id | reflexivity].
Qed.

(** The theorem on the example store after a first booking at 10:00: the
    second booking for the same interval is scheduled too, and the store then
    holds two scheduled sessions of the same trainer at 10:00. *)
Lemma book_session_ignores_existing_sessions_witness :
  let st1 := (SessionSchedulingAgent.book_session Examples.booking_store
                "jane smith" "555-123-4567" Examples.ten_oclock).2 in
  let r := SessionSchedulingAgent.book_session st1
             "jane smith" "555-123-4567" Examples.ten_oclock in
  r.1 = session_scheduled Examples.ten_oclock 0
  /\ SessionManager.sessions r.2
     = <[1%nat := SessionManager.session_data 0%nat "jane smith"
                    SessionSchedulingAgent.default_trainer_id
                    Examples.ten_oclock "Gym" 60]>
         {[ 0%nat := SessionManager.session_data 0%nat "jane smith"
                       SessionSchedulingAgent.default_trainer_id
                       Examples.ten_oclock "Gym" 60 ]}.
Proof.
  intros st1 r.
  pose proof (book_session_ignores_existing_sessions st1 ∅
                "jane smith" "555-123-4567" "" "" Examples.ten_oclock 60 0%nat)
    as (_ & _ & _ & H).
  destruct (H 0%nat (Examples.client_with "jane smith" "555-123-4567" 1))
    as (Hreply & _ & Hsessions); [reflexivity | reflexivity |].
  split; [exact Hreply | exact Hsessions].
Defined.

(** C2 as stated fails.  Store: the example store after client 0 (two
    sessions left) has booked 10:00 to 11:00 with the default trainer.  A
    second booking for the same interval overlaps that scheduled session, and
    is scheduled all the same. *)
Lemma book_session_double_booking_counterexample :
  ~ (forall (st : SessionManager.store) (nm ph : string) (dt : Z) i s,
       SessionManager.sessions st !! i = Some s ->
       SessionManager.session_trainerId s
         = SessionSchedulingAgent.default_trainer_id ->
       SessionManager.session_status s = scheduled ->
       overlaps dt (dt + timedelta_minutes 60)
         (SessionManager.dateTime s) (session_end s) ->
       SessionSchedulingAgent.is_scheduled
         (SessionSchedulingAgent.book_session st nm ph dt).1 = false
       /\ SessionManager.sessions
            (SessionSchedulingAgent.book_session st nm ph dt).2
          = SessionManager.sessions st).
Proof.
  intros claim.
  destruct (claim
              (SessionSchedulingAgent.book_session Examples.booking_store
                 "jane smith" "555-123-4567" Examples.ten_oclock).2
              "jane smith"%string "555-123-4567"%string Examples.ten_oclock
              0%nat
              (SessionManager.session_data 0%nat "jane smith"
                 SessionSchedulingAgent.default_trainer_id
                 Examples.ten_oclock "Gym" 60)) as [Hfail _].
  - reflexivity.
  - reflexivity.
  - reflexivity.
  - unfold overlaps. by_compute.
  - vm_compute in Hfail. discriminate.
Qed.

(** ** Rescheduling *)

(** C7 (as amended).  Rescheduling makes no availability check: for an
    existing session it writes the new [dateTime] and the status scheduled
    and returns [True], whatever other sessions the store holds; the other
    documents are unchanged.  For a missing id it returns [False] and writes
    nothing.  The appointment variant does the same with the status
    rescheduled. *)
Theorem reschedule_is_unconditional
    (sst : SessionManager.store) (ast : AppointmentManager.store)
    (id : doc_id) (new_time : Z) :
  (forall s,
     SessionManager.sessions sst !! id = Some s ->
     let r := SessionManager.reschedule_session sst id new_time in
     r.1 = true
     /\ SessionManager.sessions r.2 !! id
        = Some (SessionManager.moved_to new_time s)
     /\ SessionManager.dateTime (SessionManager.moved_to new_time s) = new_time
     /\ SessionManager.session_status (SessionManager.moved_to new_time s)
        = scheduled
     /\ (forall j, j <> id ->
           SessionManager.sessions r.2 !! j = SessionManager.sessions sst !! j)
     /\ SessionManager.clients r.2 = SessionManager.clients sst)
  /\ (SessionManager.sessions sst !! id = None ->
      SessionManager.reschedule_session sst id new_time = (false, sst))
  /\ (forall a,
        AppointmentManager.appointments ast !! id = Some a ->
        let r := AppointmentManager.reschedule_appointment ast id new_time in
        r.1 = true
        /\ AppointmentManager.appointments r.2 !! id
           = Some (AppointmentManager.moved_to new_time a)
        /\ AppointmentManager.appointment_time
             (AppointmentManager.moved_to new_time a) = new_time
        /\ AppointmentManager.appointment_status
             (AppointmentManager.moved_to new_time a) = rescheduled
        /\ (forall j, j <> id ->
              AppointmentManager.appointments r.2 !! j
              = AppointmentManager.appointments ast !! j))
  /\ (AppointmentManager.appointments ast !! id = None ->
      AppointmentManager.reschedule_appointment ast id new_time = (false, ast)).
Proof.
  unfold SessionManager.reschedule_session, SessionManager.update_session,
    AppointmentManager.reschedule_appointment,
    AppointmentManager.update_appointment.
  split; [| split; [| split]].
  - intros s Hs. rewrite Hs. simpl.
    split; [reflexivity |]. split; [apply lookup_insert_eq |].
    split; [reflexivity |]. split; [reflexivity |]. split; [| reflexivity].
    intros j Hne. apply lookup_insert_ne. congruence.
  - intros Hs. rewrite Hs. reflexivity.
  - intros a Ha. rewrite Ha. simpl.
    split; [reflexivity |]. split; [apply lookup_insert_eq |].
    split; [reflexivity |]. split; [reflexivity |].
    intros j Hne. apply lookup_insert_ne. congruence.
  - intros Ha. rewrite Ha. reflexivity.
Qed.

(** The theorem on the example stores, with sessions at 10:00 and 11:00:
    moving the 11:00 one onto 10:00 goes through; an id that is not in the
    store is refused. *)
Lemma reschedule_is_unconditional_witness :
  SessionManager.sessions
    (SessionManager.reschedule_session Examples.two_sessions 1%nat
       Examples.ten_oclock).2 !! 1%nat
  = Some (Examples.session_at Examples.ten_oclock scheduled)
  /\ AppointmentManager.appointments
       (AppointmentManager.reschedule_appointment Examples.two_appointments 1%nat
          Examples.ten_oclock).2 !! 1%nat
     = Some (Examples.appointment_at Examples.ten_oclock rescheduled)
  /\ SessionManager.reschedule_session Examples.two_sessions 7%nat
       Examples.ten_oclock
     = (false, Examples.two_sessions)
  /\ AppointmentManager.reschedule_appointment Examples.two_appointments 7%nat
       Examples.ten_oclock
     = (false, Examples.two_appointments).
Proof.
  pose proof (reschedule_is_unconditional Examples.two_sessions
                Examples.two_appointments 1%nat Examples.ten_oclock)
    as (Hs & _ & Ha & _).
  pose proof (reschedule_is_unconditional Examples.two_sessions
                Examples.two_appointments 7%nat Examples.ten_oclock)
    as (_ & Hsnone & _ & Hanone).
  split; [| split; [| split]].
  - destruct (Hs (Examples.session_at
                    (Examples.ten_oclock + timedelta_hours 1) scheduled))
      as (_ & H & _); [reflexivity | exact H].
  - destruct (Ha (Examples.appointment_at
                    (Examples.ten_oclock + timedelta_hours 1) scheduled))
      as (_ & H & _); [reflexivity | exact H].
  - apply Hsnone. reflexivity.
  - apply Hanone. reflexivity.
Defined.

(** C7 as stated fails.  Store: two scheduled sessions of trainer T, session
    0 from 10:00 to 11:00 and session 1 from 11:00 to 12:00.  Rescheduling
    session 1 to 10:00 conflicts with session 0, yet its [dateTime] is
    updated to 10:00. *)
Lemma reschedule_session_conflict_counterexample :
  ~ (forall (st : SessionManager.store) (id other_id : doc_id) (new_time : Z)
       s other,
       SessionManager.sessions st !! id = Some s ->
       SessionManager.sessions st !! other_id = Some other ->
       other_id <> id ->
       SessionManager.session_trainerId other = SessionManager.session_trainerId s ->
       SessionManager.session_status other = scheduled ->
       overlaps new_time
         (new_time + timedelta_minutes (default 60 (SessionManager.duration s)))
         (SessionManager.dateTime other) (session_end other) ->
       exists s',
         SessionManager.sessions
           (SessionManager.reschedule_session st id new_time).2 !! id = Some s'
         /\ SessionManager.dateTime s' = SessionManager.dateTime s).
Proof.
  intros claim.
  destruct (claim Examples.two_sessions 1%nat 0%nat Examples.ten_oclock
              (Examples.session_at (Examples.ten_oclock + timedelta_hours 1)
                 scheduled)
              (Examples.session_at Examples.ten_oclock scheduled))
    as (s' & Hs' & Hd).
  - reflexivity.
  - reflexivity.
  - discriminate.
  - reflexivity.
  - reflexivity.
  - unfold overlaps. by_compute.
  - vm_compute in Hs'. injection Hs' as <-. vm_compute in Hd. discriminate.
Qed.

(** ** The dialogue *)

Section Dialogue.

Lemma update_context_lookup context info :
  update_context context info !! "name"
  = match info_name info with
    | Some n => if truthy n then Some n else context !! "name"
    | None => context !! "name"
    end
  /\ update_context context info !! "phone"
     = match info_phone info with
       | Some p => if truthy p then Some p else context !! "phone"
       | None => context !! "phone"
       end
  /\ update_context context info !! "date"
     = match info_dates info with
       | d :: _ => Some d
       | [] => context !! "date"
       end
  /\ update_context context info !! "time"
     = match info_times info with
       | t :: _ => Some t
       | [] => context !! "time"
       end.
Proof.
  unfold update_context.
  destruct (info_name info) as [n |]; [destruct (truthy n) |];
    (destruct (info_phone info) as [p |]; [destruct (truthy p) |]);
    destruct (info_dates info); destruct (info_times info);
    repeat split; simplify_map_eq; reflexivity.
Qed.

Lemma update_context_other context info key :
  key ∉ required_fields ->
  update_context context info !! key = context !! key.
Proof.
  unfold required_fields. intros Hkey.
  repeat (apply not_elem_of_cons in Hkey as [? Hkey]).
  unfold update_context.
  destruct (info_name info) as [n |]; [destruct (truthy n) |];
    (destruct (info_phone info) as [p |]; [destruct (truthy p) |]);
    destruct (info_dates info); destruct (info_times info);
    simplify_map_eq; reflexivity.
Qed.

(** The two ways [handle_schedule_request] leaves its first part. *)
Lemma handle_schedule_request_prompt env a info cid prompt :
  prompt_for (missing_fields (merged_context a cid info)) = Some prompt ->
  SessionSchedulingAgent.handle_schedule_request env a info cid
  = (prompt,
     {| SessionSchedulingAgent.session_manager :=
          SessionSchedulingAgent.session_manager a;
        SessionSchedulingAgent.conversation_context :=
          <[cid := merged_context a cid info]>
            (SessionSchedulingAgent.conversation_context a) |}).
Proof.
  intros H. unfold SessionSchedulingAgent.handle_schedule_request.
  fold (merged_context a cid info). rewrite H. reflexivity.
Qed.

Lemma handle_schedule_request_ready env a info cid dt ph nm :
  prompt_for (missing_fields (merged_context a cid info)) = None ->
  read_draft env (merged_context a cid info) = Some (dt, ph, nm) ->
  SessionSchedulingAgent.handle_schedule_request env a info cid
  = ((SessionSchedulingAgent.book_session
        (SessionSchedulingAgent.session_manager a) nm ph dt).1,
     {| SessionSchedulingAgent.session_manager :=
          (SessionSchedulingAgent.book_session
             (SessionSchedulingAgent.session_manager a) nm ph dt).2;
        SessionSchedulingAgent.conversation_context :=
          if SessionSchedulingAgent.is_scheduled
               (SessionSchedulingAgent.book_session
                  (SessionSchedulingAgent.session_manager a) nm ph dt).1
          then <[cid := ∅]>
                 (<[cid := merged_context a cid info]>
                    (SessionSchedulingAgent.conversation_context a))
          else <[cid := merged_context a cid info]>
                 (SessionSchedulingAgent.conversation_context a) |}).
Proof.
  intros Hp Hd.
  unfold SessionSchedulingAgent.handle_schedule_request.
  fold (merged_context a cid info). rewrite Hp, Hd.
  destruct (SessionSchedulingAgent.book_session _ _ _ _) as [r st].
  reflexivity.
Qed.

Lemma chars_app (s1 s2 : string) :
  chars (s1 ++ s2)%string = chars s1 ++ chars s2.
Proof.
  induction s1 as [| c s1 IH]; simpl; [reflexivity |].
  unfold chars in *. simpl. rewrite IH. reflexivity.
Qed.

Lemma starts_with_app (w rest : list ascii) : starts_with w (w ++ rest) = true.
Proof.
  induction w as [| c w IH]; simpl; [reflexivity |].
  rewrite Ascii.eqb_refl. exact IH.
Qed.

Lemma contains_unfold (w s : list ascii) :
  contains w s
  = starts_with w s || match s with [] => false | _ :: s' => contains w s' end.
Proof. destruct s; reflexivity. Qed.

Lemma contains_app (w pre post : list ascii) :
  contains w (pre ++ w ++ post) = true.
Proof.
  induction pre as [| c pre IH]; rewrite contains_unfold.
  - change ([] ++ w ++ post) with (w ++ post).
    rewrite starts_with_app. reflexivity.
  - change ((c :: pre) ++ w ++ post) with (c :: pre ++ w ++ post).
    cbv beta iota. rewrite IH. apply orb_true_r.
Qed.

End Dialogue.

Lemma any_word_in_hit (words : list string) (w pre post : string) :
  In w words ->
  lower (chars w) = chars w ->
  any_word_in words (lower (chars (pre ++ w ++ post)%string)) = true.
Proof.
  intros Hin Hlow. unfold any_word_in. apply existsb_exists.
  exists w. split; [exact Hin |].
  rewrite !chars_app. unfold lower. rewrite !map_app.
  fold (lower (chars w)). rewrite Hlow. apply contains_app.
Qed.

(** C6.  On the single utterance the extractor returns intent schedule, name
    "jane smith", phone "555-123-4567", dates ["tomorrow"] and times
    ["2 pm"].  The schedule keywords are tested first: an utterance that
    contains one of them is a schedule request whatever else it contains. *)
Theorem extract_session_intent_single_utterance :
  SessionSchedulingAgent.extract_session_intent
    "I'd like to schedule for tomorrow at 2 PM, my name is Jane Smith, number 555-123-4567"
  = {| info_intent := schedule;
       info_dates := ["tomorrow"%string];
       info_times := ["2 pm"%string];
       info_phone := Some "555-123-4567"%string;
       info_name := Some "jane smith"%string |}
  /\ Forall
       (fun keyword : string =>
          forall pre post : string,
            info_intent
              (SessionSchedulingAgent.extract_session_intent
                 (pre ++ keyword ++ post)%string)
            = schedule)
       ["schedule"; "book"; "session"; "training"]%string.
Proof.
  split; [vm_compute; reflexivity |].
  repeat constructor; intros pre post;
    unfold SessionSchedulingAgent.extract_session_intent, extract_fields;
    cbv beta zeta; unfold info_intent;
    rewrite any_word_in_hit; reflexivity || (simpl; tauto).
Qed.

(** C4 (as amended).  Merging overwrites: after the merge each of the four
    fields holds the value extracted from the new utterance when there is one
    (a non-empty name or phone, the first date, the first time), whether or
    not the field was present, and its previous value otherwise; other keys
    are untouched.  Both agents store the merged context back under the
    conversation id (emptied after a successful booking). *)
Theorem update_context_overwrites
    (context : gmap string string) (info : extracted_info)
    (env : environment) (cid : string)
    (sa : SessionSchedulingAgent.agent) (aa : AppointmentSchedulingAgent.agent) :
  update_context context info !! "name"
  = match info_name info with
    | Some n => if truthy n then Some n else context !! "name"
    | None => context !! "name"
    end
  /\ update_context context info !! "phone"
     = match info_phone info with
       | Some p => if truthy p then Some p else context !! "phone"
       | None => context !! "phone"
       end
  /\ update_context context info !! "date"
     = match info_dates info with
       | d :: _ => Some d
       | [] => context !! "date"
       end
  /\ update_context context info !! "time"
     = match info_times info with
       | t :: _ => Some t
       | [] => context !! "time"
       end
  /\ (forall key, key ∉ required_fields ->
        update_context context info !! key = context !! key)
  /\ (let r := SessionSchedulingAgent.handle_schedule_request env sa info cid in
      SessionSchedulingAgent.conversation_context r.2 !! cid
      = Some (if SessionSchedulingAgent.is_scheduled r.1 then ∅
              else update_context
                     (default ∅
                        (SessionSchedulingAgent.conversation_context sa !! cid))
                     info))
  /\ (let r := AppointmentSchedulingAgent.handle_schedule_request env aa info cid in
      AppointmentSchedulingAgent.conversation_context r.2 !! cid
      = Some (match r.1 with
              | appointment_scheduled _ _ => ∅
              | _ => update_context
                       (default ∅
                          (AppointmentSchedulingAgent.conversation_context aa !! cid))
                       info
              end)).
Proof.
  destruct (update_context_lookup context info) as (Hn & Hp & Hd & Ht).
  split; [exact Hn |]. split; [exact Hp |]. split; [exact Hd |].
  split; [exact Ht |]. split; [apply update_context_other |]. split.
  - unfold SessionSchedulingAgent.handle_schedule_request.
    destruct (prompt_for _) as [prompt |] eqn:Hprompt.
    + simpl. rewrite lookup_insert_eq.
      unfold prompt_for in Hprompt.
      destruct (missing_fields _); [discriminate |].
      repeat (destruct (in_list _ _); [injection Hprompt as <-; reflexivity |]).
      discriminate.
    + destruct (read_draft _ _) as [[[dt ph] nm] |];
        [| simpl; rewrite lookup_insert_eq; reflexivity].
      destruct (SessionSchedulingAgent.book_session _ _ _ _) as [r st]. simpl.
      destruct (SessionSchedulingAgent.is_scheduled r);
        rewrite lookup_insert_eq; reflexivity.
  - unfold AppointmentSchedulingAgent.handle_schedule_request.
    destruct (prompt_for _) as [prompt |] eqn:Hprompt.
    + simpl. rewrite lookup_insert_eq.
      unfold prompt_for in Hprompt.
      destruct (missing_fields _); [discriminate |].
      repeat (destruct (in_list _ _); [injection Hprompt as <-; reflexivity |]).
      discriminate.
    + destruct (read_draft _ _) as [[[dt ph] nm] |];
        [| simpl; rewrite lookup_insert_eq; reflexivity].
      destruct (match AppointmentManager.get_client_by_phone _ _ with
                | Some _ => _ | None => _ end) as [client_id st1].
      simpl. rewrite lookup_insert_eq. reflexivity.
Qed.

(** The theorem on a context that already holds the name "jane smith", with
    an utterance that gives another name: the new name replaces the old one,
    and a key outside the four fields is kept. *)
Lemma update_context_overwrites_witness :
  let context : gmap string string :=
    <["note" := "vip"%string]> {[ "name"%string := "jane smith"%string ]} in
  let info :=
    SessionSchedulingAgent.extract_session_intent "please book, my name is Bob" in
  update_context context info !! "name" = Some "bob"%string
  /\ update_context context info !! "note" = Some "vip"%string.
Proof.
  intros context info.
  pose proof (update_context_overwrites context info Examples.env0 "call-1"
                Examples.fresh_agent
                {| AppointmentSchedulingAgent.appointment_manager :=
                     Examples.one_appointment scheduled;
                   AppointmentSchedulingAgent.conversation_context := ∅ |})
    as (Hname & _ & _ & _ & Hother & _).
  split.
  - rewrite Hname. reflexivity.
  - rewrite Hother; [reflexivity |]. by_compute.
Defined.

(** C4 as stated fails.  Context: the name "jane smith" is present.
    Utterance: "please book, my name is Bob".  After the merge the name is
    "bob". *)
Lemma update_context_keeps_fields_counterexample :
  ~ (forall (context : gmap string string) (utterance key v : string),
       context !! key = Some v ->
       update_context context
         (SessionSchedulingAgent.extract_session_intent utterance) !! key
       = Some v).
Proof.
  intros claim.
  specialize (claim {[ "name"%string := "jane smith"%string ]}
                "please book, my name is Bob"%string
                "name"%string "jane smith"%string eq_refl).
  vm_compute in claim. discriminate.
Qed.

Section FourUtterances.

Import Examples.

Lemma extract_utterance_name :
  SessionSchedulingAgent.extract_session_intent utterance_name
  = {| info_intent := general; info_dates := []; info_times := [];
       info_phone := None; info_name := Some "jane smith"%string |}.
Proof. vm_compute. reflexivity. Qed.

Lemma extract_utterance_phone :
  SessionSchedulingAgent.extract_session_intent utterance_phone
  = {| info_intent := general; info_dates := []; info_times := [];
       info_phone := Some "555-123-4567"%string; info_name := None |}.
Proof. vm_compute. reflexivity. Qed.

Lemma extract_utterance_date :
  SessionSchedulingAgent.extract_session_intent utterance_date
  = {| info_intent := general; info_dates := ["tomorrow"%string];
       info_times := []; info_phone := None; info_name := None |}.
Proof. vm_compute. reflexivity. Qed.

Lemma extract_utterance_time :
  SessionSchedulingAgent.extract_session_intent utterance_time
  = {| info_intent := general; info_dates := [];
       info_times := ["2pm"%string]; info_phone := None; info_name := None |}.
Proof. vm_compute. reflexivity. Qed.

(** A turn whose utterance has no keyword is answered with the general help
    and leaves the agent as it was. *)
Lemma turn_general env a cid utterance :
  info_intent (SessionSchedulingAgent.extract_session_intent utterance) = general ->
  SessionSchedulingAgent.turn env a cid utterance = (general_help, a).
Proof.
  intros H. unfold SessionSchedulingAgent.turn,
    SessionSchedulingAgent.process_scheduling_request.
  rewrite H. reflexivity.
Qed.

Lemma read_draft4 env :
  time_of <$> parser_parse env "2pm" = Some (timedelta_hours 14) ->
  read_draft env draft4
  = Some (combine (date_of (now env + timedelta_days 1)) (timedelta_hours 14),
          "555-123-4567"%string, "jane smith"%string).
Proof.
  intros Hparse. unfold read_draft.
  replace (draft4 !! "date") with (Some "tomorrow"%string) by reflexivity.
  replace (draft4 !! "time") with (Some "2pm"%string) by reflexivity.
  replace (draft4 !! "phone") with (Some "555-123-4567"%string) by reflexivity.
  replace (draft4 !! "name") with (Some "jane smith"%string) by reflexivity.
  cbn [mbind option_bind]. unfold resolve_datetime.
  replace (lower_string "tomorrow") with "tomorrow"%string by reflexivity.
  cbn [String.eqb Ascii.eqb Bool.eqb]. rewrite Hparse.
  cbn [mbind option_bind]. reflexivity.
Qed.

End FourUtterances.

(** Projections of an agent, without unfolding the maps. *)
Ltac agent_simpl :=
  cbn [fst snd SessionSchedulingAgent.conversation_context
       SessionSchedulingAgent.session_manager].
(** C5 (as amended).  None of the four utterances contains a keyword, so
    [process_scheduling_request] answers each with the general help and
    leaves the context untouched: through the dispatcher no field is
    accumulated.  When the four extractions are handed to
    [handle_schedule_request], for a fresh conversation id, the first three
    turns ask for the phone, the date and the time while the draft fills up,
    and the fourth turn finds all four fields, resolves the date to the
    current date plus one day and the time to 14:00, and makes the booking
    attempt for that instant. *)
Theorem four_utterances_reach_booking_in_schedule_handler
    (env1 env2 env3 env4 : environment)
    (a : SessionSchedulingAgent.agent) (cid : string) :
  SessionSchedulingAgent.conversation_context a !! cid = None ->
  time_of <$> parser_parse env4 "2pm" = Some (timedelta_hours 14) ->
  let extract := SessionSchedulingAgent.extract_session_intent in
  let handle := SessionSchedulingAgent.handle_schedule_request in
  let r1 := handle env1 a (extract Examples.utterance_name) cid in
  let r2 := handle env2 r1.2 (extract Examples.utterance_phone) cid in
  let r3 := handle env3 r2.2 (extract Examples.utterance_date) cid in
  let r4 := handle env4 r3.2 (extract Examples.utterance_time) cid in
  let session_datetime :=
    combine (date_of (now env4 + timedelta_days 1)) (timedelta_hours 14) in
  let booked :=
    SessionSchedulingAgent.book_session
      (SessionSchedulingAgent.session_manager a)
      "jane smith" "555-123-4567" session_datetime in
  Forall
    (fun utterance =>
       forall env b, SessionSchedulingAgent.turn env b cid utterance
                     = (general_help, b))
    [Examples.utterance_name; Examples.utterance_phone;
     Examples.utterance_date; Examples.utterance_time]
  /\ r1.1 = ask_phone /\ r2.1 = ask_date /\ r3.1 = ask_time
  /\ SessionSchedulingAgent.conversation_context r1.2 !! cid = Some Examples.draft1
  /\ SessionSchedulingAgent.conversation_context r2.2 !! cid = Some Examples.draft2
  /\ SessionSchedulingAgent.conversation_context r3.2 !! cid = Some Examples.draft3
  /\ SessionSchedulingAgent.session_manager r3.2
     = SessionSchedulingAgent.session_manager a
  /\ update_context Examples.draft3 (extract Examples.utterance_time)
     = Examples.draft4
  /\ missing_fields Examples.draft4 = []
  /\ read_draft env4 Examples.draft4
     = Some (session_datetime, "555-123-4567"%string, "jane smith"%string)
  /\ r4.1 = booked.1
  /\ SessionSchedulingAgent.session_manager r4.2 = booked.2.
Proof.
  intros Hfresh Hparse extract handle r1 r2 r3 r4 session_datetime booked.
  assert (H1 : r1 = (ask_phone,
            {| SessionSchedulingAgent.session_manager :=
                 SessionSchedulingAgent.session_manager a;
               SessionSchedulingAgent.conversation_context :=
                 <[cid := Examples.draft1]>
                   (SessionSchedulingAgent.conversation_context a) |})).
  { subst r1 handle extract. rewrite extract_utterance_name.
    rewrite (handle_schedule_request_prompt _ _ _ _ ask_phone);
      unfold merged_context; rewrite Hfresh; reflexivity. }
  assert (H2 : r2 = (ask_date,
            {| SessionSchedulingAgent.session_manager :=
                 SessionSchedulingAgent.session_manager a;
               SessionSchedulingAgent.conversation_context :=
                 <[cid := Examples.draft2]>
                   (SessionSchedulingAgent.conversation_context r1.2) |})).
  { subst r2 handle extract. rewrite extract_utterance_phone.
    rewrite (handle_schedule_request_prompt _ _ _ _ ask_date);
      unfold merged_context; rewrite H1; agent_simpl; rewrite lookup_insert_eq;
      reflexivity. }
  assert (H3 : r3 = (ask_time,
            {| SessionSchedulingAgent.session_manager :=
                 SessionSchedulingAgent.session_manager a;
               SessionSchedulingAgent.conversation_context :=
                 <[cid := Examples.draft3]>
                   (SessionSchedulingAgent.conversation_context r2.2) |})).
  { subst r3 handle extract. rewrite extract_utterance_date.
    rewrite (handle_schedule_request_prompt _ _ _ _ ask_time);
      unfold merged_context; rewrite H2; agent_simpl; rewrite lookup_insert_eq;
      reflexivity. }
  assert (Hdraft : read_draft env4 Examples.draft4
            = Some (session_datetime, "555-123-4567"%string, "jane smith"%string))
    by (apply read_draft4, Hparse).
  assert (H4 : r4.1 = booked.1
               /\ SessionSchedulingAgent.session_manager r4.2 = booked.2).
  { subst r4 handle extract. rewrite extract_utterance_time.
    rewrite (handle_schedule_request_ready _ _ _ _ session_datetime
               "555-123-4567" "jane smith").
    - rewrite H3. agent_simpl. split; reflexivity.
    - unfold merged_context. rewrite H3. agent_simpl. rewrite lookup_insert_eq.
      reflexivity.
    - unfold merged_context. rewrite H3. agent_simpl. rewrite lookup_insert_eq.
      exact Hdraft. }
  split.
  { repeat apply List.Forall_cons; try apply List.Forall_nil;
      intros env b; apply turn_general.
    - rewrite extract_utterance_name. reflexivity.
    - rewrite extract_utterance_phone. reflexivity.
    - rewrite extract_utterance_date. reflexivity.
    - rewrite extract_utterance_time. reflexivity. }
  rewrite H1, H2, H3. agent_simpl. rewrite !lookup_insert_eq.
  subst extract. rewrite extract_utterance_time.
  repeat split; try reflexivity; try apply H4.
  exact Hdraft.
Qed.

(** The theorem on the agent with the empty store, at 08:00 on day 20000:
    the fourth turn makes the booking attempt for 14:00 on day 20001, which
    for this unknown number ends with the package-exhausted reply and the new
    client on file. *)
Lemma four_utterances_reach_booking_in_schedule_handler_witness :
  let extract := SessionSchedulingAgent.extract_session_intent in
  let handle := SessionSchedulingAgent.handle_schedule_request Examples.env0 in
  let r1 := handle Examples.fresh_agent (extract Examples.utterance_name) "call-1" in
  let r2 := handle r1.2 (extract Examples.utterance_phone) "call-1" in
  let r3 := handle r2.2 (extract Examples.utterance_date) "call-1" in
  let r4 := handle r3.2 (extract Examples.utterance_time) "call-1" in
  read_draft Examples.env0 Examples.draft4
  = Some (Examples.day0 + timedelta_days 1 + timedelta_hours 14,
          "555-123-4567"%string, "jane smith"%string)
  /\ r4.1 = no_remaining_sessions
  /\ SessionManager.clients (SessionSchedulingAgent.session_manager r4.2) !! 0%nat
     = Some (SessionManager.client_data "jane smith" "555-123-4567"
               SessionSchedulingAgent.default_trainer_id 0).
Proof.
  intros extract handle r1 r2 r3 r4.
  pose proof (four_utterances_reach_booking_in_schedule_handler
                Examples.env0 Examples.env0 Examples.env0 Examples.env0
                Examples.fresh_agent "call-1" eq_refl eq_refl)
    as (_ & _ & _ & _ & _ & _ & _ & _ & _ & _ & Hdraft & Hreply & Hstore).
  split; [exact Hdraft |].
  split; [exact Hreply |].
  subst r4 r3 r2 r1 handle extract. rewrite Hstore. reflexivity.
Defined.

(** C5 as stated fails.  Input: the agent with the empty store, the clock at
    08:00 on day 20000, conversation id "call-1", and the four utterances
    taken through [turn] (extractor, then [process_scheduling_request]).
    Each utterance is classified general, so the draft holds no field after
    the third turn and the fourth reply is the general help, not the outcome
    of a booking attempt. *)
Lemma four_utterances_through_dispatcher_counterexample :
  ~ (forall (env : environment) (a : SessionSchedulingAgent.agent) (cid : string),
       SessionSchedulingAgent.conversation_context a !! cid = None ->
       time_of <$> parser_parse env "2pm" = Some (timedelta_hours 14) ->
       let r1 := SessionSchedulingAgent.turn env a cid Examples.utterance_name in
       let r2 := SessionSchedulingAgent.turn env r1.2 cid Examples.utterance_phone in
       let r3 := SessionSchedulingAgent.turn env r2.2 cid Examples.utterance_date in
       let r4 := SessionSchedulingAgent.turn env r3.2 cid Examples.utterance_time in
       let booked :=
         SessionSchedulingAgent.book_session
           (SessionSchedulingAgent.session_manager a)
           "jane smith" "555-123-4567"
           (combine (date_of (now env + timedelta_days 1)) (timedelta_hours 14)) in
       SessionSchedulingAgent.conversation_context r3.2 !! cid
       = Some Examples.draft3
       /\ r4.1 = booked.1
       /\ SessionSchedulingAgent.session_manager r4.2 = booked.2).
Proof.
  intros claim.
  destruct (claim Examples.env0 Examples.fresh_agent "call-1"%string
              eq_refl eq_refl) as (Hdraft & Hreply & _).
  vm_compute in Hreply. discriminate.
Qed.

(** * Further properties *)

(** ** Availability: exactness, bounds, and the writes that change it *)

Section AvailabilityExact.

Lemma is_datetime_bounds d :
  is_datetime d = true <-> datetime_min <= d <= datetime_max.
Proof.
  unfold is_datetime. rewrite andb_true_iff, !Z.leb_le. reflexivity.
Qed.

(** The test can be passed on a day with something busy only by a date that
    can be compared with the stored timestamps. *)
Lemma is_available_comparable tz busy_slots t slot_end :
  is_available tz busy_slots t slot_end = Some true ->
  busy_slots <> [] -> tz <> None.
Proof.
  destruct tz; [discriminate |]. rewrite is_available_naive.
  destruct busy_slots; [congruence | discriminate].
Qed.

(** On a day whose two midnights are datetimes, with a positive duration
    whose first slot ends on a [datetime], the loop from business open does
    not raise when the date can be compared with the busy slots. *)
Lemma slot_loop_returns tz busy_slots date dur :
  is_datetime (replace_midnight date) = true ->
  is_datetime (replace_midnight date + timedelta_days 1) = true ->
  0 < dur ->
  tz <> None \/ busy_slots = [] ->
  forall fuel cur,
    business_open date <= cur ->
    in_range cur (timedelta_minutes dur) ->
    exists l, slot_loop fuel tz busy_slots dur (business_close date) cur = Some l.
Proof.
  intros Hlo%is_datetime_bounds Hhi%is_datetime_bounds Hdur Hcmp.
  induction fuel as [| fuel IH]; intros cur Hopen Hrange;
    [exists []; reflexivity |].
  cbn [slot_loop]. rewrite Hrange. cbn [mbind option_bind].
  destruct (Z.leb_spec (cur + timedelta_minutes dur) (business_close date))
    as [Hle | Hgt]; [| exists []; reflexivity].
  destruct (is_available_answered tz busy_slots cur
              (cur + timedelta_minutes dur) Hcmp) as [available ->].
  cbn [mbind option_bind].
  destruct (datetime_add_Some _ _ _ Hrange) as (_ & Htd & _).
  assert (Hnext : in_range cur (timedelta_minutes 30)).
  { apply in_range_intro; [reflexivity |].
    unfold business_open, business_close in *. time_lia. }
  rewrite Hnext. cbn [mbind option_bind].
  destruct (IH (cur + timedelta_minutes 30)) as [later ->].
  - time_lia.
  - apply in_range_intro; [exact Htd |].
    unfold business_open, business_close in *. time_lia.
  - eexists. reflexivity.
Qed.

(** What the loop gives a caller that takes a raise for an empty list: the
    steps that fit and are free, when the date can be compared with the busy
    slots. *)
Lemma generate_slots_business_exact tz busy_slots date dur t :
  is_datetime (replace_midnight date) = true ->
  is_datetime (replace_midnight date + timedelta_days 1) = true ->
  0 < dur ->
  tz <> None \/ busy_slots = [] ->
  t ∈ returned (generate_slots tz busy_slots dur
                  (replace_hour (replace_midnight date) business_end)
                  (replace_hour (replace_midnight date) business_start))
  <-> within_business_hours date dur t
      /\ forall busy_start busy_end,
           (busy_start, busy_end) ∈ busy_slots ->
           ~ overlaps t (t + timedelta_minutes dur) busy_start busy_end.
Proof.
  intros Hlo Hhi Hdur Hcmp. unfold returned.
  destruct (generate_slots _ _ _ _ _) as [l |] eqn:Hgen; cbn [default].
  - split; [apply (generate_slots_business _ _ _ _ _ _ Hgen) |].
    intros [(_ & Hfit & k & Hk) Hfree].
    destruct (business_hours_bounds date) as [Ho Hc]. rewrite Ho, Hc in Hgen.
    rewrite Hk in *.
    apply (generate_slots_complete _ _ _ _ _ _ _ Hgen); [exact Hfit |].
    apply is_available_free; [exact Hcmp | exact Hfree].
  - split; [intros Hin; inversion Hin |].
    intros [(Hopen & Hfit & _) _]. exfalso.
    destruct (business_hours_bounds date) as [Ho Hc]. rewrite Ho, Hc in Hgen.
    assert (Hrange : in_range (business_open date) (timedelta_minutes dur)).
    { apply is_datetime_bounds in Hlo, Hhi.
      apply in_range_intro.
      - unfold is_timedelta. apply andb_true_iff.
        rewrite Z.leb_le, Z.ltb_lt.
        unfold business_open, business_close, timedelta_max_days in *. time_lia.
      - unfold business_open, business_close in *. time_lia. }
    destruct (slot_loop_returns tz busy_slots date dur Hlo Hhi Hdur Hcmp
                (S (loop_bound dur (business_close date) (business_open date)))
                (business_open date) ltac:(lia) Hrange) as [l Hl].
    unfold generate_slots in Hgen. congruence.
Qed.

(** With a naive date and something busy, the first iteration raises
    ([TypeError] from the comparison, if not [OverflowError] before it) or
    the loop is not entered: no slot comes out. *)
Lemma generate_slots_naive_busy busy_slots dur end_time cur :
  busy_slots <> [] ->
  returned (generate_slots None busy_slots dur end_time cur) = []
  /\ (cur + timedelta_minutes dur <= end_time ->
      generate_slots None busy_slots dur end_time cur = None).
Proof.
  intros Hbusy. rewrite generate_slots_unfold.
  destruct (datetime_add cur (timedelta_minutes dur)) as [slot_end |] eqn:Hend;
    [| split; reflexivity].
  destruct (datetime_add_Some _ _ _ Hend) as (-> & _).
  cbn [mbind option_bind].
  destruct (Z.leb_spec (cur + timedelta_minutes dur) end_time) as [Hle | Hgt].
  - rewrite is_available_naive.
    destruct busy_slots; [congruence |]. split; reflexivity.
  - split; [reflexivity | lia].
Qed.

Lemma day_in_range_add date :
  day_in_range date ->
  datetime_add (replace_midnight (wall date)) (timedelta_days 1)
  = Some (replace_midnight (wall date) + timedelta_days 1).
Proof.
  intros [_ Hhi]. apply in_range_intro; [reflexivity |].
  apply is_datetime_bounds, Hhi.
Qed.

Lemma session_busy_slots st trainer sod eod :
  session_ends_in_range st ->
  mapM (fun d : doc_id * SessionManager.session => SessionManager.busy_slot d.2)
       (SessionManager.existing_sessions st trainer sod eod)
  = Some ((fun d : doc_id * SessionManager.session =>
             (SessionManager.dateTime d.2, session_end d.2))
          <$> SessionManager.existing_sessions st trainer sod eod).
Proof.
  intros Hends. apply mapM_all. intros [i s] Hin.
  apply list_elem_of_filter in Hin as [_ Hin].
  apply elem_of_map_to_list in Hin. cbn [snd].
  unfold SessionManager.busy_slot. rewrite (Hends i s Hin). reflexivity.
Qed.

Lemma appointment_busy_slots st trainer sod eod :
  appointment_ends_in_range st ->
  mapM (fun d : doc_id * AppointmentManager.appointment =>
          AppointmentManager.busy_slot d.2)
       (AppointmentManager.existing_appointments st trainer sod eod)
  = Some ((fun d : doc_id * AppointmentManager.appointment =>
             (AppointmentManager.appointment_time d.2, appointment_end d.2))
          <$> AppointmentManager.existing_appointments st trainer sod eod).
Proof.
  intros Hends. apply mapM_all. intros [i a] Hin.
  apply list_elem_of_filter in Hin as [_ Hin].
  apply elem_of_map_to_list in Hin. cbn [snd].
  unfold AppointmentManager.busy_slot. rewrite (Hends i a Hin). reflexivity.
Qed.

Lemma existing_sessions_iff st trainer sod eod i s :
  (i, s) ∈ SessionManager.existing_sessions st trainer sod eod
  <-> SessionManager.sessions st !! i = Some s
      /\ SessionManager.session_trainerId s = trainer
      /\ sod <= SessionManager.dateTime s < eod
      /\ SessionManager.session_status s = scheduled.
Proof.
  unfold SessionManager.existing_sessions.
  rewrite list_elem_of_filter, elem_of_map_to_list, list_elem_of_singleton.
  cbn [snd]. tauto.
Qed.

Lemma existing_appointments_iff st trainer sod eod i a :
  (i, a) ∈ AppointmentManager.existing_appointments st trainer sod eod
  <-> AppointmentManager.appointments st !! i = Some a
      /\ AppointmentManager.trainer_id a = trainer
      /\ sod <= AppointmentManager.appointment_time a < eod
      /\ (AppointmentManager.appointment_status a = scheduled
          \/ AppointmentManager.appointment_status a = confirmed).
Proof.
  unfold AppointmentManager.existing_appointments.
  rewrite list_elem_of_filter, elem_of_map_to_list, elem_of_cons,
    list_elem_of_singleton.
  cbn [snd]. tauto.
Qed.

(** The slots of the session store, exactly.  A busy session lets a slot
    through only when the date can be compared with it, so for a naive date
    slots come out only on a day with nothing busy. *)
Lemma session_slots_iff st trainer date dur t :
  day_in_range date -> session_ends_in_range st -> 0 < dur ->
  t ∈ SessionManager.get_available_slots st trainer date dur
  <-> within_business_hours (wall date) dur t
      /\ forall i s,
           SessionManager.sessions st !! i = Some s ->
           SessionManager.session_trainerId s = trainer ->
           on_day (wall date) (SessionManager.dateTime s) ->
           SessionManager.session_status s = scheduled ->
           tzinfo date <> None
           /\ ~ overlaps t (t + timedelta_minutes dur)
                 (SessionManager.dateTime s) (session_end s).
Proof.
  intros Hday Hends Hdur.
  unfold SessionManager.get_available_slots, SessionManager.available_slots.
  rewrite (day_in_range_add _ Hday). cbn [mbind option_bind].
  rewrite (session_busy_slots _ _ _ _ Hends). cbn [mbind option_bind].
  set (existing := SessionManager.existing_sessions _ _ _ _).
  set (busy := _ <$> existing).
  change (match ?g with Some l => l | None => [] end) with (returned g).
  destruct Hday as [Hlo Hhi].
  destruct (decide (tzinfo date <> None \/ busy = [])) as [Hcmp | Hnot].
  - rewrite (generate_slots_business_exact _ _ _ _ _ Hlo Hhi Hdur Hcmp).
    split; intros [Hhours Hfree]; (split; [exact Hhours |]).
    + intros i s Hi Ht Hon Hs.
      assert (Hin : (i, s) ∈ existing)
        by (apply existing_sessions_iff; unfold on_day in Hon; tauto).
      assert (Hb : (SessionManager.dateTime s, session_end s) ∈ busy).
      { apply list_elem_of_fmap. exists (i, s). split; [reflexivity | exact Hin]. }
      split; [| exact (Hfree _ _ Hb)].
      destruct Hcmp as [Hcmp | Hnil]; [exact Hcmp |].
      rewrite Hnil in Hb. inversion Hb.
    + intros bs be Hb.
      apply list_elem_of_fmap in Hb as ([i s] & [= -> ->] & Hin).
      apply existing_sessions_iff in Hin as (Hi & Ht & Hon & Hs).
      apply (Hfree i s Hi Ht Hon Hs).
  - assert (Htz : tzinfo date = None)
      by (destruct (tzinfo date); [exfalso; apply Hnot; left; discriminate
                                  | reflexivity]).
    assert (Hbusy : busy <> []) by (intros Hnil; apply Hnot; right; exact Hnil).
    rewrite Htz.
    rewrite (proj1 (generate_slots_naive_busy busy dur _ _ Hbusy)).
    split; [intros Hin; inversion Hin |].
    intros [_ Hfree]. exfalso.
    destruct busy as [| b busy'] eqn:Hb; [congruence |].
    assert (Hin : b ∈ (fun d : doc_id * SessionManager.session =>
                         (SessionManager.dateTime d.2, session_end d.2))
                      <$> existing)
      by (fold busy; rewrite Hb; apply list_elem_of_here).
    apply list_elem_of_fmap in Hin as ([i s] & _ & Hin).
    apply existing_sessions_iff in Hin as (Hi & Ht & Hon & Hs).
    destruct (Hfree i s Hi Ht Hon Hs) as [Hcmp _]. congruence.
Qed.

Lemma appointment_slots_iff st trainer date dur t :
  day_in_range date -> appointment_ends_in_range st -> 0 < dur ->
  t ∈ returned (AppointmentManager.get_available_slots st trainer date dur)
  <-> within_business_hours (wall date) dur t
      /\ forall i a,
           AppointmentManager.appointments st !! i = Some a ->
           AppointmentManager.trainer_id a = trainer ->
           on_day (wall date) (AppointmentManager.appointment_time a) ->
           AppointmentManager.appointment_status a = scheduled
           \/ AppointmentManager.appointment_status a = confirmed ->
           tzinfo date <> None
           /\ ~ overlaps t (t + timedelta_minutes dur)
                 (AppointmentManager.appointment_time a) (appointment_end a).
Proof.
  intros Hday Hends Hdur.
  unfold AppointmentManager.get_available_slots.
  rewrite (day_in_range_add _ Hday). cbn [mbind option_bind].
  rewrite (appointment_busy_slots _ _ _ _ Hends). cbn [mbind option_bind].
  set (existing := AppointmentManager.existing_appointments _ _ _ _).
  set (busy := _ <$> existing).
  destruct Hday as [Hlo Hhi].
  destruct (decide (tzinfo date <> None \/ busy = [])) as [Hcmp | Hnot].
  - rewrite (generate_slots_business_exact _ _ _ _ _ Hlo Hhi Hdur Hcmp).
    split; intros [Hhours Hfree]; (split; [exact Hhours |]).
    + intros i a Hi Ht Hon Hs.
      assert (Hin : (i, a) ∈ existing)
        by (apply existing_appointments_iff; unfold on_day in Hon; tauto).
      assert (Hb : (AppointmentManager.appointment_time a, appointment_end a)
                   ∈ busy).
      { apply list_elem_of_fmap. exists (i, a). split; [reflexivity | exact Hin]. }
      split; [| exact (Hfree _ _ Hb)].
      destruct Hcmp as [Hcmp | Hnil]; [exact Hcmp |].
      rewrite Hnil in Hb. inversion Hb.
    + intros bs be Hb.
      apply list_elem_of_fmap in Hb as ([i a] & [= -> ->] & Hin).
      apply existing_appointments_iff in Hin as (Hi & Ht & Hon & Hs).
      apply (Hfree i a Hi Ht Hon Hs).
  - assert (Htz : tzinfo date = None)
      by (destruct (tzinfo date); [exfalso; apply Hnot; left; discriminate
                                  | reflexivity]).
    assert (Hbusy : busy <> []) by (intros Hnil; apply Hnot; right; exact Hnil).
    rewrite Htz.
    rewrite (proj1 (generate_slots_naive_busy busy dur _ _ Hbusy)).
    split; [intros Hin; inversion Hin |].
    intros [_ Hfree]. exfalso.
    destruct busy as [| b busy'] eqn:Hb; [congruence |].
    assert (Hin : b ∈ (fun d : doc_id * AppointmentManager.appointment =>
                         (AppointmentManager.appointment_time d.2,
                          appointment_end d.2))
                      <$> existing)
      by (fold busy; rewrite Hb; apply list_elem_of_here).
    apply list_elem_of_fmap in Hin as ([i a] & _ & Hin).
    apply existing_appointments_iff in Hin as (Hi & Ht & Hon & Hs).
    destruct (Hfree i a Hi Ht Hon Hs) as [Hcmp _]. congruence.
Qed.

(** For a naive date and a day with something busy that the first slot fits
    into, the appointment variant raises. *)
Lemma appointment_slots_raise st trainer date dur i a :
  day_in_range date -> appointment_ends_in_range st ->
  tzinfo date = None -> dur <= 540 ->
  AppointmentManager.appointments st !! i = Some a ->
  AppointmentManager.trainer_id a = trainer ->
  on_day (wall date) (AppointmentManager.appointment_time a) ->
  AppointmentManager.appointment_status a = scheduled
  \/ AppointmentManager.appointment_status a = confirmed ->
  AppointmentManager.get_available_slots st trainer date dur = None.
Proof.
  intros Hday Hends Htz Hdur Hi Ht Hon Hs.
  unfold AppointmentManager.get_available_slots.
  rewrite (day_in_range_add _ Hday). cbn [mbind option_bind].
  rewrite (appointment_busy_slots _ _ _ _ Hends). cbn [mbind option_bind].
  rewrite Htz. apply generate_slots_naive_busy.
  - intros Hnil.
    assert (Hin : (AppointmentManager.appointment_time a, appointment_end a)
                  ∈ (fun d : doc_id * AppointmentManager.appointment =>
                       (AppointmentManager.appointment_time d.2,
                        appointment_end d.2))
                    <$> AppointmentManager.existing_appointments st trainer
                          (replace_midnight (wall date))
                          (replace_midnight (wall date) + timedelta_days 1)).
    { apply list_elem_of_fmap. exists (i, a). split; [reflexivity |].
      apply existing_appointments_iff. unfold on_day in Hon. tauto. }
    rewrite Hnil in Hin. inversion Hin.
  - rewrite !replace_hour_midnight. time_lia.
Qed.

(** For a naive date no slot is returned on a day with something busy,
    whatever else holds. *)
Lemma session_slots_naive_busy st trainer date dur i s :
  tzinfo date = None ->
  SessionManager.sessions st !! i = Some s ->
  SessionManager.session_trainerId s = trainer ->
  on_day (wall date) (SessionManager.dateTime s) ->
  SessionManager.session_status s = scheduled ->
  SessionManager.get_available_slots st trainer date dur = [].
Proof.
  intros Htz Hi Ht Hon Hs.
  unfold SessionManager.get_available_slots, SessionManager.available_slots.
  destruct (datetime_add _ (timedelta_days 1)) as [end_of_day |] eqn:Hday;
    [| reflexivity].
  destruct (datetime_add_Some _ _ _ Hday) as (-> & _).
  cbn [mbind option_bind].
  destruct (mapM _ _) as [busy_slots |] eqn:Hbusy; [| reflexivity].
  cbn [mbind option_bind]. rewrite Htz.
  change (match ?g with Some l => l | None => [] end) with (returned g).
  apply generate_slots_naive_busy. intros ->.
  destruct (mapM_elem _ _ _ (i, s) Hbusy
              (session_is_existing st trainer _ _ i s Hi Ht Hon Hs))
    as (busy & _ & Hin).
  inversion Hin.
Qed.

Lemma appointment_slots_naive_busy st trainer date dur i a :
  tzinfo date = None ->
  AppointmentManager.appointments st !! i = Some a ->
  AppointmentManager.trainer_id a = trainer ->
  on_day (wall date) (AppointmentManager.appointment_time a) ->
  AppointmentManager.appointment_status a = scheduled
  \/ AppointmentManager.appointment_status a = confirmed ->
  returned (AppointmentManager.get_available_slots st trainer date dur) = [].
Proof.
  intros Htz Hi Ht Hon Hs.
  unfold AppointmentManager.get_available_slots.
  destruct (datetime_add _ (timedelta_days 1)) as [end_of_day |] eqn:Hday;
    [| reflexivity].
  destruct (datetime_add_Some _ _ _ Hday) as (-> & _).
  cbn [mbind option_bind].
  destruct (mapM _ _) as [busy_slots |] eqn:Hbusy; [| reflexivity].
  cbn [mbind option_bind]. rewrite Htz.
  apply generate_slots_naive_busy. intros ->.
  destruct (mapM_elem _ _ _ (i, a) Hbusy
              (appointment_is_existing st trainer _ _ i a Hi Ht Hon Hs))
    as (busy & _ & Hin).
  inversion Hin.
Qed.

(** What a returned slot says of a busy session of its day, whatever else
    holds: the date could be compared with it, and the slot is clear of
    it. *)
Lemma session_slots_through st trainer date dur t i s :
  t ∈ SessionManager.get_available_slots st trainer date dur ->
  SessionManager.sessions st !! i = Some s ->
  SessionManager.session_trainerId s = trainer ->
  on_day (wall date) (SessionManager.dateTime s) ->
  SessionManager.session_status s = scheduled ->
  tzinfo date <> None
  /\ ~ overlaps t (t + timedelta_minutes dur)
         (SessionManager.dateTime s) (session_end s).
Proof.
  intros Hin Hi Ht Hon Hs. split.
  - intros Htz.
    rewrite (session_slots_naive_busy st trainer date dur i s Htz Hi Ht Hon Hs)
      in Hin.
    inversion Hin.
  - unfold SessionManager.get_available_slots in Hin.
    destruct (SessionManager.available_slots st trainer date dur) as [l |] eqn:Hbody;
      [| inversion Hin].
    destruct (session_slots_sound _ _ _ _ _ _ Hbody Hin) as [_ Hfree].
    apply (Hfree i s Hi Ht Hon Hs).
Qed.

Lemma slot_loop_count fuel tz busy_slots dur end_time :
  forall cur l,
    slot_loop fuel tz busy_slots dur end_time cur = Some l ->
    (length l <= loop_bound dur end_time cur)%nat.
Proof.
  induction fuel as [| fuel IH]; intros cur l Hloop.
  - injection Hloop as <-. simpl. lia.
  - apply slot_loop_step in Hloop
      as (_ & [[_ ->] | (Hle & available & later & Hav & _ & Hlater & ->)]);
      [simpl; lia |].
    specialize (IH _ _ Hlater). rewrite (loop_bound_step _ _ _ Hle).
    destruct available; simpl; lia.
Qed.

Lemma business_loop_bound date dur :
  0 < dur ->
  (loop_bound dur (replace_hour (replace_midnight date) business_end)
     (replace_hour (replace_midnight date) business_start) <= 18)%nat.
Proof.
  intros Hdur. rewrite !replace_hour_midnight. unfold loop_bound.
  set (x := _ - _ - _).
  assert (Hx : x < 18 * timedelta_minutes 30) by (unfold x; time_lia).
  assert (x / timedelta_minutes 30 < 18)
    by (apply Z.div_lt_upper_bound; [reflexivity | lia]).
  lia.
Qed.

Lemma business_loop_bound_long date dur :
  540 < dur ->
  loop_bound dur (replace_hour (replace_midnight date) business_end)
    (replace_hour (replace_midnight date) business_start) = O.
Proof.
  intros Hdur. rewrite !replace_hour_midnight. unfold loop_bound.
  set (x := _ - _ - _).
  assert (Hx : x < 0) by (unfold x; time_lia).
  assert (x / timedelta_minutes 30 < 0)
    by (apply Z.div_lt_upper_bound; [reflexivity | lia]).
  lia.
Qed.

Lemma session_slots_count st trainer date dur :
  (length (SessionManager.get_available_slots st trainer date dur)
   <= loop_bound dur (replace_hour (replace_midnight (wall date)) business_end)
        (replace_hour (replace_midnight (wall date)) business_start))%nat.
Proof.
  unfold SessionManager.get_available_slots.
  destruct (SessionManager.available_slots st trainer date dur) as [l |] eqn:Hbody;
    [| simpl; lia].
  unfold SessionManager.available_slots in Hbody.
  destruct (datetime_add _ (timedelta_days 1)); [| discriminate].
  cbn [mbind option_bind] in Hbody.
  destruct (mapM _ _); [| discriminate].
  exact (slot_loop_count _ _ _ _ _ _ _ Hbody).
Qed.

Lemma StronglySorted_lt_NoDup (l : list Z) : StronglySorted Z.lt l -> NoDup l.
Proof.
  induction 1 as [| x l Hl IH Hx]; constructor; [| exact IH].
  intros Hin. rewrite Forall_forall in Hx. specialize (Hx x Hin). lia.
Qed.

End AvailabilityExact.

Section ExampleStores.

Lemma one_session_ends_in_range st t :
  in_range t (timedelta_minutes 60) ->
  session_ends_in_range
    {| SessionManager.clients := ∅;
       SessionManager.sessions := {[ 0%nat := Examples.session_at t st ]} |}.
Proof.
  intros Ht i s Hi. cbn [SessionManager.sessions] in Hi.
  apply lookup_singleton_Some in Hi as [_ <-]. exact Ht.
Qed.

Lemma one_appointment_ends_in_range st t :
  in_range t (timedelta_minutes 60) ->
  appointment_ends_in_range
    {| AppointmentManager.clients := ∅;
       AppointmentManager.appointments :=
         {[ 0%nat := Examples.appointment_at t st ]} |}.
Proof.
  intros Ht i a Hi. cbn [AppointmentManager.appointments] in Hi.
  apply lookup_singleton_Some in Hi as [_ <-]. exact Ht.
Qed.

Lemma day0_in_range tz :
  day_in_range {| wall := Examples.day0; tzinfo := tz |}.
Proof. split; reflexivity. Qed.

End ExampleStores.

(** X1.  On a day whose midnights are datetimes, for a positive duration
    and stored sessions that end on a [datetime], [get_available_slots]
    returns exactly the 30-minute steps from business open that end by
    business close and that every scheduled session of the trainer starting
    that day (for appointments: scheduled or confirmed) lets through; a busy
    session lets a slot through when the date asked for is aware and the
    slot does not conflict with it.  So for an aware date nothing that is
    free is left out, and for a naive date, as every caller in the
    repository passes, slots are returned only on a day with nothing busy:
    comparing the naive slot time with the aware stored time raises
    [TypeError], which the session variant turns into the empty list and the
    appointment variant passes on to its caller.  Each slot is returned
    once. *)
Theorem get_available_slots_exact
    (sst : SessionManager.store) (ast : AppointmentManager.store)
    (trainer : string) (date : datetime) (dur t : Z)
    (Hday : day_in_range date) (Hdur : 0 < dur)
    (Hsessions : session_ends_in_range sst)
    (Happointments : appointment_ends_in_range ast) :
  (t ∈ SessionManager.get_available_slots sst trainer date dur
   <-> within_business_hours (wall date) dur t
       /\ forall i s,
            SessionManager.sessions sst !! i = Some s ->
            SessionManager.session_trainerId s = trainer ->
            on_day (wall date) (SessionManager.dateTime s) ->
            SessionManager.session_status s = scheduled ->
            tzinfo date <> None
            /\ ~ overlaps t (t + timedelta_minutes dur)
                  (SessionManager.dateTime s) (session_end s))
  /\ (t ∈ returned (AppointmentManager.get_available_slots ast trainer date dur)
      <-> within_business_hours (wall date) dur t
          /\ forall i a,
               AppointmentManager.appointments ast !! i = Some a ->
               AppointmentManager.trainer_id a = trainer ->
               on_day (wall date) (AppointmentManager.appointment_time a) ->
               AppointmentManager.appointment_status a = scheduled
               \/ AppointmentManager.appointment_status a = confirmed ->
               tzinfo date <> None
               /\ ~ overlaps t (t + timedelta_minutes dur)
                     (AppointmentManager.appointment_time a) (appointment_end a))
  /\ (tzinfo date = None -> dur <= 540 ->
      forall i a,
        AppointmentManager.appointments ast !! i = Some a ->
        AppointmentManager.trainer_id a = trainer ->
        on_day (wall date) (AppointmentManager.appointment_time a) ->
        AppointmentManager.appointment_status a = scheduled
        \/ AppointmentManager.appointment_status a = confirmed ->
        AppointmentManager.get_available_slots ast trainer date dur = None)
  /\ NoDup (SessionManager.get_available_slots sst trainer date dur)
  /\ NoDup (returned (AppointmentManager.get_available_slots ast trainer date dur)).
Proof.
  split; [apply session_slots_iff; assumption |].
  split; [apply appointment_slots_iff; assumption |].
  split.
  - intros Htz Hfits i a. apply appointment_slots_raise; assumption.
  - split; apply StronglySorted_lt_NoDup;
      [apply session_slots_sorted | apply appointment_slots_sorted].
Qed.

(** With a scheduled session from 10:00 to 11:00: for the aware date the
    11:00 slot is returned; for the naive date the 11:00 slot is not (nor is
    any other), and the appointment variant raises. *)
Lemma get_available_slots_exact_witness :
  (Examples.ten_oclock + timedelta_hours 1)
    ∈ SessionManager.get_available_slots (Examples.one_session scheduled) "T"
        (aware Examples.day0) 60
  /\ ((Examples.ten_oclock + timedelta_hours 1)
       ∉ SessionManager.get_available_slots (Examples.one_session scheduled) "T"
           (naive Examples.day0) 60)
  /\ AppointmentManager.get_available_slots (Examples.one_appointment confirmed)
       "T" (naive Examples.day0) 60 = None.
Proof.
  assert (Hs : session_ends_in_range (Examples.one_session scheduled))
    by (apply one_session_ends_in_range; reflexivity).
  assert (Ha : appointment_ends_in_range (Examples.one_appointment confirmed))
    by (apply one_appointment_ends_in_range; reflexivity).
  pose proof (get_available_slots_exact (Examples.one_session scheduled)
                (Examples.one_appointment confirmed) "T" (aware Examples.day0)
                60 (Examples.ten_oclock + timedelta_hours 1)
                (day0_in_range _) ltac:(reflexivity) Hs Ha) as (Haware & _).
  pose proof (get_available_slots_exact (Examples.one_session scheduled)
                (Examples.one_appointment confirmed) "T" (naive Examples.day0)
                60 (Examples.ten_oclock + timedelta_hours 1)
                (day0_in_range _) ltac:(reflexivity) Hs Ha)
    as (Hnaive & _ & Hraise & _).
  split; [| split].
  - apply Haware. split.
    + split; [by_compute |]. split; [by_compute |]. exists 4%nat. reflexivity.
    + intros i s Hi _ _ _. split; [discriminate |].
      cbn [SessionManager.sessions Examples.one_session] in Hi.
      apply lookup_singleton_Some in Hi as [_ <-].
      unfold overlaps, session_end. by_compute.
  - intros Hin. apply Hnaive in Hin as [_ Hfree].
    destruct (Hfree 0%nat (Examples.session_at Examples.ten_oclock scheduled))
      as [Hcmp _]; try reflexivity; [unfold on_day; by_compute |].
    apply Hcmp. reflexivity.
  - apply (Hraise eq_refl ltac:(discriminate) 0%nat
             (Examples.appointment_at Examples.ten_oclock confirmed));
      try reflexivity; [unfold on_day; by_compute | right; reflexivity].
Defined.

(** X2.  For a positive duration [get_available_slots] returns at most 18
    slots, and none at all when the duration is longer than the nine
    business hours. *)
Theorem get_available_slots_bounds
    (st : SessionManager.store) (trainer : string) (date : datetime) (dur : Z) :
  0 < dur ->
  (length (SessionManager.get_available_slots st trainer date dur) <= 18)%nat
  /\ (540 < dur -> SessionManager.get_available_slots st trainer date dur = []).
Proof.
  intros Hdur. split.
  - etransitivity; [apply session_slots_count | apply business_loop_bound, Hdur].
  - intros Hlong. pose proof (session_slots_count st trainer date dur) as Hlen.
    rewrite (business_loop_bound_long _ _ Hlong) in Hlen.
    destruct (SessionManager.get_available_slots st trainer date dur);
      [reflexivity | simpl in Hlen; lia].
Qed.

Lemma get_available_slots_bounds_witness :
  (length (SessionManager.get_available_slots
             (Examples.one_session scheduled) "T" (aware Examples.day0) 60)
   <= 18)%nat
  /\ SessionManager.get_available_slots
       (Examples.one_session scheduled) "T" (aware Examples.day0) 541 = [].
Proof.
  destruct (get_available_slots_bounds (Examples.one_session scheduled) "T"
              (aware Examples.day0) 60 ltac:(reflexivity)) as [Hlen _].
  destruct (get_available_slots_bounds (Examples.one_session scheduled) "T"
              (aware Examples.day0) 541 ltac:(reflexivity)) as [_ Hnone].
  split; [exact Hlen | apply Hnone; reflexivity].
Defined.

(** X3.  Cancelling an existing session succeeds, and from then on the
    session blocks no slot: on a day whose midnights are datetimes and for a
    positive duration, the slots are exactly those that every other
    scheduled session of the trainer that day lets through (for a naive
    date: all of them when there is no other, none when there is one). *)
Theorem cancel_session_frees_slot
    (st : SessionManager.store) (id : doc_id) (s : SessionManager.session)
    (trainer : string) (date : datetime) (dur t : Z)
    (Hid : SessionManager.sessions st !! id = Some s)
    (Hday : day_in_range date) (Hdur : 0 < dur)
    (Hends : session_ends_in_range st) :
  let r := SessionManager.cancel_session st id in
  r.1 = true
  /\ (SessionManager.session_status <$> SessionManager.sessions r.2 !! id)
     = Some cancelled
  /\ (t ∈ SessionManager.get_available_slots r.2 trainer date dur
      <-> within_business_hours (wall date) dur t
          /\ forall j s',
               j <> id ->
               SessionManager.sessions st !! j = Some s' ->
               SessionManager.session_trainerId s' = trainer ->
               on_day (wall date) (SessionManager.dateTime s') ->
               SessionManager.session_status s' = scheduled ->
               tzinfo date <> None
               /\ ~ overlaps t (t + timedelta_minutes dur)
                     (SessionManager.dateTime s') (session_end s')).
Proof.
  intros r. subst r.
  unfold SessionManager.cancel_session, SessionManager.update_session_status,
    SessionManager.update_session.
  rewrite Hid. cbn [fst snd].
  split; [reflexivity |]. split.
  - cbn [SessionManager.sessions]. rewrite lookup_insert_eq. reflexivity.
  - rewrite session_slots_iff; [| exact Hday | | exact Hdur].
    + cbn [SessionManager.sessions].
      split; intros [Hhours Hfree]; (split; [exact Hhours |]).
      * intros j s' Hne Hj. apply (Hfree j s').
        rewrite lookup_insert_ne by congruence. exact Hj.
      * intros j s' Hj.
        destruct (decide (j = id)) as [-> | Hne].
        -- rewrite lookup_insert_eq in Hj. injection Hj as <-.
           intros _ _ Hs. discriminate Hs.
        -- rewrite lookup_insert_ne in Hj by congruence.
           apply (Hfree j s' Hne Hj).
    + intros j s' Hj. cbn [SessionManager.sessions] in Hj.
      destruct (decide (j = id)) as [-> | Hne].
      * rewrite lookup_insert_eq in Hj. injection Hj as <-.
        exact (Hends id s Hid).
      * rewrite lookup_insert_ne in Hj by congruence. exact (Hends j s' Hj).
Qed.

(** The only session of the day is cancelled: 10:00 is offered again, to a
    caller with a naive date too. *)
Lemma cancel_session_frees_slot_witness :
  Examples.ten_oclock
    ∈ SessionManager.get_available_slots
        (SessionManager.cancel_session (Examples.one_session scheduled) 0%nat).2
        "T" (naive Examples.day0) 60.
Proof.
  destruct (cancel_session_frees_slot (Examples.one_session scheduled) 0%nat
              (Examples.session_at Examples.ten_oclock scheduled)
              "T" (naive Examples.day0) 60 Examples.ten_oclock eq_refl
              (day0_in_range _) ltac:(reflexivity)
              (one_session_ends_in_range scheduled Examples.ten_oclock
                 ltac:(reflexivity)))
    as (_ & _ & Hslots).
  apply Hslots. split.
  - unfold within_business_hours. split; [by_compute |].
    split; [by_compute |]. exists 2%nat. reflexivity.
  - intros j s' Hne Hj. exfalso. apply Hne.
    unfold Examples.one_session in Hj. cbn [SessionManager.sessions] in Hj.
    apply lookup_singleton_Some in Hj as [<- _]. reflexivity.
Defined.

(** X4.  Rescheduling an existing session makes it a scheduled session at the
    new time whatever its status was before (a cancelled session is booked
    again): afterwards, on a day whose midnights are datetimes and for a
    positive duration, the slots are exactly those that the moved session
    and every other scheduled session of the trainer that day let through.
    A busy session lets a slot through when the date asked for is aware and
    the slot does not conflict with it. *)
Theorem reschedule_session_moves_busy_interval
    (st : SessionManager.store) (id : doc_id) (s : SessionManager.session)
    (new_time : Z) (trainer : string) (date : datetime) (dur t : Z)
    (Hid : SessionManager.sessions st !! id = Some s)
    (Hday : day_in_range date) (Hdur : 0 < dur)
    (Hends : session_ends_in_range st)
    (Hnew : in_range new_time
              (timedelta_minutes (default 60 (SessionManager.duration s)))) :
  t ∈ SessionManager.get_available_slots
        (SessionManager.reschedule_session st id new_time).2 trainer date dur
  <-> within_business_hours (wall date) dur t
      /\ (SessionManager.session_trainerId s = trainer ->
          on_day (wall date) new_time ->
          tzinfo date <> None
          /\ ~ overlaps t (t + timedelta_minutes dur) new_time
                (new_time
                 + timedelta_minutes (default 60 (SessionManager.duration s))))
      /\ forall j s',
           j <> id ->
           SessionManager.sessions st !! j = Some s' ->
           SessionManager.session_trainerId s' = trainer ->
           on_day (wall date) (SessionManager.dateTime s') ->
           SessionManager.session_status s' = scheduled ->
           tzinfo date <> None
           /\ ~ overlaps t (t + timedelta_minutes dur)
                 (SessionManager.dateTime s') (session_end s').
Proof.
  unfold SessionManager.reschedule_session, SessionManager.update_session.
  rewrite Hid. cbn [snd].
  rewrite session_slots_iff; [| exact Hday | | exact Hdur].
  - cbn [SessionManager.sessions]. split.
    + intros [Hhours Hfree]. split; [exact Hhours |]. split.
      * intros Ht Hon.
        apply (Hfree id (SessionManager.moved_to new_time s));
          [apply lookup_insert_eq | exact Ht | exact Hon | reflexivity].
      * intros j s' Hne Hj. apply (Hfree j s').
        rewrite lookup_insert_ne by congruence. exact Hj.
    + intros (Hhours & Hmoved & Hfree). split; [exact Hhours |].
      intros j s' Hj.
      destruct (decide (j = id)) as [-> | Hne].
      * rewrite lookup_insert_eq in Hj. injection Hj as <-.
        intros Ht Hon _. apply (Hmoved Ht Hon).
      * rewrite lookup_insert_ne in Hj by congruence.
        apply (Hfree j s' Hne Hj).
  - intros j s' Hj. cbn [SessionManager.sessions] in Hj.
    destruct (decide (j = id)) as [-> | Hne].
    + rewrite lookup_insert_eq in Hj. injection Hj as <-. exact Hnew.
    + rewrite lookup_insert_ne in Hj by congruence. exact (Hends j s' Hj).
Qed.

(** For an aware date: a cancelled session at 10:00 rescheduled to 14:00
    blocks the 14:00 slot; session 1 (11:00) moved onto 10:00 frees the
    11:00 slot. *)
Lemma reschedule_session_moves_busy_interval_witness :
  ((Examples.ten_oclock + timedelta_hours 4)
     ∉ SessionManager.get_available_slots
         (SessionManager.reschedule_session (Examples.one_session cancelled) 0%nat
            (Examples.ten_oclock + timedelta_hours 4)).2 "T"
         (aware Examples.day0) 60)
  /\ ((Examples.ten_oclock + timedelta_hours 1)
     ∈ SessionManager.get_available_slots
         (SessionManager.reschedule_session Examples.two_sessions 1%nat
            Examples.ten_oclock).2 "T" (aware Examples.day0) 60).
Proof.
  assert (Htwo : session_ends_in_range Examples.two_sessions).
  { intros j s' Hj. unfold Examples.two_sessions in Hj.
    cbn [SessionManager.sessions] in Hj.
    destruct (decide (j = 1%nat)) as [-> | Hne].
    - rewrite lookup_insert_eq in Hj. injection Hj as <-. reflexivity.
    - rewrite lookup_insert_ne in Hj by congruence.
      apply lookup_singleton_Some in Hj as [_ <-]. reflexivity. }
  split.
  - intros Hin.
    apply (reschedule_session_moves_busy_interval
             (Examples.one_session cancelled) 0%nat
             (Examples.session_at Examples.ten_oclock cancelled)
             (Examples.ten_oclock + timedelta_hours 4) "T"
             (aware Examples.day0) 60
             (Examples.ten_oclock + timedelta_hours 4) eq_refl
             (day0_in_range _) ltac:(reflexivity)
             (one_session_ends_in_range cancelled Examples.ten_oclock
                ltac:(reflexivity)) ltac:(reflexivity))
      in Hin as (_ & Hmoved & _).
    destruct Hmoved as [_ Hfree]; [reflexivity | unfold on_day; by_compute |].
    apply Hfree. unfold overlaps. by_compute.
  - apply (reschedule_session_moves_busy_interval Examples.two_sessions 1%nat
             (Examples.session_at (Examples.ten_oclock + timedelta_hours 1)
                scheduled)
             Examples.ten_oclock "T" (aware Examples.day0) 60
             (Examples.ten_oclock + timedelta_hours 1) eq_refl
             (day0_in_range _) ltac:(reflexivity) Htwo ltac:(reflexivity)).
    split; [| split].
    + split; [by_compute |]. split; [by_compute |]. exists 4%nat. reflexivity.
    + intros _ _. split; [discriminate |]. unfold overlaps. by_compute.
    + intros j s' Hne Hj _ _ _. split; [discriminate |].
      destruct (decide (j = 0%nat)) as [-> | Hne0].
      * injection Hj as <-. unfold overlaps, session_end. by_compute.
      * exfalso. unfold Examples.two_sessions in Hj.
        cbn [SessionManager.sessions] in Hj.
        rewrite lookup_insert_ne in Hj by congruence.
        apply lookup_singleton_Some in Hj as [<- _]. congruence.
Defined.

Lemma appointments_needing_reminders_iff st utcnow hours_ahead i a :
  (i, a) ∈ AppointmentManager.get_appointments_needing_reminders st utcnow hours_ahead
  <-> AppointmentManager.appointments st !! i = Some a
      /\ AppointmentManager.reminder_sent a = false
      /\ (AppointmentManager.appointment_status a = scheduled
          \/ AppointmentManager.appointment_status a = confirmed)
      /\ AppointmentManager.appointment_time a <= utcnow + timedelta_hours hours_ahead.
Proof.
  unfold AppointmentManager.get_appointments_needing_reminders.
  rewrite list_elem_of_filter, elem_of_map_to_list. cbn [snd].
  rewrite elem_of_cons, list_elem_of_singleton. tauto.
Qed.

(** X5.  Rescheduling an existing appointment sets its status to rescheduled,
    and with that status the appointment is outside both queries: afterwards
    it blocks no slot (on a day whose midnights are datetimes and for a
    positive duration, the slots returned are exactly those that every other
    scheduled or confirmed appointment lets through, so its own new time is
    not kept from the next caller) and it is never returned by
    [get_appointments_needing_reminders]. *)
Theorem reschedule_appointment_drops_out_of_queries
    (st : AppointmentManager.store) (id : doc_id)
    (a : AppointmentManager.appointment)
    (new_time : Z) (trainer : string) (date : datetime)
    (dur t utcnow hours_ahead : Z)
    (Hid : AppointmentManager.appointments st !! id = Some a)
    (Hday : day_in_range date) (Hdur : 0 < dur)
    (Hends : appointment_ends_in_range st)
    (Hnew : in_range new_time
              (timedelta_minutes (AppointmentManager.duration_minutes a))) :
  let st' := (AppointmentManager.reschedule_appointment st id new_time).2 in
  (t ∈ returned (AppointmentManager.get_available_slots st' trainer date dur)
   <-> within_business_hours (wall date) dur t
       /\ forall j a',
            j <> id ->
            AppointmentManager.appointments st !! j = Some a' ->
            AppointmentManager.trainer_id a' = trainer ->
            on_day (wall date) (AppointmentManager.appointment_time a') ->
            AppointmentManager.appointment_status a' = scheduled
            \/ AppointmentManager.appointment_status a' = confirmed ->
            tzinfo date <> None
            /\ ~ overlaps t (t + timedelta_minutes dur)
                  (AppointmentManager.appointment_time a') (appointment_end a'))
  /\ forall a',
       (id, a') ∉ AppointmentManager.get_appointments_needing_reminders
                    st' utcnow hours_ahead.
Proof.
  intros st'. subst st'.
  unfold AppointmentManager.reschedule_appointment,
    AppointmentManager.update_appointment.
  rewrite Hid. cbn [snd]. split.
  - rewrite appointment_slots_iff; [| exact Hday | | exact Hdur].
    + cbn [AppointmentManager.appointments].
      split; intros [Hhours Hfree]; (split; [exact Hhours |]).
      * intros j a' Hne Hj. apply (Hfree j a').
        rewrite lookup_insert_ne by congruence. exact Hj.
      * intros j a' Hj.
        destruct (decide (j = id)) as [-> | Hne].
        -- rewrite lookup_insert_eq in Hj. injection Hj as <-.
           intros _ _ [Hst | Hst]; discriminate Hst.
        -- rewrite lookup_insert_ne in Hj by congruence.
           apply (Hfree j a' Hne Hj).
    + intros j a' Hj. cbn [AppointmentManager.appointments] in Hj.
      destruct (decide (j = id)) as [-> | Hne].
      * rewrite lookup_insert_eq in Hj. injection Hj as <-. exact Hnew.
      * rewrite lookup_insert_ne in Hj by congruence. exact (Hends j a' Hj).
  - intros a' Hin.
    apply appointments_needing_reminders_iff in Hin as (Hi & _ & Hst & _).
    cbn [AppointmentManager.appointments] in Hi.
    rewrite lookup_insert_eq in Hi. injection Hi as <-.
    destruct Hst as [Hst | Hst]; discriminate Hst.
Qed.

(** Appointment 0 (10:00) moved to 12:00: the 12:00 slot is still offered,
    to a caller with a naive date too. *)
Lemma reschedule_appointment_drops_out_of_queries_witness :
  (Examples.ten_oclock + timedelta_hours 2)
    ∈ returned
        (AppointmentManager.get_available_slots
           (AppointmentManager.reschedule_appointment
              (Examples.one_appointment scheduled) 0%nat
              (Examples.ten_oclock + timedelta_hours 2)).2 "T"
           (naive Examples.day0) 60).
Proof.
  destruct (reschedule_appointment_drops_out_of_queries
              (Examples.one_appointment scheduled) 0%nat
              (Examples.appointment_at Examples.ten_oclock scheduled)
              (Examples.ten_oclock + timedelta_hours 2) "T"
              (naive Examples.day0) 60
              (Examples.ten_oclock + timedelta_hours 2) Examples.utcnow0 24
              eq_refl (day0_in_range _) ltac:(reflexivity)
              (one_appointment_ends_in_range scheduled Examples.ten_oclock
                 ltac:(reflexivity)) ltac:(reflexivity)) as [Ha _].
  apply Ha. split.
  - split; [by_compute |]. split; [by_compute |]. exists 6%nat. reflexivity.
  - intros j a' Hne Hj. exfalso. apply Hne.
    unfold Examples.one_appointment in Hj.
    cbn [AppointmentManager.appointments] in Hj.
    apply lookup_singleton_Some in Hj as [<- _]. reflexivity.
Defined.
(** ** Store writes and the reads that follow them *)

(** X6.  Marking the reminder of an existing session succeeds and takes that
    session, and no other, out of [get_sessions_needing_reminders]; the flag
    is one-way, so marking it again changes nothing. *)
Theorem mark_reminder_sent_removes_from_queue
    (st : SessionManager.store) (id : doc_id) (s : SessionManager.session)
    (utcnow hours_ahead : Z) (d : doc_id * SessionManager.session) :
  SessionManager.sessions st !! id = Some s ->
  let r := SessionManager.mark_reminder_sent st id in
  r.1 = true
  /\ (d ∈ SessionManager.get_sessions_needing_reminders r.2 utcnow hours_ahead
      <-> d ∈ SessionManager.get_sessions_needing_reminders st utcnow hours_ahead
          /\ d.1 <> id)
  /\ SessionManager.mark_reminder_sent r.2 id = (true, r.2).
Proof.
  intros Hid r. subst r.
  unfold SessionManager.mark_reminder_sent, SessionManager.update_session.
  rewrite Hid. cbn [fst snd SessionManager.sessions SessionManager.clients].
  split; [reflexivity |]. split.
  - destruct d as [j s']. rewrite !needing_reminders_iff.
    cbn [fst SessionManager.sessions].
    destruct (decide (j = id)) as [-> | Hne].
    + rewrite lookup_insert_eq. split.
      * intros (_ & Hj & _ & Hflag & _). injection Hj as <-.
        discriminate Hflag.
      * intros [_ Hne]. congruence.
    + rewrite lookup_insert_ne by congruence. tauto.
  - rewrite lookup_insert_eq. f_equal. f_equal.
    rewrite insert_insert_eq. reflexivity.
Qed.

Lemma mark_reminder_sent_removes_from_queue_witness :
  (0%nat, Examples.reminder_session 0%nat
            (Examples.utcnow0 + timedelta_hours 23) false)
    ∉ SessionManager.get_sessions_needing_reminders
        (SessionManager.mark_reminder_sent Examples.reminder_store 0%nat).2
        Examples.utcnow0 24.
Proof.
  intros Hin.
  apply (mark_reminder_sent_removes_from_queue Examples.reminder_store 0%nat
           (Examples.reminder_session 0%nat
              (Examples.utcnow0 + timedelta_hours 23) false)
           Examples.utcnow0 24 _ eq_refl) in Hin as [_ Hne].
  apply Hne. reflexivity.
Defined.

(** X7.  For a client on file, [update_client_sessions_remaining] succeeds
    and [get_client_sessions_remaining] then returns the value written; the
    other balances, the client's name and phone, and the sessions are
    untouched.  For an id that is not on file the update fails, writes
    nothing, and the balance reads 0. *)
Theorem sessions_remaining_write_then_read
    (st : SessionManager.store) (id other : doc_id) (n : Z) :
  let r := SessionManager.update_client_sessions_remaining st id n in
  (forall c,
     SessionManager.clients st !! id = Some c ->
     r.1 = true
     /\ SessionManager.get_client_sessions_remaining r.2 id = n
     /\ (other <> id ->
         SessionManager.get_client_sessions_remaining r.2 other
         = SessionManager.get_client_sessions_remaining st other)
     /\ (exists c', SessionManager.clients r.2 !! id = Some c'
           /\ SessionManager.name c' = SessionManager.name c
           /\ SessionManager.phone c' = SessionManager.phone c)
     /\ SessionManager.sessions r.2 = SessionManager.sessions st)
  /\ (SessionManager.clients st !! id = None ->
      r = (false, st)
      /\ SessionManager.get_client_sessions_remaining st id = 0).
Proof.
  intros r. subst r.
  unfold SessionManager.update_client_sessions_remaining,
    SessionManager.get_client_sessions_remaining,
    SessionManager.get_client_by_id.
  split.
  - intros c Hc. rewrite Hc. cbn [fst snd SessionManager.clients].
    split; [reflexivity |]. split; [rewrite lookup_insert_eq; reflexivity |].
    split; [intros Hne; rewrite lookup_insert_ne by congruence; reflexivity |].
    split; [| reflexivity].
    exists (SessionManager.with_sessions_remaining n c).
    rewrite lookup_insert_eq. repeat split.
  - intros Hc. rewrite Hc. split; reflexivity.
Qed.

Lemma sessions_remaining_write_then_read_witness :
  SessionManager.get_client_sessions_remaining
    (SessionManager.update_client_sessions_remaining
       Examples.booking_store 0%nat 7).2 0%nat = 7
  /\ SessionManager.update_client_sessions_remaining
       Examples.booking_store 5%nat 7 = (false, Examples.booking_store).
Proof.
  destruct (sessions_remaining_write_then_read Examples.booking_store
              0%nat 1%nat 7) as [Hsome _].
  destruct (sessions_remaining_write_then_read Examples.booking_store
              5%nat 1%nat 7) as [_ Hnone].
  split.
  - destruct (Hsome (Examples.client_with "jane smith" "555-123-4567" 2) eq_refl)
      as (_ & Hread & _). exact Hread.
  - apply Hnone. reflexivity.
Defined.

(** X8.  [create_session] never overwrites: the documents already stored are
    unchanged and the new one is found under the returned id.  From then on
    the new session is busy: on a day whose midnights are datetimes and for
    a positive duration, the slots of its trainer are the slots there were
    before that the new session lets through, which on its own day are, for
    an aware date, those that do not conflict with it, and for a naive date
    none: with a naive date the new session takes every slot of its day
    away. *)
Theorem create_session_blocks_its_slot
    (st : SessionManager.store) (client_id : doc_id)
    (client_name trainer loc : string) (session_time session_dur : Z)
    (date : datetime) (dur t : Z) :
  let r := SessionManager.create_session st client_id client_name trainer
             session_time loc session_dur in
  let new := SessionManager.session_data client_id client_name trainer
               session_time loc session_dur in
  (exists session_id,
     r.1 = Some session_id
     /\ SessionManager.sessions st !! session_id = None
     /\ SessionManager.get_session_by_id r.2 session_id = Some new)
  /\ (forall j s, SessionManager.sessions st !! j = Some s ->
                  SessionManager.get_session_by_id r.2 j = Some s)
  /\ SessionManager.clients r.2 = SessionManager.clients st
  /\ (day_in_range date -> 0 < dur -> session_ends_in_range st ->
      in_range session_time (timedelta_minutes session_dur) ->
      (t ∈ SessionManager.get_available_slots r.2 trainer date dur
       <-> t ∈ SessionManager.get_available_slots st trainer date dur
           /\ (on_day (wall date) session_time ->
               tzinfo date <> None
               /\ ~ overlaps t (t + timedelta_minutes dur) session_time
                     (session_time + timedelta_minutes session_dur))))
  /\ (tzinfo date = None -> on_day (wall date) session_time ->
      SessionManager.get_available_slots r.2 trainer date dur = []).
Proof.
  intros r new. subst r.
  unfold SessionManager.create_session, SessionManager.get_session_by_id.
  cbn [fst snd SessionManager.sessions SessionManager.clients].
  set (id := fresh (dom (SessionManager.sessions st))).
  assert (Hfresh : SessionManager.sessions st !! id = None)
    by apply fresh_session_id.
  split; [| split; [| split; [reflexivity | split]]].
  - exists id. split; [reflexivity |]. split; [exact Hfresh |].
    apply lookup_insert_eq.
  - intros j s Hj. rewrite lookup_insert_ne; [exact Hj |]. congruence.
  - intros Hday Hdur Hends Hnew.
    rewrite !session_slots_iff; try assumption.
    + cbn [SessionManager.sessions]. fold new. split.
      * intros [Hhours Hfree]. split; [split; [exact Hhours |] |].
        -- intros j s Hj. apply (Hfree j s).
           rewrite lookup_insert_ne; [exact Hj | congruence].
        -- intros Hon.
           apply (Hfree id new);
             [apply lookup_insert_eq | reflexivity | exact Hon | reflexivity].
      * intros [[Hhours Hfree] Hblock]. split; [exact Hhours |].
        intros j s Hj.
        destruct (decide (j = id)) as [-> | Hne].
        -- rewrite lookup_insert_eq in Hj. injection Hj as <-.
           intros _ Hon _. apply (Hblock Hon).
        -- rewrite lookup_insert_ne in Hj by congruence.
           apply (Hfree j s Hj).
    + intros j s Hj. cbn [SessionManager.sessions] in Hj.
      destruct (decide (j = id)) as [-> | Hne].
      * rewrite lookup_insert_eq in Hj. injection Hj as <-. exact Hnew.
      * rewrite lookup_insert_ne in Hj by congruence. exact (Hends j s Hj).
  - intros Htz Hon.
    apply (session_slots_naive_busy _ _ _ _ id new Htz);
      [apply lookup_insert_eq | reflexivity | exact Hon | reflexivity].
Qed.

(** A first session at 10:00 on an empty day: for the aware date 09:00 is
    still returned and 10:00 no longer is; for the naive date nothing is
    returned any more. *)
Lemma create_session_blocks_its_slot_witness :
  let st' :=
    (SessionManager.create_session Examples.booking_store 0%nat "jane smith"
       "T" Examples.ten_oclock "Gym" 60).2 in
  (Examples.day0 + timedelta_hours 9)
    ∈ SessionManager.get_available_slots st' "T" (aware Examples.day0) 60
  /\ (Examples.ten_oclock
        ∉ SessionManager.get_available_slots st' "T" (aware Examples.day0) 60)
  /\ SessionManager.get_available_slots st' "T" (naive Examples.day0) 60 = [].
Proof.
  intros st'.
  assert (Hends : session_ends_in_range Examples.booking_store).
  { intros j s Hj. cbn [SessionManager.sessions Examples.booking_store] in Hj.
    rewrite lookup_empty in Hj. discriminate. }
  pose proof (create_session_blocks_its_slot Examples.booking_store 0%nat
                "jane smith" "T" "Gym" Examples.ten_oclock 60
                (aware Examples.day0) 60 (Examples.day0 + timedelta_hours 9))
    as (_ & _ & _ & Hnine & _).
  pose proof (create_session_blocks_its_slot Examples.booking_store 0%nat
                "jane smith" "T" "Gym" Examples.ten_oclock 60
                (aware Examples.day0) 60 Examples.ten_oclock)
    as (_ & _ & _ & Hten & _).
  pose proof (create_session_blocks_its_slot Examples.booking_store 0%nat
                "jane smith" "T" "Gym" Examples.ten_oclock 60
                (naive Examples.day0) 60 Examples.ten_oclock)
    as (_ & _ & _ & _ & Hnaive).
  split; [| split].
  - apply Hnine;
      [apply day0_in_range | reflexivity | exact Hends | reflexivity |].
    split; [by_compute |]. intros _. split; [discriminate |].
    unfold overlaps. by_compute.
  - intros Hin.
    apply Hten in Hin as [_ Hblock];
      [| apply day0_in_range | reflexivity | exact Hends | reflexivity].
    destruct Hblock as [_ Hfree]; [unfold on_day; by_compute |].
    apply Hfree. unfold overlaps. by_compute.
  - apply Hnaive; [reflexivity | unfold on_day; by_compute].
Defined.
(** ** Ordered queries *)

Lemma later_first_trans : Transitive SessionManager.later_first.
Proof. intros x y z. unfold SessionManager.later_first. lia. Qed.

Lemma later_first_total : Total SessionManager.later_first.
Proof. intros x y. unfold SessionManager.later_first. lia. Qed.

Lemma earlier_first_trans : Transitive SessionManager.earlier_first.
Proof. intros x y z. unfold SessionManager.earlier_first. lia. Qed.

Lemma earlier_first_total : Total SessionManager.earlier_first.
Proof. intros x y. unfold SessionManager.earlier_first. lia. Qed.

Lemma elem_of_merge_sort {A} (R : relation A) `{!RelDecision R} (l : list A) x :
  x ∈ merge_sort R l <-> x ∈ l.
Proof. rewrite (merge_sort_Permutation R l). reflexivity. Qed.

Lemma sessions_of_client_sorted st client_id :
  StronglySorted SessionManager.later_first
    (merge_sort SessionManager.later_first
       (filter (fun d : doc_id * SessionManager.session =>
                  SessionManager.clientId d.2 = client_id)
               (map_to_list (SessionManager.sessions st)))).
Proof.
  apply (@StronglySorted_merge_sort _ _ _ later_first_trans later_first_total).
Qed.

(** X9.  [get_sessions_for_client] returns sessions of that client only, at
    most [limit] of them, latest first, each once; they are the latest ones:
    a session of the client that is left out is no later than any that is
    returned.  All of the client's sessions are returned when there are no
    more than [limit]. *)
Theorem get_sessions_for_client_latest
    (st : SessionManager.store) (client_id : doc_id) (limit : nat) :
  let result := SessionManager.get_sessions_for_client st client_id limit in
  (forall i s, (i, s) ∈ result ->
     SessionManager.sessions st !! i = Some s
     /\ SessionManager.clientId s = client_id)
  /\ (length result <= limit)%nat
  /\ StronglySorted SessionManager.later_first result
  /\ NoDup result.*1
  /\ (forall i s j s',
        (i, s) ∈ result ->
        SessionManager.sessions st !! j = Some s' ->
        SessionManager.clientId s' = client_id ->
        (j, s') ∉ result ->
        SessionManager.dateTime s' <= SessionManager.dateTime s)
  /\ (forall j s',
        SessionManager.sessions st !! j = Some s' ->
        SessionManager.clientId s' = client_id ->
        (length (filter (fun d : doc_id * SessionManager.session =>
                           SessionManager.clientId d.2 = client_id)
                        (map_to_list (SessionManager.sessions st))) <= limit)%nat ->
        (j, s') ∈ result).
Proof.
  intros result. subst result. unfold SessionManager.get_sessions_for_client.
  set (mine := filter _ _).
  set (sorted := merge_sort SessionManager.later_first mine).
  assert (Hsorted : StronglySorted SessionManager.later_first sorted)
    by apply sessions_of_client_sorted.
  assert (Hmine : forall i s, (i, s) ∈ sorted <->
            SessionManager.sessions st !! i = Some s
            /\ SessionManager.clientId s = client_id).
  { intros i s. unfold sorted. rewrite elem_of_merge_sort. unfold mine.
    rewrite list_elem_of_filter, elem_of_map_to_list. cbn [snd]. tauto. }
  assert (Hsplit : take limit sorted ++ drop limit sorted = sorted)
    by apply take_drop.
  split; [| split; [| split; [| split; [| split]]]].
  - intros i s Hin. apply Hmine.
    rewrite <- Hsplit. apply elem_of_app. left. exact Hin.
  - rewrite length_take. lia.
  - rewrite <- Hsplit in Hsorted. apply (StronglySorted_app_1_l _ _ _ Hsorted).
  - assert (Hnd : NoDup sorted.*1).
    { unfold sorted. rewrite (merge_sort_Permutation _ mine). unfold mine.
      apply (sublist_NoDup _ (map_to_list (SessionManager.sessions st)).*1);
        [apply NoDup_fst_map_to_list |].
      apply fmap_sublist, sublist_filter. }
    rewrite <- Hsplit, fmap_app in Hnd. apply NoDup_app in Hnd. apply Hnd.
  - intros i s j s' Hin Hj Hc Hout.
    assert (Hrest : (j, s') ∈ drop limit sorted).
    { assert (Hs : (j, s') ∈ sorted) by (apply Hmine; split; assumption).
      rewrite <- Hsplit in Hs. apply elem_of_app in Hs as [Hs | Hs];
        [contradiction | exact Hs]. }
    rewrite <- Hsplit in Hsorted.
    apply (StronglySorted_app_1_elem_of _ _ _ _ _ Hsorted Hin Hrest).
  - intros j s' Hj Hc Hfew.
    rewrite take_ge; [apply Hmine; split; assumption |].
    unfold sorted. rewrite (merge_sort_Permutation _ mine). exact Hfew.
Qed.

Lemma NoDup_fst_filter {A} (P : doc_id * A -> Prop)
    `{!forall x, Decision (P x)} (l : list (doc_id * A)) :
  NoDup l.*1 -> NoDup (filter P l).*1.
Proof.
  intros Hnd. apply (sublist_NoDup _ l.*1); [exact Hnd |].
  apply fmap_sublist, sublist_filter.
Qed.

Lemma upcoming_sessions_iff st utcnow trainer_id days_ahead i s :
  (i, s) ∈ SessionManager.get_upcoming_sessions st utcnow trainer_id days_ahead
  <-> in_range utcnow (timedelta_days days_ahead)
      /\ SessionManager.sessions st !! i = Some s
      /\ utcnow <= SessionManager.dateTime s <= utcnow + timedelta_days days_ahead
      /\ match trainer_id with
         | Some t => t = ""%string \/ SessionManager.session_trainerId s = t
         | None => True
         end.
Proof.
  unfold SessionManager.get_upcoming_sessions.
  destruct (in_range_cases utcnow (timedelta_days days_ahead)) as [Hin | Hout].
  - rewrite Hin, elem_of_merge_sort.
    destruct trainer_id as [t |].
    + destruct (String.eqb_spec t "") as [-> | Hne].
      * rewrite list_elem_of_filter, elem_of_map_to_list. cbn [snd]. tauto.
      * rewrite !list_elem_of_filter, elem_of_map_to_list. cbn [snd]. tauto.
    + rewrite list_elem_of_filter, elem_of_map_to_list. cbn [snd]. tauto.
  - rewrite Hout. split; [intros H; inversion H |].
    unfold in_range. rewrite Hout. intros [[=] _].
Qed.

(** X10.  When now plus [days_ahead] days is a [datetime],
    [get_upcoming_sessions] returns, earliest first and each once, exactly
    the stored sessions dated from now to now plus [days_ahead] days, both
    ends included, of the given trainer when a non-empty id is given and of
    every trainer otherwise; when the sum is out of range, it raises and the
    query returns no session.  The status plays no part: a session that is
    returned is still returned, as a cancelled one, after [cancel_session]
    has cancelled it. *)
Theorem get_upcoming_sessions_window
    (st : SessionManager.store) (utcnow : Z) (trainer_id : option string)
    (days_ahead : Z) (i : doc_id) (s : SessionManager.session) :
  (in_range utcnow (timedelta_days days_ahead) ->
   ((i, s) ∈ SessionManager.get_upcoming_sessions st utcnow trainer_id days_ahead
    <-> SessionManager.sessions st !! i = Some s
        /\ utcnow <= SessionManager.dateTime s
           <= utcnow + timedelta_days days_ahead
        /\ match trainer_id with
           | Some t => t = ""%string \/ SessionManager.session_trainerId s = t
           | None => True
           end))
  /\ (~ in_range utcnow (timedelta_days days_ahead) ->
      SessionManager.get_upcoming_sessions st utcnow trainer_id days_ahead = [])
  /\ StronglySorted SessionManager.earlier_first
       (SessionManager.get_upcoming_sessions st utcnow trainer_id days_ahead)
  /\ NoDup (SessionManager.get_upcoming_sessions st utcnow trainer_id
              days_ahead).*1
  /\ ((i, s) ∈ SessionManager.get_upcoming_sessions st utcnow trainer_id
                 days_ahead ->
      exists s',
        (i, s') ∈ SessionManager.get_upcoming_sessions
                    (SessionManager.cancel_session st i).2 utcnow trainer_id
                    days_ahead
        /\ SessionManager.session_status s' = cancelled
        /\ SessionManager.dateTime s' = SessionManager.dateTime s).
Proof.
  split; [intros Hrange; rewrite upcoming_sessions_iff; tauto |].
  split; [| split; [| split]].
  - intros Hout. unfold SessionManager.get_upcoming_sessions.
    destruct (in_range_cases utcnow (timedelta_days days_ahead)) as [Hin | ->];
      [contradiction | reflexivity].
  - unfold SessionManager.get_upcoming_sessions.
    destruct (datetime_add _ _); [| constructor].
    apply (@StronglySorted_merge_sort _ _ _ earlier_first_trans
             earlier_first_total).
  - unfold SessionManager.get_upcoming_sessions.
    destruct (datetime_add _ _); [| constructor].
    rewrite merge_sort_Permutation.
    destruct trainer_id as [t |]; [destruct (String.eqb t "") |];
      repeat apply NoDup_fst_filter; apply NoDup_fst_map_to_list.
  - intros Hin. apply upcoming_sessions_iff in Hin as (Hrange & Hi & Hw & Ht).
    unfold SessionManager.cancel_session, SessionManager.update_session_status,
      SessionManager.update_session.
    rewrite Hi. cbn [snd]. eexists. split; [| split].
    + apply upcoming_sessions_iff. split; [exact Hrange |].
      cbn [SessionManager.sessions]. split; [apply lookup_insert_eq |].
      cbn [SessionManager.dateTime SessionManager.session_trainerId].
      split; assumption.
    + reflexivity.
    + reflexivity.
Qed.

(** The session at 10:00 of day 20000, read at 08:00: it is returned for a
    window of 7 days, and no session is for one of 4000000 days. *)
Lemma get_upcoming_sessions_window_witness :
  (0%nat, Examples.session_at Examples.ten_oclock scheduled)
    ∈ SessionManager.get_upcoming_sessions (Examples.one_session scheduled)
        Examples.utcnow0 None 7
  /\ SessionManager.get_upcoming_sessions (Examples.one_session scheduled)
       Examples.utcnow0 None 4000000 = [].
Proof.
  pose proof (get_upcoming_sessions_window (Examples.one_session scheduled)
                Examples.utcnow0 None 7 0%nat
                (Examples.session_at Examples.ten_oclock scheduled))
    as (Hwindow & _).
  pose proof (get_upcoming_sessions_window (Examples.one_session scheduled)
                Examples.utcnow0 None 4000000 0%nat
                (Examples.session_at Examples.ten_oclock scheduled))
    as (_ & Hout & _).
  split.
  - apply Hwindow; [reflexivity |].
    split; [reflexivity |]. split; [| exact I].
    cbn [SessionManager.dateTime Examples.session_at]. split; by_compute.
  - apply Hout. unfold in_range. vm_compute. discriminate.
Defined.
(** ** The extractors and the dialogue *)

Section Keywords.

Lemma starts_with_inv (w s : list ascii) :
  starts_with w s = true -> exists post, s = w ++ post.
Proof.
  revert s. induction w as [| c w IH]; intros s H.
  - exists s. reflexivity.
  - destruct s as [| c' s]; [discriminate |]. simpl in H.
    destruct (Ascii.eqb_spec c c') as [<- |]; [| discriminate].
    destruct (IH s H) as [post ->]. exists post. reflexivity.
Qed.

Lemma contains_inv (w s : list ascii) :
  contains w s = true -> exists pre post, s = pre ++ w ++ post.
Proof.
  induction s as [| c s IH]; rewrite contains_unfold; intros H.
  - apply orb_true_iff in H as [H | H]; [| discriminate].
    apply starts_with_inv in H as [post ->]. exists [], post. reflexivity.
  - apply orb_true_iff in H as [H | H].
    + apply starts_with_inv in H as [post ->]. exists [], post. reflexivity.
    + destruct (IH H) as (pre & post & ->). exists (c :: pre), post. reflexivity.
Qed.

(** A text that contains a word contains every piece of that word. *)
Lemma contains_piece (a w b s : list ascii) :
  contains (a ++ w ++ b) s = true -> contains w s = true.
Proof.
  intros H. apply contains_inv in H as (pre & post & ->).
  replace (pre ++ (a ++ w ++ b) ++ post) with ((pre ++ a) ++ w ++ (b ++ post))
    by (rewrite <- !app_assoc; reflexivity).
  apply contains_app.
Qed.

Lemma any_word_in_cons (word : string) (words : list string) s :
  any_word_in (word :: words) s = contains (chars word) s || any_word_in words s.
Proof. reflexivity. Qed.

End Keywords.

(** X11.  In both extractors the keyword "reschedule" never selects the
    reschedule intent: the schedule keywords are tested first and "schedule"
    is part of "reschedule", so an utterance with "reschedule" in it is a
    schedule request.  The reschedule intent is reached only through
    "change" or "move".  Likewise "sessions left" never selects the
    remaining-sessions intent, which is reached only through "remaining" or
    "how many". *)
Theorem reschedule_keyword_is_shadowed (message pre post : string) :
  info_intent (SessionSchedulingAgent.extract_session_intent
                 (pre ++ "reschedule" ++ post)%string) = schedule
  /\ info_intent (AppointmentSchedulingAgent.extract_appointment_intent
                    (pre ++ "reschedule" ++ post)%string) = schedule
  /\ info_intent (SessionSchedulingAgent.extract_session_intent
                    (pre ++ "sessions left" ++ post)%string) = schedule
  /\ (info_intent (SessionSchedulingAgent.extract_session_intent message)
      = reschedule ->
      any_word_in ["change"; "move"] (lower (chars message)) = true)
  /\ (info_intent (AppointmentSchedulingAgent.extract_appointment_intent message)
      = reschedule ->
      any_word_in ["change"; "move"] (lower (chars message)) = true)
  /\ (info_intent (SessionSchedulingAgent.extract_session_intent message)
      = check_remaining ->
      any_word_in ["remaining"; "how many"] (lower (chars message)) = true).
Proof.
  assert (Hre : forall words, In "schedule"%string words ->
            any_word_in words
              (lower (chars (pre ++ "reschedule" ++ post)%string)) = true).
  { intros words Hin. unfold any_word_in. apply existsb_exists.
    exists "schedule"%string. split; [exact Hin |].
    apply (contains_piece (chars "re") _ []).
    rewrite !chars_app. unfold lower. rewrite !map_app. apply contains_app. }
  assert (Hleft : any_word_in ["schedule"; "book"; "session"; "training"]
            (lower (chars (pre ++ "sessions left" ++ post)%string)) = true).
  { unfold any_word_in. apply existsb_exists.
    exists "session"%string. split; [simpl; tauto |].
    apply (contains_piece [] _ (chars "s left")).
    rewrite !chars_app. unfold lower. rewrite !map_app. apply contains_app. }
  unfold SessionSchedulingAgent.extract_session_intent,
    AppointmentSchedulingAgent.extract_appointment_intent, extract_fields.
  cbv beta zeta. cbn [info_intent].
  split; [rewrite Hre by (simpl; tauto); reflexivity |].
  split; [rewrite Hre by (simpl; tauto); reflexivity |].
  split; [rewrite Hleft; reflexivity |].
  set (low := lower (chars message)).
  assert (Hsched : forall words,
            In "schedule"%string words -> any_word_in words low = false ->
            contains (chars "reschedule") low = false).
  { intros words Hin Hnone.
    destruct (contains (chars "reschedule") low) eqn:Hc; [| reflexivity].
    apply (contains_piece (chars "re") (chars "schedule") []) in Hc.
    assert (any_word_in words low = true); [| congruence].
    unfold any_word_in. apply existsb_exists. exists "schedule"%string.
    split; assumption. }
  assert (Hsess : any_word_in ["schedule"; "book"; "session"; "training"] low
                  = false ->
                  contains (chars "sessions left") low = false).
  { intros Hnone.
    destruct (contains (chars "sessions left") low) eqn:Hc; [| reflexivity].
    apply (contains_piece [] (chars "session") (chars "s left")) in Hc.
    assert (any_word_in ["schedule"; "book"; "session"; "training"] low = true);
      [| congruence].
    unfold any_word_in. apply existsb_exists. exists "session"%string.
    split; [simpl; tauto | exact Hc]. }
  split; [| split].
  - destruct (any_word_in ["schedule"; "book"; "session"; "training"] low)
      eqn:H1; [discriminate |].
    rewrite (any_word_in_cons "reschedule").
    rewrite (Hsched ["schedule"; "book"; "session"; "training"]%string
               (or_introl eq_refl) H1). cbn [orb].
    destruct (any_word_in ["change"; "move"] low); [reflexivity |].
    repeat (destruct (any_word_in _ low); try discriminate).
  - destruct (any_word_in ["schedule"; "book"; "appointment"; "session"] low)
      eqn:H1; [discriminate |].
    rewrite (any_word_in_cons "reschedule").
    rewrite (Hsched ["schedule"; "book"; "appointment"; "session"]%string
               (or_introl eq_refl) H1). cbn [orb].
    destruct (any_word_in ["change"; "move"] low); [reflexivity |].
    repeat (destruct (any_word_in _ low); try discriminate).
  - destruct (any_word_in ["schedule"; "book"; "session"; "training"] low)
      eqn:H1; [discriminate |].
    destruct (any_word_in ["reschedule"; "change"; "move"] low);
      [discriminate |].
    destruct (any_word_in ["cancel"; "remove"] low); [discriminate |].
    destruct (any_word_in ["available"; "availability"; "free"] low);
      [discriminate |].
    rewrite (any_word_in_cons "remaining"),
      (any_word_in_cons "sessions left" ["how many"]).
    rewrite (Hsess eq_refl). cbn [orb].
    rewrite (any_word_in_cons "remaining" ["how many"]).
    destruct (contains (chars "remaining") low); [reflexivity |].
    cbn [orb]. destruct (any_word_in ["how many"] low);
      [reflexivity | discriminate].
Qed.

(** "Can we move my workout" is a reschedule request, through "move". *)
Lemma reschedule_keyword_is_shadowed_witness :
  any_word_in ["change"; "move"] (lower (chars "Can we move my workout")) = true
  /\ any_word_in ["remaining"; "how many"]
       (lower (chars "How many do I have")) = true.
Proof.
  destruct (reschedule_keyword_is_shadowed "Can we move my workout" "" "")
    as (_ & _ & _ & Hs & Ha & _).
  destruct (reschedule_keyword_is_shadowed "How many do I have" "" "")
    as (_ & _ & _ & _ & _ & Hr).
  split; [apply Hs; vm_compute; reflexivity | apply Hr; vm_compute; reflexivity].
Defined.

(** ** The schedule handler, turn by turn *)

Section ScheduleHandler.

Lemma prompt_for_missing_fields (context : gmap string string) :
  prompt_for (missing_fields context)
  = match context !! "name", context !! "phone",
          context !! "date", context !! "time" with
    | None, _, _, _ => Some ask_name
    | Some _, None, _, _ => Some ask_phone
    | Some _, Some _, None, _ => Some ask_date
    | Some _, Some _, Some _, None => Some ask_time
    | Some _, Some _, Some _, Some _ => None
    end.
Proof.
  unfold missing_fields, required_fields.
  rewrite !filter_cons, filter_nil.
  destruct (context !! "name"), (context !! "phone"),
    (context !! "date"), (context !! "time");
    repeat (rewrite decide_True by reflexivity
            || rewrite decide_False by discriminate);
    reflexivity.
Qed.

Lemma prompt_is_not_confirmation missing prompt dt n :
  prompt_for missing = Some prompt -> prompt <> session_scheduled dt n.
Proof.
  unfold prompt_for. destruct missing; [discriminate |].
  repeat (destruct (in_list _ _); [intros [= <-]; discriminate |]).
  discriminate.
Qed.

(** A confirmation comes from a complete, readable draft of a client on
    file with a positive balance, and fixes the agent after the turn. *)
Lemma handle_schedule_request_confirmed env a info cid dt n :
  (SessionSchedulingAgent.handle_schedule_request env a info cid).1
  = session_scheduled dt n ->
  exists nm ph id c,
    read_draft env (merged_context a cid info) = Some (dt, ph, nm)
    /\ SessionManager.get_client_by_phone
         (SessionSchedulingAgent.session_manager a) ph = Some (id, c)
    /\ 0 < balance (SessionSchedulingAgent.session_manager a) id
    /\ n = balance (SessionSchedulingAgent.session_manager a) id - 1
    /\ (SessionSchedulingAgent.handle_schedule_request env a info cid).2
       = {| SessionSchedulingAgent.session_manager :=
              {| SessionManager.clients :=
                   <[id := SessionManager.with_sessions_remaining n c]>
                     (SessionManager.clients
                        (SessionSchedulingAgent.session_manager a));
                 SessionManager.sessions :=
                   <[fresh (dom (SessionManager.sessions
                                   (SessionSchedulingAgent.session_manager a))) :=
                       SessionManager.session_data id nm
                         SessionSchedulingAgent.default_trainer_id dt "Gym" 60]>
                     (SessionManager.sessions
                        (SessionSchedulingAgent.session_manager a)) |};
            SessionSchedulingAgent.conversation_context :=
              <[cid := ∅]>
                (<[cid := merged_context a cid info]>
                   (SessionSchedulingAgent.conversation_context a)) |}.
Proof.
  destruct (prompt_for (missing_fields (merged_context a cid info)))
    as [prompt |] eqn:Hprompt.
  { rewrite (handle_schedule_request_prompt _ _ _ _ _ Hprompt). simpl.
    intros H. exfalso. exact (prompt_is_not_confirmation _ _ _ _ Hprompt H). }
  destruct (read_draft env (merged_context a cid info))
    as [[[dt' ph] nm] |] eqn:Hdraft.
  2:{ unfold SessionSchedulingAgent.handle_schedule_request.
      fold (merged_context a cid info). rewrite Hprompt, Hdraft.
      discriminate. }
  rewrite (handle_schedule_request_ready _ _ _ _ _ _ _ Hprompt Hdraft).
  cbn [fst snd].
  destruct (SessionManager.get_client_by_phone
              (SessionSchedulingAgent.session_manager a) ph)
    as [[id c] |] eqn:Hph.
  2:{ rewrite (book_session_unknown _ _ _ _ Hph). discriminate. }
  rewrite (book_session_known _ _ _ _ _ _ Hph).
  destruct (Z.leb_spec (balance (SessionSchedulingAgent.session_manager a) id) 0)
    as [Hle | Hgt]; [discriminate |].
  cbn [fst snd SessionSchedulingAgent.is_scheduled].
  intros [= <- <-]. exists nm, ph, id, c.
  repeat split; try assumption; reflexivity.
Qed.

Lemma get_client_by_phone_unique st ph id c :
  phones_unique st ->
  SessionManager.clients st !! id = Some c ->
  SessionManager.phone c = ph ->
  SessionManager.get_client_by_phone st ph = Some (id, c).
Proof.
  intros Huniq Hid Hph.
  destruct (SessionManager.get_client_by_phone st ph) as [[j d] |] eqn:Hget.
  - apply get_client_by_phone_Some in Hget as [Hj Hd]. simpl in Hj, Hd.
    assert (j = id) as -> by (apply (Huniq j id d c Hj Hid); congruence).
    congruence.
  - exfalso. exact (get_client_by_phone_None _ _ Hget _ _ Hid Hph).
Qed.

Lemma phones_unique_update st id c c' ss :
  phones_unique st ->
  SessionManager.clients st !! id = Some c ->
  SessionManager.phone c' = SessionManager.phone c ->
  phones_unique {| SessionManager.clients := <[id := c']> (SessionManager.clients st);
                   SessionManager.sessions := ss |}.
Proof.
  intros Huniq Hid Hph i j x y. simpl.
  rewrite !lookup_insert.
  destruct (decide (id = i)) as [<- |], (decide (id = j)) as [<- |];
    simpl; intros Hi Hj Heq; simplify_eq; try reflexivity.
  - apply (Huniq id j c y Hid Hj). congruence.
  - apply (Huniq i id x c Hi Hid). congruence.
  - apply (Huniq i j x y Hi Hj Heq).
Qed.

Lemma book_session_phones_unique st nm ph dt :
  phones_unique st ->
  phones_unique (SessionSchedulingAgent.book_session st nm ph dt).2.
Proof.
  intros Huniq.
  destruct (SessionManager.get_client_by_phone st ph) as [[id c] |] eqn:Hph.
  - rewrite (book_session_known _ _ _ _ _ _ Hph).
    destruct (balance st id <=? 0); [exact Huniq |]. cbn [snd].
    apply get_client_by_phone_Some in Hph as [Hid _]. simpl in Hid.
    apply (phones_unique_update st id c); [exact Huniq | exact Hid | reflexivity].
  - rewrite (book_session_unknown _ _ _ _ Hph). cbn [snd].
    intros i j x y. simpl. rewrite !lookup_insert.
    destruct (decide (fresh (dom (SessionManager.clients st)) = i)) as [<- |],
      (decide (fresh (dom (SessionManager.clients st)) = j)) as [<- |];
      simpl; intros Hi Hj Heq; simplify_eq; try reflexivity.
    + exfalso. apply (get_client_by_phone_None _ _ Hph _ _ Hj).
      simpl in Heq. congruence.
    + exfalso. apply (get_client_by_phone_None _ _ Hph _ _ Hi).
      simpl in Heq. congruence.
    + apply (Huniq i j x y Hi Hj Heq).
Qed.

Lemma process_scheduling_request_phones_unique env a info cid :
  phones_unique (SessionSchedulingAgent.session_manager a) ->
  phones_unique
    (SessionSchedulingAgent.session_manager
       (SessionSchedulingAgent.process_scheduling_request env a info cid).2).
Proof.
  intros Ha. unfold SessionSchedulingAgent.process_scheduling_request.
  destruct (info_intent info); simpl; try exact Ha.
  destruct (handle_schedule_request_store env a info cid)
    as [-> | (nm & ph & dt & ->)]; [exact Ha |].
  apply book_session_phones_unique, Ha.
Qed.

End ScheduleHandler.

Section Growth.

Lemma grows_from_refl st : grows_from st st.
Proof.
  split; [| split]; [auto | | intros; lia].
  intros j c Hj. exists c. repeat split. exact Hj.
Qed.

Lemma grows_from_trans st1 st2 st3 :
  grows_from st1 st2 -> grows_from st2 st3 -> grows_from st1 st3.
Proof.
  intros (Hs1 & Hc1 & Hb1) (Hs2 & Hc2 & Hb2). split; [| split].
  - auto.
  - intros j c Hj.
    destruct (Hc1 j c Hj) as (c' & Hj' & Hn & Hp & Ht & Hk).
    destruct (Hc2 j c' Hj') as (c'' & Hj'' & Hn' & Hp' & Ht' & Hk').
    exists c''. repeat split; congruence.
  - intros j. specialize (Hb1 j). specialize (Hb2 j). lia.
Qed.

Lemma book_session_grows st nm ph dt :
  grows_from st (SessionSchedulingAgent.book_session st nm ph dt).2.
Proof.
  destruct (SessionManager.get_client_by_phone st ph) as [[id c] |] eqn:Hph.
  - rewrite (book_session_known _ _ _ _ _ _ Hph).
    destruct (Z.leb_spec (balance st id) 0) as [Hle | Hgt];
      [apply grows_from_refl |].
    cbn [snd]. apply get_client_by_phone_Some in Hph as [Hid _]. simpl in Hid.
    split; [| split]; simpl.
    + intros i s Hi. rewrite lookup_insert_ne; [exact Hi |].
      intros <-. rewrite fresh_session_id in Hi. discriminate.
    + intros j d Hj. destruct (decide (id = j)) as [<- | Hne].
      * rewrite lookup_insert_eq. eexists. split; [reflexivity |].
        assert (d = c) as -> by congruence. repeat split.
      * rewrite lookup_insert_ne by exact Hne. exists d. repeat split. exact Hj.
    + intros j. rewrite balance_insert.
      destruct (decide (id = j)) as [<- |]; simpl; lia.
  - rewrite (book_session_unknown _ _ _ _ Hph). cbn [snd].
    split; [| split]; simpl.
    + auto.
    + intros j d Hj. rewrite lookup_insert_ne.
      * exists d. repeat split. exact Hj.
      * intros <-. rewrite fresh_client_id in Hj. discriminate.
    + intros j. rewrite balance_insert.
      destruct (decide _) as [<- |]; [| lia]. simpl.
      unfold balance, SessionManager.get_client_sessions_remaining,
        SessionManager.get_client_by_id.
      rewrite fresh_client_id. lia.
Qed.

Lemma process_scheduling_request_grows env a info cid :
  grows_from (SessionSchedulingAgent.session_manager a)
    (SessionSchedulingAgent.session_manager
       (SessionSchedulingAgent.process_scheduling_request env a info cid).2).
Proof.
  unfold SessionSchedulingAgent.process_scheduling_request.
  destruct (info_intent info); simpl; try apply grows_from_refl.
  destruct (handle_schedule_request_store env a info cid)
    as [-> | (nm & ph & dt & ->)]; [apply grows_from_refl |].
  apply book_session_grows.
Qed.

End Growth.

(** X12.  Over any sequence of requests the dialogue only adds to the store:
    every session stays as it was stored (none is removed, moved or
    cancelled), every client keeps name, phone number, trainer and package
    size, and no balance goes up. *)
Theorem run_requests_only_adds
    (requests : list (environment * extracted_info * string))
    (a : SessionSchedulingAgent.agent) :
  grows_from (SessionSchedulingAgent.session_manager a)
    (SessionSchedulingAgent.session_manager
       (SessionSchedulingAgent.run_requests a requests)).
Proof.
  revert a. induction requests as [| [[env info] cid] requests IH]; intros a.
  - apply grows_from_refl.
  - simpl. eapply grows_from_trans; [| apply IH].
    apply process_scheduling_request_grows.
Qed.

(** X13.  The dialogue keeps phone numbers unique: a client is created only
    for a number that no client has, so over any sequence of requests a
    store in which no two clients share a number stays one. *)
Theorem run_requests_keeps_phones_unique
    (requests : list (environment * extracted_info * string))
    (a : SessionSchedulingAgent.agent)
    (Huniq : phones_unique (SessionSchedulingAgent.session_manager a)) :
  phones_unique
    (SessionSchedulingAgent.session_manager
       (SessionSchedulingAgent.run_requests a requests)).
Proof.
  revert a Huniq.
  induction requests as [| [[env info] cid] requests IH]; intros a Ha; simpl;
    [exact Ha |].
  apply IH, process_scheduling_request_phones_unique, Ha.
Qed.

Lemma booking_store_phones_unique : phones_unique Examples.booking_store.
Proof.
  intros i j c d Hi Hj _. unfold Examples.booking_store in *. simpl in *.
  apply lookup_singleton_Some in Hi as [<- _].
  apply lookup_singleton_Some in Hj as [<- _]. reflexivity.
Qed.

(** Two full requests from Jane Smith's number and one from a new number. *)
Lemma run_requests_keeps_phones_unique_witness :
  phones_unique
    (SessionSchedulingAgent.session_manager
       (SessionSchedulingAgent.run_requests Examples.booking_agent
          [(Examples.env0, Examples.full_request, "call-1"%string);
           (Examples.env0,
            {| info_intent := schedule; info_dates := ["tomorrow"%string];
               info_times := ["2pm"%string];
               info_phone := Some "555-999-0000"%string;
               info_name := Some "bob"%string |}, "call-2"%string);
           (Examples.env0, Examples.full_request, "call-3"%string)])).
Proof.
  apply run_requests_keeps_phones_unique. exact booking_store_phones_unique.
Defined.

(** X14.  After a confirmed booking that reports [n] sessions left, and with
    phone numbers unique, a balance inquiry from the same number reports [n],
    and the next booking from that number is confirmed with [n - 1] left when
    [n] is positive and refused when [n] is 0. *)
Theorem booking_counts_the_package_down
    (st : SessionManager.store) (nm ph : string) (dt n : Z)
    (Huniq : phones_unique st)
    (Hbooked : (SessionSchedulingAgent.book_session st nm ph dt).1
               = session_scheduled dt n) :
  let st' := (SessionSchedulingAgent.book_session st nm ph dt).2 in
  0 <= n
  /\ (forall cc info,
        info_phone info = Some ph -> truthy ph = true ->
        SessionSchedulingAgent.handle_remaining_sessions_request
          {| SessionSchedulingAgent.session_manager := st';
             SessionSchedulingAgent.conversation_context := cc |} info
        = remaining_sessions n)
  /\ (forall nm2 dt2,
        (SessionSchedulingAgent.book_session st' nm2 ph dt2).1
        = if n <=? 0 then no_remaining_sessions
          else session_scheduled dt2 (n - 1)).
Proof.
  intros st'. subst st'.
  destruct (SessionManager.get_client_by_phone st ph) as [[id c] |] eqn:Hph.
  2:{ rewrite (book_session_unknown _ _ _ _ Hph) in Hbooked. discriminate. }
  pose proof (get_client_by_phone_Some _ _ _ Hph) as [Hid Hphone].
  simpl in Hid, Hphone.
  rewrite (book_session_known _ _ _ _ _ _ Hph) in Hbooked |- *.
  destruct (Z.leb_spec (balance st id) 0) as [Hle | Hgt]; [discriminate |].
  cbn [fst snd] in Hbooked |- *. injection Hbooked as <-.
  set (c' := SessionManager.with_sessions_remaining (balance st id - 1) c).
  set (st' := {| SessionManager.clients := <[id := c']> (SessionManager.clients st);
                 SessionManager.sessions := _ |}).
  assert (Hget : SessionManager.get_client_by_phone st' ph = Some (id, c')).
  { apply get_client_by_phone_unique.
    - apply (phones_unique_update st id c); [exact Huniq | exact Hid | reflexivity].
    - simpl. apply lookup_insert_eq.
    - exact Hphone. }
  assert (Hbal : balance st' id = balance st id - 1).
  { unfold st'. rewrite balance_insert, decide_True by reflexivity.
    reflexivity. }
  split; [lia |]. split.
  - intros cc info Hinfo Htruthy.
    unfold SessionSchedulingAgent.handle_remaining_sessions_request.
    rewrite Hinfo, Htruthy. cbn [SessionSchedulingAgent.session_manager].
    rewrite Hget. cbn [fst]. f_equal. exact Hbal.
  - intros nm2 dt2. rewrite (book_session_known _ _ _ _ _ _ Hget), Hbal.
    destruct (balance st id - 1 <=? 0); reflexivity.
Qed.

(** Jane Smith has two sessions left; her first booking leaves one. *)
Lemma booking_counts_the_package_down_witness :
  0 <= 1
  /\ (forall cc info,
        info_phone info = Some "555-123-4567"%string ->
        truthy "555-123-4567" = true ->
        SessionSchedulingAgent.handle_remaining_sessions_request
          {| SessionSchedulingAgent.session_manager :=
               (SessionSchedulingAgent.book_session Examples.booking_store
                  "jane smith" "555-123-4567" Examples.ten_oclock).2;
             SessionSchedulingAgent.conversation_context := cc |} info
        = remaining_sessions 1)
  /\ (forall nm2 dt2,
        (SessionSchedulingAgent.book_session
           (SessionSchedulingAgent.book_session Examples.booking_store
              "jane smith" "555-123-4567" Examples.ten_oclock).2
           nm2 "555-123-4567" dt2).1
        = if 1 <=? 0 then no_remaining_sessions
          else session_scheduled dt2 (1 - 1)).
Proof.
  apply (booking_counts_the_package_down Examples.booking_store
           "jane smith" "555-123-4567" Examples.ten_oclock 1).
  - exact booking_store_phones_unique.
  - vm_compute. reflexivity.
Defined.

Section Drafts.

Lemma read_draft_complete env context dt ph nm :
  read_draft env context = Some (dt, ph, nm) ->
  prompt_for (missing_fields context) = None.
Proof.
  intros H. rewrite prompt_for_missing_fields.
  destruct (read_draft_fields _ _ _ _ _ H) as [-> ->].
  unfold read_draft in H.
  destruct (context !! "date"); [| discriminate].
  destruct (context !! "time"); [| discriminate]. reflexivity.
Qed.

Lemma read_draft_unreadable env context d t :
  context !! "date" = Some d -> context !! "time" = Some t ->
  resolve_datetime env d t = None ->
  read_draft env context = None.
Proof.
  intros Hd Ht Hnone. unfold read_draft. rewrite Hd, Ht.
  cbn [mbind option_bind]. rewrite Hnone. reflexivity.
Qed.

End Drafts.

(** X15.  The schedule handler asks for one field at a time, in the fixed
    order name, phone, date, time: while the draft (the stored context
    merged with the extraction) lacks a field, the reply is the prompt for
    the first one it lacks, the store is untouched and the merged draft is
    stored under the conversation id; once the draft has all four, the reply
    is none of the four prompts. *)
Theorem schedule_request_asks_first_missing_field
    (env : environment) (a : SessionSchedulingAgent.agent)
    (info : extracted_info) (cid : string) :
  let context := merged_context a cid info in
  let r := SessionSchedulingAgent.handle_schedule_request env a info cid in
  let kept :=
    {| SessionSchedulingAgent.session_manager :=
         SessionSchedulingAgent.session_manager a;
       SessionSchedulingAgent.conversation_context :=
         <[cid := context]> (SessionSchedulingAgent.conversation_context a) |} in
  match context !! "name", context !! "phone",
        context !! "date", context !! "time" with
  | None, _, _, _ => r = (ask_name, kept)
  | Some _, None, _, _ => r = (ask_phone, kept)
  | Some _, Some _, None, _ => r = (ask_date, kept)
  | Some _, Some _, Some _, None => r = (ask_time, kept)
  | Some _, Some _, Some _, Some _ =>
      r.1 <> ask_name /\ r.1 <> ask_phone /\ r.1 <> ask_date /\ r.1 <> ask_time
  end.
Proof.
  intros context r kept. subst context r kept.
  pose proof (prompt_for_missing_fields (merged_context a cid info)) as Hprompt.
  destruct (merged_context a cid info !! "name");
    [| apply handle_schedule_request_prompt, Hprompt].
  destruct (merged_context a cid info !! "phone");
    [| apply handle_schedule_request_prompt, Hprompt].
  destruct (merged_context a cid info !! "date");
    [| apply handle_schedule_request_prompt, Hprompt].
  destruct (merged_context a cid info !! "time");
    [| apply handle_schedule_request_prompt, Hprompt].
  unfold SessionSchedulingAgent.handle_schedule_request.
  fold (merged_context a cid info). rewrite Hprompt.
  destruct (read_draft env (merged_context a cid info)) as [[[dt ph] nm] |];
    [| cbn [fst]; repeat split; discriminate].
  destruct (SessionManager.get_client_by_phone
              (SessionSchedulingAgent.session_manager a) ph)
    as [[id c] |] eqn:Hph.
  - rewrite (book_session_known _ _ _ _ _ _ Hph).
    destruct (_ <=? 0); cbn [fst]; repeat split; discriminate.
  - rewrite (book_session_unknown _ _ _ _ Hph).
    cbn [fst]; repeat split; discriminate.
Qed.

(** X16.  A turn writes to the draft of its own conversation only: in both
    agents the context stored under any other conversation id is what it
    was before the turn, whatever the intent. *)
Theorem process_scheduling_request_other_conversations
    (env : environment) (sa : SessionSchedulingAgent.agent)
    (aa : AppointmentSchedulingAgent.agent) (info : extracted_info)
    (cid other : string) (Hother : other <> cid) :
  SessionSchedulingAgent.conversation_context
    (SessionSchedulingAgent.process_scheduling_request env sa info cid).2
    !! other
  = SessionSchedulingAgent.conversation_context sa !! other
  /\ AppointmentSchedulingAgent.conversation_context
       (AppointmentSchedulingAgent.process_scheduling_request env aa info cid).2
       !! other
     = AppointmentSchedulingAgent.conversation_context aa !! other.
Proof.
  assert (Hne : cid <> other) by congruence.
  split.
  - unfold SessionSchedulingAgent.process_scheduling_request.
    destruct (info_intent info); try reflexivity.
    unfold SessionSchedulingAgent.handle_schedule_request.
    destruct (prompt_for _);
      [cbn [snd SessionSchedulingAgent.conversation_context];
       apply lookup_insert_ne, Hne |].
    destruct (read_draft _ _) as [[[dt ph] nm] |];
      [| cbn [snd SessionSchedulingAgent.conversation_context];
         apply lookup_insert_ne, Hne].
    destruct (SessionSchedulingAgent.book_session _ _ _ _) as [r st].
    cbn [snd SessionSchedulingAgent.conversation_context].
    destruct (SessionSchedulingAgent.is_scheduled r);
      rewrite ?lookup_insert_ne by exact Hne; reflexivity.
  - unfold AppointmentSchedulingAgent.process_scheduling_request.
    destruct (info_intent info); try reflexivity.
    unfold AppointmentSchedulingAgent.handle_schedule_request.
    destruct (prompt_for _);
      [cbn [snd AppointmentSchedulingAgent.conversation_context];
       apply lookup_insert_ne, Hne |].
    destruct (read_draft _ _) as [[[dt ph] nm] |];
      [| cbn [snd AppointmentSchedulingAgent.conversation_context];
         apply lookup_insert_ne, Hne].
    destruct (match AppointmentManager.get_client_by_phone _ _ with
              | Some _ => _ | None => _ end) as [client_id st1].
    destruct (AppointmentManager.create_appointment _ _ _ _ _) as [id st2].
    cbn [snd AppointmentSchedulingAgent.conversation_context].
    rewrite !lookup_insert_ne by exact Hne. reflexivity.
Qed.

(** A caller on "call-2" while "call-1" has a draft with a name in it. *)
Lemma process_scheduling_request_other_conversations_witness :
  SessionSchedulingAgent.conversation_context
    (SessionSchedulingAgent.process_scheduling_request Examples.env0
       {| SessionSchedulingAgent.session_manager := Examples.booking_store;
          SessionSchedulingAgent.conversation_context :=
            {[ "call-1"%string := Examples.draft1 ]} |}
       Examples.full_request "call-2").2 !! "call-1"
  = Some Examples.draft1.
Proof.
  destruct (process_scheduling_request_other_conversations Examples.env0
              {| SessionSchedulingAgent.session_manager := Examples.booking_store;
                 SessionSchedulingAgent.conversation_context :=
                   {[ "call-1"%string := Examples.draft1 ]} |}
              {| AppointmentSchedulingAgent.appointment_manager :=
                   Examples.two_appointments;
                 AppointmentSchedulingAgent.conversation_context := ∅ |}
              Examples.full_request "call-2" "call-1") as [Hs _].
  - discriminate.
  - rewrite Hs. reflexivity.
Defined.

(** X17.  A draft whose date and time cannot be resolved is kept as it is:
    the reply asks for a different format, the store is untouched, the draft
    stays under the conversation id, and every later turn of that
    conversation that brings no new date and no new time gets the same
    reply. *)
Theorem unreadable_draft_is_kept
    (env : environment) (a : SessionSchedulingAgent.agent)
    (info : extracted_info) (cid nm ph d t : string)
    (Hname : merged_context a cid info !! "name" = Some nm)
    (Hphone : merged_context a cid info !! "phone" = Some ph)
    (Hdate : merged_context a cid info !! "date" = Some d)
    (Htime : merged_context a cid info !! "time" = Some t)
    (Hbad : resolve_datetime env d t = None) :
  let r := SessionSchedulingAgent.handle_schedule_request env a info cid in
  r.1 = different_format
  /\ SessionSchedulingAgent.session_manager r.2
     = SessionSchedulingAgent.session_manager a
  /\ SessionSchedulingAgent.conversation_context r.2 !! cid
     = Some (merged_context a cid info)
  /\ forall info',
       info_dates info' = [] -> info_times info' = [] ->
       (SessionSchedulingAgent.handle_schedule_request env r.2 info' cid).1
       = different_format.
Proof.
  assert (Hstuck : forall b i,
            merged_context b cid i !! "name" <> None ->
            merged_context b cid i !! "phone" <> None ->
            merged_context b cid i !! "date" = Some d ->
            merged_context b cid i !! "time" = Some t ->
            SessionSchedulingAgent.handle_schedule_request env b i cid
            = (different_format,
               {| SessionSchedulingAgent.session_manager :=
                    SessionSchedulingAgent.session_manager b;
                  SessionSchedulingAgent.conversation_context :=
                    <[cid := merged_context b cid i]>
                      (SessionSchedulingAgent.conversation_context b) |})).
  { intros b i Hn Hp Hd Ht.
    unfold SessionSchedulingAgent.handle_schedule_request.
    fold (merged_context b cid i).
    rewrite prompt_for_missing_fields, Hd, Ht.
    destruct (merged_context b cid i !! "name"); [| congruence].
    destruct (merged_context b cid i !! "phone"); [| congruence].
    rewrite (read_draft_unreadable _ _ _ _ Hd Ht Hbad). reflexivity. }
  intros r. subst r.
  rewrite (Hstuck a info) by congruence.
  cbn [fst snd SessionSchedulingAgent.session_manager
       SessionSchedulingAgent.conversation_context].
  split; [reflexivity |]. split; [reflexivity |].
  split; [apply lookup_insert_eq |].
  intros info' Hdates Htimes.
  set (b := {| SessionSchedulingAgent.session_manager := _;
               SessionSchedulingAgent.conversation_context := _ |}).
  assert (Hctx : merged_context b cid info'
                 = update_context (merged_context a cid info) info').
  { unfold merged_context at 1. unfold b.
    cbn [SessionSchedulingAgent.conversation_context].
    rewrite lookup_insert_eq. reflexivity. }
  destruct (update_context_lookup (merged_context a cid info) info')
    as (Hn & Hp & Hd & Ht).
  rewrite Hdates in Hd. rewrite Htimes in Ht.
  rewrite (Hstuck b info'); [reflexivity | | | |]; rewrite Hctx.
  - rewrite Hn, Hname. destruct (info_name info') as [x |];
      [destruct (truthy x) |]; discriminate.
  - rewrite Hp, Hphone. destruct (info_phone info') as [x |];
      [destruct (truthy x) |]; discriminate.
  - rewrite Hd. exact Hdate.
  - rewrite Ht. exact Htime.
Qed.

(** "next week" is a date the pattern extracts and [dateutil] does not
    read; nor does the parser of [env0]. *)
Lemma unreadable_draft_is_kept_witness :
  let info :=
    {| info_intent := schedule; info_dates := ["next week"%string];
       info_times := ["2pm"%string];
       info_phone := Some "555-123-4567"%string;
       info_name := Some "jane smith"%string |} in
  let r := SessionSchedulingAgent.handle_schedule_request Examples.env0
             Examples.booking_agent info "call-1" in
  r.1 = different_format
  /\ SessionSchedulingAgent.session_manager r.2 = Examples.booking_store
  /\ (SessionSchedulingAgent.handle_schedule_request Examples.env0 r.2
        {| info_intent := schedule; info_dates := []; info_times := [];
           info_phone := None; info_name := Some "jane"%string |} "call-1").1
     = different_format.
Proof.
  intros info r.
  destruct (unreadable_draft_is_kept Examples.env0 Examples.booking_agent info
              "call-1" "jane smith" "555-123-4567" "next week" "2pm")
    as (Hreply & Hstore & _ & Hnext);
    try (vm_compute; reflexivity).
  split; [exact Hreply |]. split; [exact Hstore |].
  apply Hnext; reflexivity.
Defined.

(** X18.  A confirmation is backed by the store: the draft of the
    conversation is cleared; a new scheduled session at the confirmed time
    is stored for the default trainer, with its reminder pending, under an id
    that was free, for a client on file whose balance is the number the
    reply reports; from then on a slot of the default trainer on that day is
    returned only for an aware date and only when it does not overlap the
    hour of the session; and the session is in the reminder queue as soon as
    it is due, for every lead for which now plus the lead is a
    [datetime]. *)
Theorem confirmed_booking_is_in_force
    (env : environment) (a : SessionSchedulingAgent.agent)
    (info : extracted_info) (cid : string) (dt n : Z)
    (Hconfirmed :
       (SessionSchedulingAgent.handle_schedule_request env a info cid).1
       = session_scheduled dt n) :
  let a' := (SessionSchedulingAgent.handle_schedule_request env a info cid).2 in
  let st' := SessionSchedulingAgent.session_manager a' in
  SessionSchedulingAgent.conversation_context a' !! cid = Some ∅
  /\ (exists i s,
        SessionManager.sessions (SessionSchedulingAgent.session_manager a) !! i
        = None
        /\ SessionManager.sessions st' !! i = Some s
        /\ SessionManager.dateTime s = dt
        /\ SessionManager.session_status s = scheduled
        /\ SessionManager.autoReminderSent s = false
        /\ SessionManager.session_trainerId s
           = SessionSchedulingAgent.default_trainer_id
        /\ SessionManager.duration s = Some 60
        /\ SessionManager.clients st' !! SessionManager.clientId s <> None
        /\ balance st' (SessionManager.clientId s) = n)
  /\ (forall date dur t,
        on_day (wall date) dt ->
        t ∈ SessionManager.get_available_slots st'
              SessionSchedulingAgent.default_trainer_id date dur ->
        tzinfo date <> None
        /\ ~ overlaps t (t + timedelta_minutes dur) dt
              (dt + timedelta_minutes 60))
  /\ (forall utcnow hours_ahead,
        in_range utcnow (timedelta_hours hours_ahead) ->
        dt <= utcnow + timedelta_hours hours_ahead ->
        exists i s,
          (i, s) ∈ SessionManager.get_sessions_needing_reminders st' utcnow
                     hours_ahead
          /\ SessionManager.dateTime s = dt).
Proof.
  intros a' st'. subst st' a'.
  destruct (handle_schedule_request_confirmed _ _ _ _ _ _ Hconfirmed)
    as (nm & ph & id & c & _ & Hph & Hpos & Hn & ->).
  cbn [SessionSchedulingAgent.session_manager
       SessionSchedulingAgent.conversation_context].
  set (sid := fresh (dom (SessionManager.sessions
                            (SessionSchedulingAgent.session_manager a)))).
  set (new := SessionManager.session_data id nm
                SessionSchedulingAgent.default_trainer_id dt "Gym" 60).
  split; [apply lookup_insert_eq |]. split; [| split].
  - exists sid, new. split; [apply fresh_session_id |].
    cbn [SessionManager.sessions SessionManager.clients].
    split; [apply lookup_insert_eq |].
    repeat (split; [reflexivity |]). split.
    + simpl. rewrite lookup_insert_eq. discriminate.
    + rewrite balance_insert. simpl. rewrite decide_True by reflexivity.
      reflexivity.
  - intros date dur t Hday Hin.
    apply (session_slots_through _ _ _ _ _ sid new Hin);
      [| reflexivity | exact Hday | reflexivity].
    cbn [SessionManager.sessions]. apply lookup_insert_eq.
  - intros utcnow hours_ahead Hrange Hdue. exists sid, new.
    split; [| reflexivity]. apply needing_reminders_iff.
    split; [exact Hrange |].
    cbn [SessionManager.sessions]. split; [apply lookup_insert_eq |].
    repeat split. exact Hdue.
Qed.

(** Jane Smith's complete request for tomorrow at 2 pm; the reminder is
    queued when read tomorrow at 08:00 with a lead of 24 hours. *)
Lemma confirmed_booking_is_in_force_witness :
  let dt := Examples.day0 + timedelta_days 1 + timedelta_hours 14 in
  let a' := (SessionSchedulingAgent.handle_schedule_request Examples.env0
               Examples.booking_agent Examples.full_request "call-1").2 in
  SessionSchedulingAgent.conversation_context a' !! "call-1" = Some ∅
  /\ (forall t,
        t ∈ SessionManager.get_available_slots
              (SessionSchedulingAgent.session_manager a')
              SessionSchedulingAgent.default_trainer_id (aware dt) 60 ->
        ~ overlaps t (t + timedelta_minutes 60) dt (dt + timedelta_minutes 60))
  /\ (exists i s,
        (i, s) ∈ SessionManager.get_sessions_needing_reminders
                   (SessionSchedulingAgent.session_manager a')
                   (Examples.utcnow0 + timedelta_days 1) 24
        /\ SessionManager.dateTime s = dt).
Proof.
  intros dt a'.
  destruct (confirmed_booking_is_in_force Examples.env0 Examples.booking_agent
              Examples.full_request "call-1" dt 1)
    as (Hctx & _ & Hslots & Hqueue).
  - vm_compute. reflexivity.
  - split; [exact Hctx |]. split.
    + intros t Hin. apply (Hslots (aware dt) 60 t); [| exact Hin].
      unfold on_day, dt. vm_compute. split; [discriminate | reflexivity].
    + apply Hqueue; [reflexivity |]. unfold dt. by_compute.
Defined.

(** X19.  The appointment agent books whenever the draft can be read: it
    has no package check and makes no availability query, so for every store
    the reply is the confirmation, a new scheduled one-hour appointment with
    the default trainer is stored at the requested time under an id that was
    free, every appointment already stored stays as it was (one at the same
    time included), and the draft is cleared. *)
Theorem appointment_request_always_books
    (env : environment) (a : AppointmentSchedulingAgent.agent)
    (info : extracted_info) (cid : string) (dt : Z) (ph nm : string)
    (Hdraft :
       read_draft env
         (update_context
            (default ∅ (AppointmentSchedulingAgent.conversation_context a !! cid))
            info)
       = Some (dt, ph, nm)) :
  let r := AppointmentSchedulingAgent.handle_schedule_request env a info cid in
  let st := AppointmentSchedulingAgent.appointment_manager a in
  let st' := AppointmentSchedulingAgent.appointment_manager r.2 in
  exists id x,
    r.1 = appointment_scheduled dt id
    /\ AppointmentManager.appointments st !! id = None
    /\ AppointmentManager.appointments st' !! id = Some x
    /\ AppointmentManager.appointment_time x = dt
    /\ AppointmentManager.duration_minutes x = 60
    /\ AppointmentManager.trainer_id x = "default_trainer"%string
    /\ AppointmentManager.appointment_status x = scheduled
    /\ AppointmentManager.reminder_sent x = false
    /\ (exists c, AppointmentManager.clients st' !! AppointmentManager.client_id x
                  = Some c
                  /\ AppointmentManager.phone c = ph)
    /\ (forall j y, AppointmentManager.appointments st !! j = Some y ->
                    AppointmentManager.appointments st' !! j = Some y)
    /\ AppointmentSchedulingAgent.conversation_context r.2 !! cid = Some ∅.
Proof.
  intros r st st'. subst r st st'.
  unfold AppointmentSchedulingAgent.handle_schedule_request.
  rewrite (read_draft_complete _ _ _ _ _ Hdraft), Hdraft.
  set (st := AppointmentSchedulingAgent.appointment_manager a).
  assert (Hclient : exists cl st1 c,
            match AppointmentManager.get_client_by_phone st ph with
            | Some client => (client.1, st)
            | None => AppointmentManager.create_client st nm ph
            end = (cl, st1)
            /\ AppointmentManager.clients st1 !! cl = Some c
            /\ AppointmentManager.phone c = ph
            /\ AppointmentManager.appointments st1
               = AppointmentManager.appointments st).
  { destruct (AppointmentManager.get_client_by_phone st ph) as [[cl c] |] eqn:Hph.
    - exists cl, st, c. split; [reflexivity |].
      unfold AppointmentManager.get_client_by_phone in Hph.
      apply head_Some_elem_of, list_elem_of_filter in Hph as [Hp Hin].
      apply elem_of_map_to_list in Hin. repeat split; assumption.
    - eexists _, _, _. split; [reflexivity |].
      cbn [AppointmentManager.clients AppointmentManager.appointments].
      split; [apply lookup_insert_eq |]. split; reflexivity. }
  destruct Hclient as (cl & st1 & c & -> & Hcl & Hphone & Happ).
  unfold AppointmentManager.create_appointment.
  cbn [fst snd AppointmentSchedulingAgent.appointment_manager
       AppointmentSchedulingAgent.conversation_context
       AppointmentManager.appointments AppointmentManager.clients].
  rewrite Happ.
  set (id := fresh (dom (AppointmentManager.appointments st))).
  assert (Hfresh : AppointmentManager.appointments st !! id = None)
    by apply not_elem_of_dom, is_fresh.
  eexists id, _. split; [reflexivity |]. split; [exact Hfresh |].
  split; [apply lookup_insert_eq |].
  repeat (split; [reflexivity |]).
  split; [exists c; split; assumption |]. split.
  - intros j y Hj. rewrite lookup_insert_ne; [exact Hj | congruence].
  - apply lookup_insert_eq.
Qed.

(** A request for tomorrow at 2 pm from a number that is not on file,
    against a store that holds two appointments. *)
Lemma appointment_request_always_books_witness :
  exists id,
    (AppointmentSchedulingAgent.handle_schedule_request Examples.env0
       {| AppointmentSchedulingAgent.appointment_manager :=
            Examples.two_appointments;
          AppointmentSchedulingAgent.conversation_context := ∅ |}
       Examples.full_request "call-1").1
    = appointment_scheduled
        (Examples.day0 + timedelta_days 1 + timedelta_hours 14) id.
Proof.
  destruct (appointment_request_always_books Examples.env0
              {| AppointmentSchedulingAgent.appointment_manager :=
                   Examples.two_appointments;
                 AppointmentSchedulingAgent.conversation_context := ∅ |}
              Examples.full_request "call-1"
              (Examples.day0 + timedelta_days 1 + timedelta_hours 14)
              "555-123-4567" "jane smith")
    as (id & x & Hreply & _).
  - vm_compute. reflexivity.
  - exists id. exact Hreply.
Defined.

(** ** Outbound calls *)

Section OutboundLoops.

Lemma follow_up_loop_counts create_call st client_ids :
  forall acc,
    SessionOutboundCaller.total_clients
      (SessionOutboundCaller.follow_up_loop create_call st client_ids acc)
    = SessionOutboundCaller.total_clients acc
    /\ SessionOutboundCaller.follow_up_successful_calls
         (SessionOutboundCaller.follow_up_loop create_call st client_ids acc)
       = SessionOutboundCaller.follow_up_successful_calls acc
         + Z.of_nat (length (filter
             (fun id => SessionOutboundCaller.make_follow_up_call create_call st id
                        = true) client_ids))
    /\ SessionOutboundCaller.follow_up_failed_calls
         (SessionOutboundCaller.follow_up_loop create_call st client_ids acc)
       = SessionOutboundCaller.follow_up_failed_calls acc
         + Z.of_nat (length (filter
             (fun id => SessionOutboundCaller.make_follow_up_call create_call st id
                        = false) client_ids)).
Proof.
  induction client_ids as [| id rest IH]; intros acc.
  - simpl. repeat split; lia.
  - cbn [SessionOutboundCaller.follow_up_loop]. cbv zeta.
    rewrite !filter_cons.
    destruct (SessionOutboundCaller.make_follow_up_call create_call st id) eqn:Hcall.
    + rewrite decide_True by reflexivity. rewrite decide_False by discriminate.
      destruct (IH {| SessionOutboundCaller.total_clients :=
                        SessionOutboundCaller.total_clients acc;
                      SessionOutboundCaller.follow_up_successful_calls :=
                        SessionOutboundCaller.follow_up_successful_calls acc + 1;
                      SessionOutboundCaller.follow_up_failed_calls :=
                        SessionOutboundCaller.follow_up_failed_calls acc |})
        as (Ht & Hs & Hf).
      rewrite Ht, Hs, Hf. simpl. repeat split; lia.
    + rewrite decide_False by discriminate. rewrite decide_True by reflexivity.
      destruct (IH {| SessionOutboundCaller.total_clients :=
                        SessionOutboundCaller.total_clients acc;
                      SessionOutboundCaller.follow_up_successful_calls :=
                        SessionOutboundCaller.follow_up_successful_calls acc;
                      SessionOutboundCaller.follow_up_failed_calls :=
                        SessionOutboundCaller.follow_up_failed_calls acc + 1 |})
        as (Ht & Hs & Hf).
      rewrite Ht, Hs, Hf. simpl. repeat split; lia.
Qed.

Lemma appointment_reminder_loop_fails start queue :
  forall successful_calls failed_calls st,
    AppointmentOutboundCaller.reminder_loop start queue successful_calls
      failed_calls st
    = (successful_calls, failed_calls ++ queue.*1, st).
Proof.
  induction queue as [| d queue IH]; intros successful_calls failed_calls st.
  - simpl. rewrite app_nil_r. reflexivity.
  - cbn [AppointmentOutboundCaller.reminder_loop].
    unfold AppointmentOutboundCaller.make_reminder_call,
      AppointmentOutboundCaller.get_appointment_by_id.
    rewrite IH, <- app_assoc. reflexivity.
Qed.

Lemma scheduling_loop_lookup start phone_numbers :
  forall results p,
    AppointmentOutboundCaller.scheduling_loop start phone_numbers results !! p
    = if decide (p ∈ phone_numbers)
      then Some (AppointmentOutboundCaller.make_scheduling_call start p)
      else results !! p.
Proof.
  induction phone_numbers as [| q rest IH]; intros results p.
  - cbn [AppointmentOutboundCaller.scheduling_loop].
    destruct (decide (p ∈ [])) as [Hin | _]; [inversion Hin | reflexivity].
  - cbn [AppointmentOutboundCaller.scheduling_loop]. cbv zeta. rewrite IH.
    destruct (decide (p ∈ rest)) as [Hin | Hout];
      destruct (decide (p ∈ q :: rest)) as [Hin' | Hout'].
    + reflexivity.
    + exfalso. apply Hout'. right. exact Hin.
    + apply elem_of_cons in Hin' as [-> | Hin']; [| contradiction].
      apply lookup_insert_eq.
    + apply lookup_insert_ne. intros ->. apply Hout'. left.
Qed.

Lemma scheduling_loop_size start phone_numbers :
  forall results,
    (size (AppointmentOutboundCaller.scheduling_loop start phone_numbers results)
     <= size results + length phone_numbers)%nat.
Proof.
  induction phone_numbers as [| q rest IH]; intros results.
  - simpl. lia.
  - cbn [AppointmentOutboundCaller.scheduling_loop]. cbv zeta.
    etransitivity; [apply IH |]. simpl length.
    destruct (results !! q) eqn:Hq.
    + rewrite map_size_insert_Some by eauto. lia.
    + rewrite map_size_insert_None by exact Hq. lia.
Qed.

End OutboundLoops.

(** X20.  [bulk_follow_up_calls] counts every entry of the list once, as
    successful or as failed: the total is the length of the list, the two
    counters add up to it, and a call is successful exactly when the client
    id is on file and the call to the client's number is created.  When
    none of the listed ids is on file, every entry is a failed call. *)
Theorem bulk_follow_up_calls_counts
    (create_call : SessionOutboundCaller.named_telephony)
    (st : SessionManager.store) (client_ids : list doc_id) :
  let r := SessionOutboundCaller.bulk_follow_up_calls create_call st client_ids in
  let reached (id : doc_id) :=
    exists c, SessionManager.clients st !! id = Some c
              /\ create_call (SessionManager.phone c) (SessionManager.name c)
                 = SessionOutboundCaller.call_initiated in
  SessionOutboundCaller.total_clients r = Z.of_nat (length client_ids)
  /\ SessionOutboundCaller.follow_up_successful_calls r
     + SessionOutboundCaller.follow_up_failed_calls r
     = SessionOutboundCaller.total_clients r
  /\ SessionOutboundCaller.follow_up_successful_calls r
     = Z.of_nat (length (filter
         (fun id => SessionOutboundCaller.make_follow_up_call create_call st id
                    = true) client_ids))
  /\ (forall id,
        SessionOutboundCaller.make_follow_up_call create_call st id = true
        <-> reached id)
  /\ ((forall id, id ∈ client_ids -> SessionManager.clients st !! id = None) ->
      SessionOutboundCaller.follow_up_successful_calls r = 0
      /\ SessionOutboundCaller.follow_up_failed_calls r
         = Z.of_nat (length client_ids)).
Proof.
  intros r reached. subst r.
  unfold SessionOutboundCaller.bulk_follow_up_calls.
  destruct (follow_up_loop_counts create_call st client_ids
              {| SessionOutboundCaller.total_clients := Z.of_nat (length client_ids);
                 SessionOutboundCaller.follow_up_successful_calls := 0;
                 SessionOutboundCaller.follow_up_failed_calls := 0 |})
    as (Ht & Hs & Hf).
  cbn [SessionOutboundCaller.total_clients
       SessionOutboundCaller.follow_up_successful_calls
       SessionOutboundCaller.follow_up_failed_calls] in Ht, Hs, Hf.
  pose proof (filter_true_false_length
                (SessionOutboundCaller.make_follow_up_call create_call st)
                client_ids) as Hsum.
  split; [exact Ht |]. split; [rewrite Ht, Hs, Hf; lia |].
  split; [rewrite Hs; lia |]. split.
  - intros id. unfold reached, SessionOutboundCaller.make_follow_up_call,
      SessionManager.get_client_by_id.
    destruct (SessionManager.clients st !! id) as [c |].
    + destruct (create_call _ _) eqn:Hcall; split.
      * intros _. exists c. split; [reflexivity | exact Hcall].
      * reflexivity.
      * discriminate.
      * intros (c' & [= <-] & Hc). congruence.
    + split; [discriminate | intros (c & [=] & _)].
  - intros Hnone.
    assert (Hall : filter
              (fun id => SessionOutboundCaller.make_follow_up_call create_call st id
                         = true) client_ids = []).
    { clear Hs Hf Ht Hsum. induction client_ids as [| id rest IH];
        [reflexivity |].
      rewrite filter_cons, decide_False.
      - apply IH. intros j Hj. apply Hnone. right. exact Hj.
      - unfold SessionOutboundCaller.make_follow_up_call,
          SessionManager.get_client_by_id.
        rewrite (Hnone id) by left. discriminate. }
    rewrite Hall in Hs, Hsum. simpl in Hs, Hsum. split; [lia |].
    rewrite Hf. lia.
Qed.

(** X21.  The reminder sweep of the appointment service never places a
    call.  [make_reminder_call] starts by calling
    [appointment_manager.get_appointment_by_id], a method [AppointmentManager]
    does not define, so every call ends in the [except] and returns [False]:
    [process_reminder_queue] returns no id, [send_daily_reminders] lists
    every due appointment as failed, the store is not written, and the query
    for due reminders returns the same appointments after the sweep as
    before it. *)
Theorem appointment_reminders_are_never_sent
    (start : AppointmentOutboundCaller.outbound)
    (st : AppointmentManager.store) (utcnow hours_ahead : Z)
    (appointment_id : doc_id) :
  AppointmentOutboundCaller.make_reminder_call start st appointment_id
  = (false, st)
  /\ AppointmentOutboundCaller.process_reminder_queue start st utcnow hours_ahead
     = ([], st)
  /\ AppointmentSchedulerService.send_daily_reminders start st utcnow
     = ([],
        (AppointmentManager.get_appointments_needing_reminders st utcnow 24).*1,
        st)
  /\ AppointmentManager.get_appointments_needing_reminders
       (AppointmentSchedulerService.send_daily_reminders start st utcnow).2
       utcnow 24
     = AppointmentManager.get_appointments_needing_reminders st utcnow 24.
Proof.
  split; [reflexivity |].
  unfold AppointmentOutboundCaller.process_reminder_queue,
    AppointmentSchedulerService.send_daily_reminders.
  rewrite !appointment_reminder_loop_fails. repeat split.
Qed.

(** X22.  [bulk_scheduling_calls] keys its results by phone number, so a
    number that is listed more than once has one entry: the results hold
    exactly the listed numbers, each with the outcome of its call, and the
    two numbers [process_scheduling_queue] logs add up to the number of
    distinct phone numbers, which is at most the length of the list and
    equal to it when no number is repeated. *)
Theorem bulk_scheduling_calls_by_number
    (start : AppointmentOutboundCaller.outbound) (phone_numbers : list string) :
  let results :=
    AppointmentSchedulerService.process_scheduling_queue start phone_numbers in
  (forall p,
     results !! p
     = if decide (p ∈ phone_numbers)
       then Some (AppointmentOutboundCaller.make_scheduling_call start p)
       else None)
  /\ (AppointmentSchedulerService.successful results
      + AppointmentSchedulerService.failed results = size results)%nat
  /\ size results = size (list_to_set phone_numbers : gset string)
  /\ (size results <= length phone_numbers)%nat
  /\ (NoDup phone_numbers -> size results = length phone_numbers).
Proof.
  intros results. subst results.
  unfold AppointmentSchedulerService.process_scheduling_queue,
    AppointmentOutboundCaller.bulk_scheduling_calls.
  set (results := AppointmentOutboundCaller.scheduling_loop start phone_numbers ∅).
  assert (Hlookup : forall p,
            results !! p
            = if decide (p ∈ phone_numbers)
              then Some (AppointmentOutboundCaller.make_scheduling_call start p)
              else None).
  { intros p. unfold results. rewrite scheduling_loop_lookup.
    destruct (decide _); [reflexivity | apply lookup_empty]. }
  assert (Hdom : dom results = list_to_set phone_numbers).
  { apply set_eq. intros p. rewrite elem_of_dom, elem_of_list_to_set, Hlookup.
    destruct (decide (p ∈ phone_numbers)) as [Hin | Hout].
    - split; [intros _; exact Hin | intros _; eexists; reflexivity].
    - split; [intros [x Hx]; discriminate | contradiction]. }
  assert (Hsize : size results = size (list_to_set phone_numbers : gset string)).
  { rewrite <- Hdom, size_dom. reflexivity. }
  split; [exact Hlookup |]. split; [| split; [exact Hsize | split]].
  - unfold AppointmentSchedulerService.failed,
      AppointmentSchedulerService.successful.
    pose proof (length_filter (fun d : string * bool => d.2 = true)
                  (map_to_list results)) as Hle.
    rewrite length_map_to_list in Hle. lia.
  - pose proof (scheduling_loop_size start phone_numbers ∅) as Hle.
    rewrite map_size_empty in Hle. exact Hle.
  - intros Hnd. rewrite Hsize. apply size_list_to_set. exact Hnd.
Qed.

(** Two different numbers give two entries; a number listed twice has the
    one entry of its call. *)
Lemma bulk_scheduling_calls_by_number_witness :
  size (AppointmentSchedulerService.process_scheduling_queue
          (fun _ => AppointmentOutboundCaller.started)
          ["555-123-4567"; "555-000-0000"]%string)
  = 2%nat
  /\ AppointmentSchedulerService.process_scheduling_queue
       (fun _ => AppointmentOutboundCaller.started)
       ["555-123-4567"; "555-000-0000"; "555-123-4567"]%string
     !! "555-123-4567"%string
     = Some true.
Proof.
  destruct (bulk_scheduling_calls_by_number
              (fun _ => AppointmentOutboundCaller.started)
              ["555-123-4567"; "555-000-0000"]%string)
    as (_ & _ & _ & _ & Hnodup).
  destruct (bulk_scheduling_calls_by_number
              (fun _ => AppointmentOutboundCaller.started)
              ["555-123-4567"; "555-000-0000"; "555-123-4567"]%string)
    as (Hlookup & _).
  split.
  - apply Hnodup. apply (bool_decide_unpack _). vm_compute. exact I.
  - rewrite Hlookup. reflexivity.
Defined.
(** ** The availability reply *)

Section FirstFive.

Lemma format_available_slots_times (slots shown : list Z) :
  SessionSchedulingAgent.format_available_slots slots = available_times shown ->
  (1 <= length slots)%nat /\ shown = take 5 slots.
Proof.
  unfold SessionSchedulingAgent.format_available_slots.
  destruct slots; [discriminate |]. intros [= <-].
  split; [simpl; lia | reflexivity].
Qed.

Lemma first_five_of_sorted (slots : list Z) :
  StronglySorted Z.lt slots -> (1 <= length slots)%nat ->
  (1 <= length (take 5 slots) <= 5)%nat
  /\ StronglySorted Z.lt (take 5 slots)
  /\ forall t u, t ∈ slots -> t ∉ take 5 slots -> u ∈ take 5 slots -> u < t.
Proof.
  intros Hsorted Hne.
  assert (Hsplit : take 5 slots ++ drop 5 slots = slots) by apply take_drop.
  split; [| split].
  - rewrite length_take. lia.
  - rewrite <- Hsplit in Hsorted. apply (StronglySorted_app_1_l _ _ _ Hsorted).
  - intros t u Ht Hnot Hu.
    assert (Hrest : t ∈ drop 5 slots).
    { rewrite <- Hsplit in Ht. apply elem_of_app in Ht as [Ht | Ht];
        [contradiction | exact Ht]. }
    rewrite <- Hsplit in Hsorted.
    apply (StronglySorted_app_1_elem_of _ _ _ _ _ Hsorted Hu Hrest).
Qed.

End FirstFive.

(** X23.  An availability reply that lists times lists the earliest free
    slots of the default trainer, at most five of them and in ascending
    order: the day is today or tomorrow by the clock, or what the parser
    makes of the first extracted date; the list is the first five one-hour
    slots [get_available_slots] returns for that day, and every free slot it
    leaves out is later than every one it shows. *)
Theorem availability_reply_lists_earliest_five
    (env : environment) (a : SessionSchedulingAgent.agent)
    (info : extracted_info) (shown : list Z)
    (Hreply : SessionSchedulingAgent.handle_availability_request env a info
              = available_times shown) :
  (1 <= length shown <= 5)%nat
  /\ StronglySorted Z.lt shown
  /\ exists date_str rest check_date,
       info_dates info = date_str :: rest
       /\ (if String.eqb (lower_string date_str) "today" then Some (now env)
           else if String.eqb (lower_string date_str) "tomorrow"
           then Some (now env + timedelta_days 1)
           else parser_parse env date_str) = Some check_date
       /\ shown
          = take 5 (SessionManager.get_available_slots
                      (SessionSchedulingAgent.session_manager a)
                      SessionSchedulingAgent.default_trainer_id
                      (naive check_date) 60)
       /\ forall t u,
            t ∈ SessionManager.get_available_slots
                  (SessionSchedulingAgent.session_manager a)
                  SessionSchedulingAgent.default_trainer_id
                  (naive check_date) 60 ->
            t ∉ shown -> u ∈ shown -> u < t.
Proof.
  unfold SessionSchedulingAgent.handle_availability_request in Hreply.
  destruct (info_dates info) as [| date_str rest]; [discriminate |].
  destruct (if String.eqb (lower_string date_str) "today" then _ else _)
    as [check_date |] eqn:Hdate; [| discriminate].
  apply format_available_slots_times in Hreply as [Hne ->].
  destruct (first_five_of_sorted _ (session_slots_sorted _ _ _ _) Hne)
    as (Hlen & Hsorted & Hearliest).
  split; [exact Hlen |]. split; [exact Hsorted |].
  exists date_str, rest, check_date.
  split; [reflexivity |]. split; [exact Hdate |]. split; [reflexivity |].
  exact Hearliest.
Qed.

(** Tomorrow with nothing booked: 9:00 to 11:00 are shown. *)
Lemma availability_reply_lists_earliest_five_witness :
  let shown :=
    map (fun k => Examples.day0 + timedelta_days 1 + timedelta_minutes (540 + 30 * k))
        [0; 1; 2; 3; 4] in
  (1 <= length shown <= 5)%nat /\ StronglySorted Z.lt shown.
Proof.
  intros shown.
  destruct (availability_reply_lists_earliest_five Examples.env0
              Examples.booking_agent
              {| info_intent := check_availability;
                 info_dates := ["tomorrow"%string]; info_times := [];
                 info_phone := None; info_name := None |} shown)
    as (Hlen & Hsorted & _).
  - vm_compute. reflexivity.
  - split; [exact Hlen | exact Hsorted].
Defined.

(** X24.  An availability request for a day on which the default trainer
    has something busy is never answered with times.  The handlers ask
    [get_available_slots] with a naive date, and the first comparison of a
    slot with a stored timestamp raises [TypeError]: the session agent, whose
    manager catches it, replies that there are no available slots, however
    much of the day is free; the appointment agent, whose manager lets it
    through to the handler's bare [except], replies that it could not
    understand the date (when the midnights of the day are datetimes and the
    stored appointments end on one; it never replies with times). *)
Theorem availability_request_on_busy_day
    (env : environment) (sa : SessionSchedulingAgent.agent)
    (aa : AppointmentSchedulingAgent.agent) (info : extracted_info)
    (date_str : string) (rest : list string) (check_date : Z)
    (Hdates : info_dates info = date_str :: rest)
    (Hdate : (if String.eqb (lower_string date_str) "today" then Some (now env)
              else if String.eqb (lower_string date_str) "tomorrow"
              then Some (now env + timedelta_days 1)
              else parser_parse env date_str) = Some check_date) :
  (forall i s,
     SessionManager.sessions (SessionSchedulingAgent.session_manager sa) !! i
     = Some s ->
     SessionManager.session_trainerId s
     = SessionSchedulingAgent.default_trainer_id ->
     on_day check_date (SessionManager.dateTime s) ->
     SessionManager.session_status s = scheduled ->
     SessionSchedulingAgent.handle_availability_request env sa info
     = no_available_slots)
  /\ (forall i a,
        AppointmentManager.appointments
          (AppointmentSchedulingAgent.appointment_manager aa) !! i = Some a ->
        AppointmentManager.trainer_id a = "default_trainer"%string ->
        on_day check_date (AppointmentManager.appointment_time a) ->
        AppointmentManager.appointment_status a = scheduled
        \/ AppointmentManager.appointment_status a = confirmed ->
        (AppointmentSchedulingAgent.handle_availability_request env aa info
         = date_not_understood
         \/ AppointmentSchedulingAgent.handle_availability_request env aa info
            = no_available_slots)
        /\ (day_in_range (naive check_date) ->
            appointment_ends_in_range
              (AppointmentSchedulingAgent.appointment_manager aa) ->
            AppointmentSchedulingAgent.handle_availability_request env aa info
            = date_not_understood)).
Proof.
  split.
  - intros i s Hi Ht Hon Hs.
    unfold SessionSchedulingAgent.handle_availability_request.
    rewrite Hdates, Hdate.
    rewrite (session_slots_naive_busy _ _ (naive check_date) 60 i s eq_refl
               Hi Ht Hon Hs).
    reflexivity.
  - intros i a Hi Ht Hon Hs.
    unfold AppointmentSchedulingAgent.handle_availability_request.
    rewrite Hdates, Hdate. split.
    + pose proof (appointment_slots_naive_busy _ _ (naive check_date) 60 i a
                    eq_refl Hi Ht Hon Hs) as Hnone.
      destruct (AppointmentManager.get_available_slots _ _ _ _) as [l |];
        [| left; reflexivity].
      unfold returned in Hnone. simpl in Hnone. subst l. right. reflexivity.
    + intros Hday Hends.
      rewrite (appointment_slots_raise _ _ (naive check_date) 60 i a Hday Hends
                 eq_refl ltac:(discriminate) Hi Ht Hon Hs).
      reflexivity.
Qed.

(** After Jane Smith's booking for tomorrow at 2 pm is confirmed, a request
    for tomorrow's availability is answered with no available slots. *)
Lemma availability_request_on_busy_day_witness :
  SessionSchedulingAgent.handle_availability_request Examples.env0
    (SessionSchedulingAgent.handle_schedule_request Examples.env0
       Examples.booking_agent Examples.full_request "call-1").2
    {| info_intent := check_availability; info_dates := ["tomorrow"%string];
       info_times := []; info_phone := None; info_name := None |}
  = no_available_slots.
Proof.
  destruct (availability_request_on_busy_day Examples.env0
              (SessionSchedulingAgent.handle_schedule_request Examples.env0
                 Examples.booking_agent Examples.full_request "call-1").2
              {| AppointmentSchedulingAgent.appointment_manager :=
                   Examples.two_appointments;
                 AppointmentSchedulingAgent.conversation_context := ∅ |}
              {| info_intent := check_availability;
                 info_dates := ["tomorrow"%string];
                 info_times := []; info_phone := None; info_name := None |}
              "tomorrow" [] (Examples.utcnow0 + timedelta_days 1)
              eq_refl eq_refl) as [Hsessions _].
  apply (Hsessions 0%nat
           (SessionManager.session_data 0%nat "jane smith"
              SessionSchedulingAgent.default_trainer_id
              (Examples.day0 + timedelta_days 1 + timedelta_hours 14) "Gym" 60)).
  - vm_compute. reflexivity.
  - reflexivity.
  - unfold on_day. by_compute.
  - reflexivity.
Defined.
